(** * Devbox virtual machines: lifecycle and host data directory

    A shallow embedding of package [vm] (the lifecycle controller, the
    resource negotiator, the persisted scalar store and the device
    attachment builders) together with the parts of Go's [fmt], [strconv],
    [path/filepath] and [os] packages that the package calls.  The
    [exec] command of package [envcli] is embedded apart, in module
    [envcli].

    Conventions.
    - A Go [int] / [int64] is a [Z]; the 64-bit range is written out where
      the code depends on it (scanning, parsing).
    - A Go [[]byte] is a [list ascii]; a Go [string] used as a path or a
      message is a [string]; file contents are [list ascii].
    - Go methods on [*VM] mutate the receiver and the host; they are
      state transformers over [VM * World].  A run-time panic (a nil
      logger or a nil engine configuration being dereferenced) is the
      outcome [None].
    - Go errors are ordinary values ([option error], [None] is [nil]) that
      the code inspects, exactly as the source does. *)

From Stdlib Require Import ZArith Lia Ascii String Bool.
From stdpp Require Import base tactics option list gmap strings fin_maps.

Local Open Scope Z_scope.

(** ** Errors *)

Inductive error : Type :=
| ErrNotExist                       (* os.ErrNotExist (ENOENT) *)
| ErrExist                          (* os.ErrExist (EEXIST) *)
| ENOTDIR
| EISDIR
| EINVAL
| ENOTTY
| EOF                               (* io.EOF *)
| ErrUnexpectedEOF                  (* io.ErrUnexpectedEOF *)
| ErrSyntax                         (* strconv.ErrSyntax *)
| ErrRange                          (* strconv.ErrRange *)
| ScanError (msg : string)          (* fmt's scanError *)
| EngineError (msg : string)        (* an error reported by the engine *)
| Canceled                          (* context.Canceled *)
| DeadlineExceeded                  (* context.DeadlineExceeded *)
| ErrorString (msg : string)        (* fmt.Errorf without operand *)
| Errorf (msg : string) (cause : error). (* fmt.Errorf("msg: %v", cause) *)

(** [errors.Is(err, os.ErrNotExist)] and friends.  [fmt.Errorf] with [%v]
    does not wrap, so only the bare sentinel matches. *)
Definition is_ErrNotExist (e : option error) : bool :=
  match e with Some ErrNotExist => true | _ => false end.
Definition is_ErrExist (e : option error) : bool :=
  match e with Some ErrExist => true | _ => false end.
Definition is_ErrUnexpectedEOF (e : option error) : bool :=
  match e with Some ErrUnexpectedEOF => true | _ => false end.
Definition is_nil (e : option error) : bool :=
  match e with None => true | Some _ => false end.

(** ** Built-in defaults *)

Definition DefaultCPUs : Z := 1.
Definition DefaultMemory : Z := Z.shiftl 1 30.
Definition DefaultDisk : Z := Z.shiftl 1 32.

(** ** clamp *)

Definition clamp (value min max : Z) : Z :=
  if value <? min then min
  else if value >? max then max
  else value.

(** ** fmt: printing with the verb v *)

Definition byte := ascii.

Definition chr (n : Z) : ascii := ascii_of_N (Z.to_N n).
Definition ord (c : ascii) : Z := Z.of_N (N_of_ascii c).

Definition text (s : string) : list ascii := list_ascii_of_string s.

(** [fmtInteger] fills its buffer from the right: the last digit first.
    The buffer of the Go implementation holds any 64-bit number; twenty
    rounds are enough for a magnitude below 2^64. *)
Fixpoint fmt_digits (fuel : nat) (u : Z) (buf : list ascii) : list ascii :=
  match fuel with
  | O => buf
  | S fuel' =>
      if u <? 10 then chr (48 + u) :: buf
      else fmt_digits fuel' (u / 10) (chr (48 + u mod 10) :: buf)
  end.

Definition fmtInteger (v : Z) : list ascii :=
  let digits := fmt_digits 20 (Z.abs v) [] in
  if v <? 0 then "-"%char :: digits else digits.

(** The operands the package passes as [any]: an [int] or a [[]byte]. *)
Inductive value : Type :=
| IntVal (n : Z)
| BytesVal (b : list byte).

Fixpoint fmtBytes_elems (first : bool) (b : list byte) : list ascii :=
  match b with
  | [] => []
  | c :: rest =>
      (if first then [] else [" "%char])
        ++ fmtInteger (ord c) ++ fmtBytes_elems false rest
  end.

Definition fmtBytes (b : list byte) : list ascii :=
  "["%char :: fmtBytes_elems true b ++ ["]"%char].

Definition Sprint_v (v : value) : list ascii :=
  match v with
  | IntVal n => fmtInteger n
  | BytesVal b => fmtBytes b
  end.

(** [fmt.Fprintf(f, "%v\n", value)]: the bytes written. *)
Definition Sprintf_v_nl (v : value) : list ascii :=
  Sprint_v v ++ ["010"%char].

(** ** strconv.ParseInt with base 0 and 64 bits *)

Definition lower (c : ascii) : ascii := chr (Z.lor (ord c) 32).

Definition is_char (c : ascii) (s : string) : bool :=
  existsb (Ascii.eqb c) (text s).

Definition maxUint64 : Z := 2 ^ 64 - 1.

Definition digit_val (c : ascii) : option Z :=
  if (ord "0" <=? ord c) && (ord c <=? ord "9") then Some (ord c - ord "0")
  else if (ord "a" <=? ord (lower c)) && (ord (lower c) <=? ord "z")
       then Some (ord (lower c) - ord "a" + 10)
       else None.

(** The digit loop of [ParseUint]; [base0] says that underscores are
    skipped.  The result carries whether an underscore was seen. *)
Fixpoint ParseUint_loop (base : Z) (base0 : bool) (s : list ascii)
    (n : Z) (underscores : bool) : (Z * bool) + error :=
  match s with
  | [] => inl (n, underscores)
  | c :: rest =>
      if Ascii.eqb c "_" && base0 then ParseUint_loop base base0 rest n true
      else
        match digit_val c with
        | None => inr ErrSyntax
        | Some d =>
            if d >=? base then inr ErrSyntax
            else if n >=? maxUint64 / base + 1 then inr ErrRange
            else
              let n1 := n * base + d in
              if n1 >? maxUint64 then inr ErrRange
              else ParseUint_loop base base0 rest n1 underscores
        end
  end.

(** [underscoreOK]: underscores only between digits or after a base
    prefix.  [i] is the class of the previous character. *)
Inductive uclass := UStart | UDigit | UUnder | UOther.

Fixpoint underscoreOK_loop (hex : bool) (i : uclass) (s : list ascii) : bool :=
  match s with
  | [] => match i with UUnder => false | _ => true end
  | c :: rest =>
      if ((ord "0" <=? ord c) && (ord c <=? ord "9"))
         || (hex && (ord "a" <=? ord (lower c)) && (ord (lower c) <=? ord "f"))
      then underscoreOK_loop hex UDigit rest
      else if Ascii.eqb c "_" then
        match i with
        | UDigit => underscoreOK_loop hex UUnder rest
        | _ => false
        end
      else
        match i with
        | UUnder => false
        | _ => underscoreOK_loop hex UOther rest
        end
  end.

Definition strip_sign (s : list ascii) : bool * list ascii :=
  match s with
  | c :: rest =>
      if Ascii.eqb c "+" then (false, rest)
      else if Ascii.eqb c "-" then (true, rest)
      else (false, s)
  | [] => (false, s)
  end.

Definition underscoreOK (s : list ascii) : bool :=
  let s1 := snd (strip_sign s) in
  match s1 with
  | z :: p :: rest =>
      if Ascii.eqb z "0" && is_char (lower p) "box"
      then underscoreOK_loop (Ascii.eqb (lower p) "x") UDigit rest
      else underscoreOK_loop false UStart s1
  | _ => underscoreOK_loop false UStart s1
  end.

(** Base 0: the leading characters select the base. *)
Definition base_prefix (s : list ascii) : Z * list ascii :=
  match s with
  | z :: tl =>
      if Ascii.eqb z "0" then
        match tl with
        | p :: _ :: _ =>
            if Ascii.eqb (lower p) "b" then (2, drop 1 tl)
            else if Ascii.eqb (lower p) "o" then (8, drop 1 tl)
            else if Ascii.eqb (lower p) "x" then (16, drop 1 tl)
            else (8, tl)
        | _ => (8, tl)
        end
      else (10, s)
  | [] => (10, s)
  end.

Definition ParseUint (s : list ascii) : Z + error :=
  match s with
  | [] => inr ErrSyntax
  | _ :: _ =>
      let '(base, ds) := base_prefix s in
      match ParseUint_loop base true ds 0 false with
      | inr e => inr e
      | inl (n, underscores) =>
          if underscores && negb (underscoreOK s) then inr ErrSyntax
          else inl n
      end
  end.

Definition ParseInt (s : list ascii) : Z + error :=
  match s with
  | [] => inr ErrSyntax
  | _ :: _ =>
      let '(neg, s1) := strip_sign s in
      match ParseUint s1 with
      | inr e => inr e
      | inl un =>
          let cutoff := 2 ^ 63 in
          if negb neg && (un >=? cutoff) then inr ErrRange
          else if neg && (un >? cutoff) then inr ErrRange
          else inl (if neg then - un else un)
      end
  end.

(** ** fmt: scanning with the verb v

    The scanner is modelled on bytes: a byte below 0x80 is the rune of the
    same value, and the white space recognised is the ASCII one (Unicode
    spaces encoded on several bytes are outside the model). *)

Definition isSpace (c : ascii) : bool :=
  ((9 <=? ord c) && (ord c <=? 13)) || (ord c =? 32).

(** [Fscanf] scans with [nlIsSpace = false]: a newline met while skipping
    space is an error. *)
Fixpoint SkipSpace (s : list ascii) : list ascii + error :=
  match s with
  | [] => inl []
  | c :: rest =>
      if Ascii.eqb c "010" then inr (ScanError "unexpected newline")
      else if isSpace c then SkipSpace rest
      else inl s
  end.

Fixpoint accept_while (ok : ascii -> bool) (s : list ascii)
    : list ascii * list ascii :=
  match s with
  | [] => ([], [])
  | c :: rest =>
      if ok c then let '(t, r) := accept_while ok rest in (c :: t, r)
      else ([], s)
  end.

Definition accept1 (set : string) (s : list ascii) : list ascii * list ascii :=
  match s with
  | c :: rest => if is_char c set then ([c], rest) else ([], s)
  | [] => ([], [])
  end.

Definition scanBasePrefix (s : list ascii)
    : string * bool * list ascii * list ascii :=
  match s with
  | z :: rest =>
      if Ascii.eqb z "0" then
        match rest with
        | p :: rest' =>
            if is_char p "bB" then ("01_", true, [z; p], rest')
            else if is_char p "oO" then ("01234567_", true, [z; p], rest')
            else if is_char p "xX"
                 then ("0123456789aAbBcCdDeEfF_", true, [z; p], rest')
                 else ("01234567_", true, [z], rest)
        | [] => ("01234567_", true, [z], rest)
        end
      else ("0123456789_", false, [], s)
  | [] => ("0123456789_", false, [], s)
  end%string.

Definition scanNumber (digits : string) (haveDigits : bool) (s : list ascii)
    : (list ascii * list ascii) + error :=
  if haveDigits then inl (accept_while (fun c => is_char c digits) s)
  else
    match s with
    | [] => inr EOF
    | c :: rest =>
        if is_char c digits
        then let '(t, r) := accept_while (fun c => is_char c digits) rest in
             inl (c :: t, r)
        else inr (ScanError "expected integer")
    end.

Definition scanInt (s0 : list ascii) : Z + error :=
  match SkipSpace s0 with
  | inr e => inr e
  | inl [] => inr EOF
  | inl s =>
      let '(sgn, s1) := accept1 "+-" s in
      let '(digits, haveDigits, pre, s2) := scanBasePrefix s1 in
      match scanNumber digits haveDigits s2 with
      | inr e => inr e
      | inl (num, _) => ParseInt (sgn ++ pre ++ num)
      end
  end.

(** [convertString] for the verbs s and v: the next space-delimited word. *)
Definition convertString (s0 : list ascii) : list ascii + error :=
  match SkipSpace s0 with
  | inr e => inr e
  | inl [] => inr EOF
  | inl s => inl (fst (accept_while (fun c => negb (isSpace c)) s))
  end.

(** The destinations the package scans into: [*int] and [*[]byte]. *)
Inductive kind := KInt | KBytes.

Definition kind_of (v : value) : kind :=
  match v with IntVal _ => KInt | BytesVal _ => KBytes end.

Definition scanOne_v (k : kind) (s : list ascii) : value + error :=
  match k with
  | KInt => match scanInt s with inl n => inl (IntVal n) | inr e => inr e end
  | KBytes =>
      match convertString s with
      | inl w => inl (BytesVal w)
      | inr e => inr e
      end
  end.

(** [fmt.Fscanf(f, "%v", value)] on the bytes of [f]: the value stored
    through the pointer, or the error (the destination is then left as it
    was). *)
Definition Fscanf_v (k : kind) (input : list ascii) : value + error :=
  match SkipSpace input with
  | inr e => inr e
  | inl s => scanOne_v k s
  end.

(** ** Decimal numerals (used to state what the printer writes) *)

Definition dchr (d : Z) : ascii := chr (48 + d).

Definition dec_value (n : Z) (zs : list Z) : Z :=
  fold_left (fun acc d => acc * 10 + d) zs n.

Definition is_dec (d : Z) : Prop := 0 <= d < 10.

(** ** path/filepath (Unix: the separator is the slash, no volume names) *)

Definition is_sep (c : ascii) : bool := Ascii.eqb c "/".

(** The elements between separators, in order. *)
Fixpoint split_elems (cur : list ascii) (s : list ascii) : list (list ascii) :=
  match s with
  | [] => [rev cur]
  | c :: rest =>
      if is_sep c then rev cur :: split_elems [] rest
      else split_elems (c :: cur) rest
  end.

(** One element of [Clean]'s loop.  [out] is the output so far, last
    element first.  A [..] element removes the last element when there is
    one to backtrack over, is kept in a path that is not rooted, and is
    dropped at the root. *)
Definition clean_elem (rooted : bool) (out : list (list ascii))
    (elem : list ascii) : list (list ascii) :=
  if bool_decide (elem = []) then out
  else if bool_decide (elem = text ".") then out
  else if bool_decide (elem = text "..") then
    match out with
    | top :: below =>
        if bool_decide (top = text "..") then elem :: out else below
    | [] => if rooted then [] else [elem]
    end
  else elem :: out.

Fixpoint join_elems (elems : list (list ascii)) : list ascii :=
  match elems with
  | [] => []
  | [e] => e
  | e :: rest => e ++ "/"%char :: join_elems rest
  end.

Definition Clean_bytes (path : list ascii) : list ascii :=
  match path with
  | [] => text "."
  | c :: _ =>
      let rooted := is_sep c in
      let out := fold_left (clean_elem rooted) (split_elems [] path) [] in
      let body := join_elems (rev out) in
      if rooted then "/"%char :: body
      else match body with [] => text "." | _ => body end
  end.

Definition Clean (path : string) : string :=
  string_of_list_ascii (Clean_bytes (list_ascii_of_string path)).

(** [filepath.Join]: the first non-empty element and all that follow,
    joined by separators and cleaned. *)
Fixpoint Join (elem : list string) : string :=
  match elem with
  | [] => ""
  | e :: rest =>
      if bool_decide (e = ""%string) then Join rest
      else Clean (string_of_list_ascii
                    (join_elems (map list_ascii_of_string elem)))
  end.

(** The prefix of [s] up to and including its last separator. *)
Fixpoint upto_last_sep (s : list ascii) : list ascii :=
  match s with
  | [] => []
  | c :: rest =>
      if existsb is_sep s then c :: upto_last_sep rest else []
  end.

Definition Dir (path : string) : string :=
  string_of_list_ascii
    (Clean_bytes (upto_last_sep (list_ascii_of_string path))).

Fixpoint strip_leading_seps (s : list ascii) : list ascii :=
  match s with
  | c :: rest => if is_sep c then strip_leading_seps rest else s
  | [] => []
  end.

Definition strip_trailing_seps (s : list ascii) : list ascii :=
  rev (strip_leading_seps (rev s)).

Fixpoint after_last_sep (s : list ascii) : list ascii :=
  match s with
  | [] => []
  | c :: rest => if existsb is_sep s then after_last_sep rest else s
  end.

Definition Base (path : string) : string :=
  if bool_decide (path = ""%string) then "."
  else
    let p := after_last_sep (strip_trailing_seps (list_ascii_of_string path)) in
    match p with
    | [] => "/"
    | _ => string_of_list_ascii p
    end.

(** ** os: files and directories

    The file system maps a cleaned path to a node.  A regular file has a
    size and the bytes written so far; the bytes between them and the
    size are a hole that reads as zeros, which is what [Truncate] leaves
    in a new disk image.  Permission bits are not modelled: an existing
    node is readable and writable by the process.  Symbolic links are
    kept apart and are consulted only by [Readlink]. *)

Record file : Type := { fsize : Z; fdata : list ascii }.

Inductive node : Type :=
| NDir
| NFile (f : file).

Definition empty_file : file := {| fsize := 0; fdata := [] |}.

Definition file_bytes (f : file) : list ascii :=
  fdata f ++ repeat (chr 0) (Z.to_nat (fsize f) - length (fdata f)).

(** Open flags, with the values of darwin's syscall package. *)
Definition O_RDONLY : Z := 0.
Definition O_WRONLY : Z := 1.
Definition O_RDWR : Z := 2.
Definition O_APPEND : Z := 8.
Definition O_CREATE : Z := 512.
Definition O_TRUNC : Z := 1024.
Definition O_EXCL : Z := 2048.

Definition has_flag (flag bit : Z) : bool := negb (Z.land flag bit =? 0).
Definition write_mode (flag : Z) : bool := negb (Z.land flag 3 =? 0).

(** Looking for the directory that is to hold [path]: every ancestor
    must be a directory.  The nearest ancestor that exists decides:
    a file gives ENOTDIR, a missing parent gives ENOENT. *)
Fixpoint parent_status (fuel : nat) (fs : gmap string node) (path : string)
    : option error :=
  let parent := Dir path in
  match fs !! parent with
  | Some NDir => None
  | Some (NFile _) => Some ENOTDIR
  | None =>
      match fuel with
      | O => Some ErrNotExist
      | S fuel' =>
          if bool_decide (parent = path) then Some ErrNotExist
          else
            match parent_status fuel' fs parent with
            | Some ENOTDIR => Some ENOTDIR
            | _ => Some ErrNotExist
            end
      end
  end.

Definition parent_of (fs : gmap string node) (path : string) : option error :=
  parent_status (String.length path) fs path.

(** [os.OpenFile(path, flag, perm)]: the error and the file system
    afterwards.  The handle is the path itself. *)
Definition OpenFile (fs : gmap string node) (path : string) (flag : Z)
    : option error * gmap string node :=
  match fs !! path with
  | Some NDir =>
      if has_flag flag O_CREATE && has_flag flag O_EXCL then (Some ErrExist, fs)
      else if write_mode flag || has_flag flag O_CREATE then (Some EISDIR, fs)
      else (None, fs)
  | Some (NFile f) =>
      if has_flag flag O_CREATE && has_flag flag O_EXCL then (Some ErrExist, fs)
      else if has_flag flag O_TRUNC && write_mode flag
           then (None, <[path := NFile empty_file]> fs)
           else (None, fs)
  | None =>
      match parent_of fs path with
      | Some e => (Some e, fs)
      | None =>
          if has_flag flag O_CREATE
          then (None, <[path := NFile empty_file]> fs)
          else (Some ErrNotExist, fs)
      end
  end.

(** The first [n] bytes of [l] (the size of a disk image is far beyond
    what a unary number can count). *)
Fixpoint take_bytes (n : Z) (l : list ascii) : list ascii :=
  match l with
  | [] => []
  | c :: rest => if n <=? 0 then [] else c :: take_bytes (n - 1) rest
  end.

(** [f.Truncate(size)] on an open file. *)
Definition Truncate (fs : gmap string node) (path : string) (size : Z)
    : option error * gmap string node :=
  match fs !! path with
  | Some (NFile f) =>
      if size <? 0 then (Some EINVAL, fs)
      else (None, <[path := NFile {| fsize := size;
                                     fdata := take_bytes size (fdata f) |}]> fs)
  | _ => (Some EINVAL, fs)
  end.

(** Writing [data] through a handle opened for writing.  A handle opened
    with O_TRUNC or on a new file writes from offset zero of an empty
    file; one opened with O_APPEND writes at the end.  Both are an
    append to the bytes of the file. *)
Definition WriteFile (fs : gmap string node) (path : string)
    (data : list ascii) : option error * gmap string node :=
  match fs !! path with
  | Some (NFile f) =>
      let bytes := file_bytes f ++ data in
      (None, <[path := NFile {| fsize := Z.of_nat (length bytes);
                                fdata := bytes |}]> fs)
  | _ => (Some EISDIR, fs)
  end.

(** Reading a handle to its end. *)
Definition ReadFile (fs : gmap string node) (path : string)
    : list ascii + error :=
  match fs !! path with
  | Some (NFile f) => inl (file_bytes f)
  | _ => inr EISDIR
  end.

(** [os.Mkdir(path, perm)]. *)
Definition Mkdir (fs : gmap string node) (path : string)
    : option error * gmap string node :=
  match fs !! path with
  | Some _ => (Some ErrExist, fs)
  | None =>
      match parent_of fs path with
      | Some e => (Some e, fs)
      | None => (None, <[path := NDir]> fs)
      end
  end.

(** The parent that [MkdirAll] recurses on: [path] without its last
    element and the separators before it. *)
Definition MkdirAll_parent (path : string) : string :=
  string_of_list_ascii
    (strip_trailing_seps
       (upto_last_sep (strip_trailing_seps (list_ascii_of_string path)))).

(** [os.MkdirAll(path, perm)]. *)
Fixpoint MkdirAll_rec (fuel : nat) (fs : gmap string node) (path : string)
    : option error * gmap string node :=
  match fs !! path with
  | Some NDir => (None, fs)
  | Some (NFile _) => (Some ENOTDIR, fs)
  | None =>
      match fuel with
      | O => Mkdir fs path
      | S fuel' =>
          let parent := MkdirAll_parent path in
          let '(err, fs1) :=
            if bool_decide (parent = ""%string) then (None, fs)
            else MkdirAll_rec fuel' fs parent in
          match err with
          | Some e => (Some e, fs1)
          | None =>
              let '(err1, fs2) := Mkdir fs1 path in
              match err1, fs2 !! path with
              | Some _, Some NDir => (None, fs2)
              | _, _ => (err1, fs2)
              end
          end
      end
  end.

Definition MkdirAll (fs : gmap string node) (path : string)
    : option error * gmap string node :=
  MkdirAll_rec (String.length path) fs path.

(** [os.Readlink]. *)
Definition Readlink (fs : gmap string node) (links : gmap string string)
    (path : string) : string + error :=
  match links !! path with
  | Some target => inl target
  | None =>
      match fs !! path with
      | Some _ => inr EINVAL
      | None => inr ErrNotExist
      end
  end.

(** ** The engine's objects

    The virtualization engine is an external collaborator.  What the
    package builds for it is kept as plain data; whether each of its
    constructors succeeds is decided by an [Engine] record (below). *)

Inductive bootLoader : Type :=
| LinuxBootLoader (kernel initrd cmdline : string)
| InstallerLoader (name : string).

Inductive SerialPort : Type := StdioConsole.

Inductive StorageDevice : Type :=
| DiskImage (path : string) (readOnly : bool)
| InstallerImage (name : string).

Inductive NetworkDevice : Type := NATDevice (mac : Z).

Inductive EntropyDevice : Type := VirtioEntropy.

Record DirShare : Type := {
  share_tag : string;
  share_path : string;
  share_readOnly : bool
}.

Record Configuration : Type := {
  c_loader : bootLoader;
  c_cpus : Z;
  c_memory : Z;
  c_serial : list SerialPort;
  c_storage : list StorageDevice;
  c_network : list NetworkDevice;
  c_entropy : list EntropyDevice;
  c_shares : list DirShare;
  c_platform : option (list byte)
}.

Definition set_c_serial (x : list SerialPort) (c : Configuration) : Configuration :=
  {| c_loader := c_loader c; c_cpus := c_cpus c; c_memory := c_memory c; c_serial := x; c_storage := c_storage c; c_network := c_network c; c_entropy := c_entropy c; c_shares := c_shares c; c_platform := c_platform c |}.
Definition set_c_storage (x : list StorageDevice) (c : Configuration) : Configuration :=
  {| c_loader := c_loader c; c_cpus := c_cpus c; c_memory := c_memory c; c_serial := c_serial c; c_storage := x; c_network := c_network c; c_entropy := c_entropy c; c_shares := c_shares c; c_platform := c_platform c |}.
Definition set_c_network (x : list NetworkDevice) (c : Configuration) : Configuration :=
  {| c_loader := c_loader c; c_cpus := c_cpus c; c_memory := c_memory c; c_serial := c_serial c; c_storage := c_storage c; c_network := x; c_entropy := c_entropy c; c_shares := c_shares c; c_platform := c_platform c |}.
Definition set_c_entropy (x : list EntropyDevice) (c : Configuration) : Configuration :=
  {| c_loader := c_loader c; c_cpus := c_cpus c; c_memory := c_memory c; c_serial := c_serial c; c_storage := c_storage c; c_network := c_network c; c_entropy := x; c_shares := c_shares c; c_platform := c_platform c |}.
Definition set_c_shares (x : list DirShare) (c : Configuration) : Configuration :=
  {| c_loader := c_loader c; c_cpus := c_cpus c; c_memory := c_memory c; c_serial := c_serial c; c_storage := c_storage c; c_network := c_network c; c_entropy := c_entropy c; c_shares := x; c_platform := c_platform c |}.
Definition set_c_platform (x : option (list byte)) (c : Configuration) : Configuration :=
  {| c_loader := c_loader c; c_cpus := c_cpus c; c_memory := c_memory c; c_serial := c_serial c; c_storage := c_storage c; c_network := c_network c; c_entropy := c_entropy c; c_shares := c_shares c; c_platform := x |}.

Record VirtualMachine : Type := { vm_configuration : Configuration }.

(** ** The host: terminal, log, trace *)

Record termios : Type := {
  Iflag : Z; Oflag : Z; Cflag : Z; Lflag : Z;
  Cc : list Z
}.

(** darwin's values. *)
Definition ICRNL : Z := 256.
Definition ICANON : Z := 256.
Definition ECHO : Z := 8.
Definition VMIN : nat := 16.
Definition VTIME : nat := 17.

Inductive logger : Type :=
| FileLogger (path : string)     (* text handler on the log file, level debug *)
| DefaultLogger.                 (* slog.Default() *)

(** What the package does to the outside that is not a file: log records
    handed to a logger (the bytes a handler then writes are not
    modelled) and the calls made on a running engine instance. *)
Inductive event : Type :=
| EvLog (l : logger) (level msg : string)
| EvEngineStart
| EvRequestStop
| EvEngineStop.

Record World : Type := {
  fs : gmap string node;
  symlinks : gmap string string;
  TempDir : string;
  randoms : list Z;
  stdin_tty : option termios;
  trace : list event
}.

Definition set_fs (x : gmap string node) (w : World) : World :=
  {| fs := x; symlinks := symlinks w; TempDir := TempDir w; randoms := randoms w; stdin_tty := stdin_tty w; trace := trace w |}.
Definition set_randoms (x : list Z) (w : World) : World :=
  {| fs := fs w; symlinks := symlinks w; TempDir := TempDir w; randoms := x; stdin_tty := stdin_tty w; trace := trace w |}.
Definition set_stdin_tty (x : option termios) (w : World) : World :=
  {| fs := fs w; symlinks := symlinks w; TempDir := TempDir w; randoms := randoms w; stdin_tty := x; trace := trace w |}.
Definition set_trace (x : list event) (w : World) : World :=
  {| fs := fs w; symlinks := symlinks w; TempDir := TempDir w; randoms := randoms w; stdin_tty := stdin_tty w; trace := x |}.

(** ** The VM *)

Record SharedDirectory : Type := { Path : string; ReadOnly : bool }.

Record dataDirectory : Type := {
  d_path : string;
  d_isTemp : bool;
  d_init : string;
  d_initrd : string;
  d_kernel : string;
  d_bootstrap : string;
  d_image : string;
  d_cpu : string;
  d_memory : string;
  d_id : string;
  d_log : string
}.

Record VM : Type := {
  ID : list byte;
  CPUs : Z;
  Memory : Z;
  DiskSize : Z;
  OS : string;
  Arch : string;
  Install : bool;
  SharedDirectories : list SharedDirectory;
  HostDataDir : string;
  Logger : option logger;
  vzvm : option VirtualMachine;
  config : option Configuration;
  files : dataDirectory
}.

Definition set_ID (x : list byte) (vm : VM) : VM :=
  {| ID := x; CPUs := CPUs vm; Memory := Memory vm; DiskSize := DiskSize vm; OS := OS vm; Arch := Arch vm; Install := Install vm; SharedDirectories := SharedDirectories vm; HostDataDir := HostDataDir vm; Logger := Logger vm; vzvm := vzvm vm; config := config vm; files := files vm |}.
Definition set_CPUs (x : Z) (vm : VM) : VM :=
  {| ID := ID vm; CPUs := x; Memory := Memory vm; DiskSize := DiskSize vm; OS := OS vm; Arch := Arch vm; Install := Install vm; SharedDirectories := SharedDirectories vm; HostDataDir := HostDataDir vm; Logger := Logger vm; vzvm := vzvm vm; config := config vm; files := files vm |}.
Definition set_Memory (x : Z) (vm : VM) : VM :=
  {| ID := ID vm; CPUs := CPUs vm; Memory := x; DiskSize := DiskSize vm; OS := OS vm; Arch := Arch vm; Install := Install vm; SharedDirectories := SharedDirectories vm; HostDataDir := HostDataDir vm; Logger := Logger vm; vzvm := vzvm vm; config := config vm; files := files vm |}.
Definition set_DiskSize (x : Z) (vm : VM) : VM :=
  {| ID := ID vm; CPUs := CPUs vm; Memory := Memory vm; DiskSize := x; OS := OS vm; Arch := Arch vm; Install := Install vm; SharedDirectories := SharedDirectories vm; HostDataDir := HostDataDir vm; Logger := Logger vm; vzvm := vzvm vm; config := config vm; files := files vm |}.
Definition set_OS (x : string) (vm : VM) : VM :=
  {| ID := ID vm; CPUs := CPUs vm; Memory := Memory vm; DiskSize := DiskSize vm; OS := x; Arch := Arch vm; Install := Install vm; SharedDirectories := SharedDirectories vm; HostDataDir := HostDataDir vm; Logger := Logger vm; vzvm := vzvm vm; config := config vm; files := files vm |}.
Definition set_Arch (x : string) (vm : VM) : VM :=
  {| ID := ID vm; CPUs := CPUs vm; Memory := Memory vm; DiskSize := DiskSize vm; OS := OS vm; Arch := x; Install := Install vm; SharedDirectories := SharedDirectories vm; HostDataDir := HostDataDir vm; Logger := Logger vm; vzvm := vzvm vm; config := config vm; files := files vm |}.
Definition set_SharedDirectories (x : list SharedDirectory) (vm : VM) : VM :=
  {| ID := ID vm; CPUs := CPUs vm; Memory := Memory vm; DiskSize := DiskSize vm; OS := OS vm; Arch := Arch vm; Install := Install vm; SharedDirectories := x; HostDataDir := HostDataDir vm; Logger := Logger vm; vzvm := vzvm vm; config := config vm; files := files vm |}.
Definition set_HostDataDir (x : string) (vm : VM) : VM :=
  {| ID := ID vm; CPUs := CPUs vm; Memory := Memory vm; DiskSize := DiskSize vm; OS := OS vm; Arch := Arch vm; Install := Install vm; SharedDirectories := SharedDirectories vm; HostDataDir := x; Logger := Logger vm; vzvm := vzvm vm; config := config vm; files := files vm |}.
Definition set_Logger (x : option logger) (vm : VM) : VM :=
  {| ID := ID vm; CPUs := CPUs vm; Memory := Memory vm; DiskSize := DiskSize vm; OS := OS vm; Arch := Arch vm; Install := Install vm; SharedDirectories := SharedDirectories vm; HostDataDir := HostDataDir vm; Logger := x; vzvm := vzvm vm; config := config vm; files := files vm |}.
Definition set_vzvm (x : option VirtualMachine) (vm : VM) : VM :=
  {| ID := ID vm; CPUs := CPUs vm; Memory := Memory vm; DiskSize := DiskSize vm; OS := OS vm; Arch := Arch vm; Install := Install vm; SharedDirectories := SharedDirectories vm; HostDataDir := HostDataDir vm; Logger := Logger vm; vzvm := x; config := config vm; files := files vm |}.
Definition set_config (x : option Configuration) (vm : VM) : VM :=
  {| ID := ID vm; CPUs := CPUs vm; Memory := Memory vm; DiskSize := DiskSize vm; OS := OS vm; Arch := Arch vm; Install := Install vm; SharedDirectories := SharedDirectories vm; HostDataDir := HostDataDir vm; Logger := Logger vm; vzvm := vzvm vm; config := x; files := files vm |}.
Definition set_files (x : dataDirectory) (vm : VM) : VM :=
  {| ID := ID vm; CPUs := CPUs vm; Memory := Memory vm; DiskSize := DiskSize vm; OS := OS vm; Arch := Arch vm; Install := Install vm; SharedDirectories := SharedDirectories vm; HostDataDir := HostDataDir vm; Logger := Logger vm; vzvm := vzvm vm; config := config vm; files := x |}.

(** The zero value of [VM]. *)
Definition zero_dataDirectory : dataDirectory :=
  {| d_path := ""; d_isTemp := false; d_init := ""; d_initrd := "";
     d_kernel := ""; d_bootstrap := ""; d_image := ""; d_cpu := "";
     d_memory := ""; d_id := ""; d_log := "" |}.

Definition zero_VM : VM :=
  {| ID := []; CPUs := 0; Memory := 0; DiskSize := 0; OS := ""; Arch := "";
     Install := false; SharedDirectories := []; HostDataDir := "";
     Logger := None; vzvm := None; config := None;
     files := zero_dataDirectory |}.

(** ** State transformers

    A method of [*VM] reads and writes the VM and the host.  [None] is a
    run-time panic. *)

Definition M (A : Type) : Type := VM * World -> option (A * (VM * World)).

Definition ret {A : Type} (a : A) : M A := fun s => Some (a, s).

Definition bind {A B : Type} (c : M A) (k : A -> M B) : M B :=
  fun s => match c s with
           | Some (a, s') => k a s'
           | None => None
           end.

Definition panic {A : Type} : M A := fun _ => None.

Definition get_vm : M VM := fun s => Some (fst s, s).
Definition get_world : M World := fun s => Some (snd s, s).
Definition modify_vm (f : VM -> VM) : M unit :=
  fun s => Some (tt, (f (fst s), snd s)).
Definition modify_world (f : World -> World) : M unit :=
  fun s => Some (tt, (fst s, f (snd s))).

Declare Scope go_scope.
Delimit Scope go_scope with go.
Notation "x <- c ;; k" := (bind c (fun x => k))
  (at level 100, c at next level, right associativity) : go_scope.
Notation "c ;; k" := (bind c (fun _ => k))
  (at level 100, right associativity) : go_scope.
Local Open Scope go_scope.

(** Lifting an operation on the file system. *)
Definition on_fs (op : gmap string node -> option error * gmap string node)
    : M (option error) :=
  w <- get_world ;;
  let '(err, fs') := op (fs w) in
  modify_world (set_fs fs') ;;
  ret err.

Definition os_OpenFile (path : string) (flag : Z) : M (option error) :=
  on_fs (fun fs => OpenFile fs path flag).
Definition os_MkdirAll (path : string) : M (option error) :=
  on_fs (fun fs => MkdirAll fs path).
Definition os_Truncate (path : string) (size : Z) : M (option error) :=
  on_fs (fun fs => Truncate fs path size).
Definition os_Write (path : string) (data : list ascii) : M (option error) :=
  on_fs (fun fs => WriteFile fs path data).

(** The next value of the runtime's random source. *)
Definition nextRandom : M Z :=
  w <- get_world ;;
  modify_world (set_randoms (tl (randoms w))) ;;
  ret (hd 0 (randoms w)).

(** [os.MkdirTemp("", pattern)]: a new directory under the temporary
    root, named by the pattern and a random number; a name that is taken
    is tried again with the next random number, up to 10000 times. *)
Definition joinPath (dir name : string) : string :=
  match rev (list_ascii_of_string dir) with
  | c :: _ => if is_sep c then dir +:+ name else dir +:+ "/" +:+ name
  | [] => dir +:+ "/" +:+ name
  end.

Fixpoint MkdirTemp_try (tries : nat) (pattern : string)
    : M (string + error) :=
  w <- get_world ;;
  r <- nextRandom ;;
  let name := joinPath (TempDir w) pattern
              +:+ string_of_list_ascii (fmtInteger (r mod 2 ^ 32)) in
  err <- on_fs (fun fs => Mkdir fs name) ;;
  match err with
  | None => ret (inl name)
  | Some ErrExist =>
      match tries with
      | S tries' => MkdirTemp_try tries' pattern
      | O => ret (inr ErrExist)
      end
  | Some e => ret (inr e)
  end.

Definition MkdirTemp (pattern : string) : M (string + error) :=
  MkdirTemp_try (Z.to_nat 9999) pattern.

(** [vm.Logger.Debug(msg, ...)] and [vm.Logger.Error(msg, ...)]: a nil
    logger panics. *)
Definition log (level msg : string) : M unit :=
  vm <- get_vm ;;
  match Logger vm with
  | None => panic
  | Some l => modify_world (fun w => set_trace (trace w ++ [EvLog l level msg]) w)
  end.

(** ** The engine as seen by the package

    Host capabilities and, for each constructor the package calls, the
    error it reports ([None]: it succeeds).  Random draws (a new machine
    identifier, a MAC address) are functions of the next value of the
    host's random source. *)

Record Engine : Type := {
  MinimumAllowedCPUCount : Z;
  MaximumAllowedCPUCount : Z;
  MinimumAllowedMemorySize : Z;
  MaximumAllowedMemorySize : Z;
  NewLinuxBootLoader : string -> string -> string -> option error;
  NewVirtualMachineConfiguration : bootLoader -> Z -> Z -> option error;
  NewFileHandleSerialPortAttachment : option error;
  NewVirtioConsoleDeviceSerialPortConfiguration : option error;
  NewDiskImageStorageDeviceAttachment :
    gmap string node -> string -> bool -> option error;
  NewVirtioBlockDeviceConfiguration : string -> option error;
  NewNATNetworkDeviceAttachment : option error;
  NewVirtioNetworkDeviceConfiguration : option error;
  NewRandomLocallyAdministeredMACAddress : Z -> Z + error;
  NewVirtioEntropyDeviceConfiguration : option error;
  NewGenericMachineIdentifier : Z -> list byte + error;
  NewGenericMachineIdentifierWithData : list byte -> option error;
  NewGenericPlatformConfiguration : list byte -> option error;
  NewSharedDirectory : string -> bool -> option error;
  NewSingleDirectoryShare : string -> option error;
  NewVirtioFileSystemDeviceConfiguration : string -> option error;
  Validate : Configuration -> bool * option error;
  NewVirtualMachine : Configuration -> option error;
  VirtualMachine_Start : VirtualMachine -> option error;
  VirtualMachine_RequestStop : VirtualMachine -> bool * option error
}.

(** Functions of the package that live in files other than the one
    modelled here (the installer support).  They are taken as they are
    declared: methods of [*VM] returning a value or an error. *)
Record Installer : Type := {
  installerBootLoader : M (bootLoader + error);
  generateBootstrapScript : M (string + error);
  installerDisk : M (StorageDevice + error)
}.

Inductive field := FCPUs | FMemory | FID.

Definition field_kind (f : field) : kind :=
  match f with FCPUs | FMemory => KInt | FID => KBytes end.

(** Storing through the pointer handed to [Fscanf]. *)
Definition store (dst : field) (v : value) (vm : VM) : VM :=
  match dst, v with
  | FCPUs, IntVal n => set_CPUs n vm
  | FMemory, IntVal n => set_Memory n vm
  | FID, BytesVal b => set_ID b vm
  | _, _ => vm
  end.

Section Package.

Variable E : Engine.
Variable I : Installer.

(** *** dataFilePath *)

Definition dataFilePath (name : string) : M (string + error) :=
  vm <- get_vm ;;
  if bool_decide (HostDataDir vm = ""%string) then
    r <- MkdirTemp "devboxvm-" ;;
    match r with
    | inr e =>
        ret (inr (Errorf "create temporary directory for virtual machine data" e))
    | inl path =>
        modify_vm (set_HostDataDir path) ;;
        ret (inl (Join [path; name]))
    end
  else ret (inl (Join [HostDataDir vm; name])).

(** *** loadStateData *)

(** [fmt.Fscanf(f, "%v", value)] on the open file. *)
Definition Fscanf_file (path : string) (dst : field) : M (option error) :=
  w <- get_world ;;
  match ReadFile (fs w) path with
  | inr e => ret (Some e)
  | inl bytes =>
      match Fscanf_v (field_kind dst) bytes with
      | inl v => modify_vm (store dst v) ;; ret None
      | inr e => ret (Some e)
      end
  end.

Definition loadStateData (name : string) (value : field) : M (option error) :=
  r <- dataFilePath name ;;
  match r with
  | inr e => ret (Some e)
  | inl path =>
      err <- os_OpenFile path O_RDONLY ;;
      if is_ErrNotExist err then ret None
      else
        match err with
        | Some e => ret (Some e)
        | None =>
            err <- Fscanf_file path value ;;
            if is_ErrUnexpectedEOF err then ret None
            else ret err
        end
  end.

(** *** saveStateData *)

Definition saveStateData_write (path : string) (value : value)
    (err : option error) : M (option error) :=
  match err with
  | Some e => ret (Some e)
  | None => os_Write path (Sprintf_v_nl value)
  end.

Definition saveStateData (name : string) (value : value) : M (option error) :=
  r <- dataFilePath name ;;
  match r with
  | inr e => ret (Some e)
  | inl path =>
      let flag := Z.lor O_WRONLY (Z.lor O_CREATE O_TRUNC) in
      err <- os_OpenFile path flag ;;
      if is_ErrNotExist err then
        err <- os_MkdirAll (Dir path) ;;
        match err with
        | Some e => ret (Some e)
        | None =>
            err <- os_OpenFile path flag ;;
            saveStateData_write path value err
        end
      else saveStateData_write path value err
  end.

(** *** configureCPUs, configureMemory *)

Definition configureCPUs_clamp (minCPU maxCPU : Z) : M unit :=
  vm <- get_vm ;;
  let clamped := clamp (CPUs vm) minCPU maxCPU in
  if negb (CPUs vm =? clamped) then
    modify_vm (set_CPUs clamped) ;;
    _ <- saveStateData "cpu" (IntVal clamped) ;;
    ret tt
  else ret tt.

Definition configureCPUs : M unit :=
  let minCPU := MinimumAllowedCPUCount E in
  let maxCPU := MaximumAllowedCPUCount E in
  vm <- get_vm ;;
  if CPUs vm =? 0 then
    _ <- loadStateData "cpu" FCPUs ;;
    vm <- get_vm ;;
    if CPUs vm =? 0 then
      modify_vm (set_CPUs (clamp DefaultCPUs minCPU maxCPU)) ;;
      vm <- get_vm ;;
      _ <- saveStateData "cpu" (IntVal (CPUs vm)) ;;
      ret tt
    else configureCPUs_clamp minCPU maxCPU
  else configureCPUs_clamp minCPU maxCPU.

Definition configureMemory_clamp (minMemory maxMemory : Z) : M unit :=
  vm <- get_vm ;;
  let clamped := clamp (Memory vm) minMemory maxMemory in
  if negb (Memory vm =? clamped) then
    modify_vm (set_Memory clamped) ;;
    _ <- saveStateData "mem" (IntVal clamped) ;;
    ret tt
  else ret tt.

Definition configureMemory : M unit :=
  let minMemory := MinimumAllowedMemorySize E in
  let maxMemory := MaximumAllowedMemorySize E in
  vm <- get_vm ;;
  if Memory vm =? 0 then
    _ <- loadStateData "mem" FMemory ;;
    vm <- get_vm ;;
    if Memory vm =? 0 then
      modify_vm (set_Memory (clamp DefaultMemory minMemory maxMemory)) ;;
      vm <- get_vm ;;
      _ <- saveStateData "mem" (IntVal (Memory vm)) ;;
      ret tt
    else configureMemory_clamp minMemory maxMemory
  else configureMemory_clamp minMemory maxMemory.

(** *** rootDisk *)

Definition rootDisk_attach (path : string) : M (StorageDevice + error) :=
  w <- get_world ;;
  match NewDiskImageStorageDeviceAttachment E (fs w) path false with
  | Some e => ret (inr (Errorf "create root disk image storage device" e))
  | None =>
      match NewVirtioBlockDeviceConfiguration E path with
      | Some e =>
          ret (inr (Errorf "configure root disk image as block device" e))
      | None => ret (inl (DiskImage path false))
      end
  end.

(** The part of [rootDisk] after the image has been opened:
    [created] is [err == nil] of the exclusive create. *)
Definition rootDisk_created (path : string) (created : bool)
    : M (StorageDevice + error) :=
  if created then
    vm <- get_vm ;;
    (if DiskSize vm =? 0 then modify_vm (set_DiskSize DefaultDisk)
     else ret tt) ;;
    vm <- get_vm ;;
    err <- os_Truncate path (DiskSize vm) ;;
    match err with
    | Some e => ret (inr (Errorf "truncate new root disk image" e))
    | None => rootDisk_attach path
    end
  else rootDisk_attach path.

Definition rootDisk_opened (path : string) (err : option error)
    : M (StorageDevice + error) :=
  match err with
  | Some e =>
      if negb (is_ErrExist err) then ret (inr e)
      else rootDisk_created path (is_nil err)
  | None => rootDisk_created path (is_nil err)
  end.

Definition rootDisk : M (StorageDevice + error) :=
  r <- dataFilePath "disk.img" ;;
  match r with
  | inr e => ret (inr (Errorf "create root disk image" e))
  | inl path =>
      let flag := Z.lor O_RDWR (Z.lor O_CREATE O_EXCL) in
      err <- os_OpenFile path flag ;;
      if is_ErrNotExist err then
        err <- os_MkdirAll (Dir path) ;;
        match err with
        | Some e =>
            ret (inr (Errorf "create directory for root disk image" e))
        | None =>
            err <- os_OpenFile path flag ;;
            rootDisk_opened path err
        end
      else rootDisk_opened path err
  end.

(** Setting a device list on the configuration under construction; a
    nil configuration panics. *)
Definition with_config (f : Configuration -> Configuration) : M unit :=
  vm <- get_vm ;;
  match config vm with
  | None => panic
  | Some c => modify_vm (set_config (Some (f c)))
  end.

(** *** attachDisks *)

Definition attachDisks : M (option error) :=
  r <- rootDisk ;;
  match r with
  | inr e => ret (Some (Errorf "create root disk" e))
  | inl root =>
      vm <- get_vm ;;
      if Install vm then
        r <- installerDisk I ;;
        match r with
        | inr e => ret (Some (Errorf "create installer disk" e))
        | inl iso =>
            with_config (set_c_storage [root; iso]) ;;
            log "DEBUG" "attached disks" ;;
            ret None
        end
      else
        with_config (set_c_storage [root]) ;;
        log "DEBUG" "attached disks" ;;
        ret None
  end.

(** *** configureLinuxPlatform *)

Definition configureLinuxPlatform_platform (id : list byte)
    : M (option error) :=
  match NewGenericPlatformConfiguration E id with
  | Some e => ret (Some (Errorf "create platform configuration" e))
  | None => with_config (set_c_platform (Some id)) ;; ret None
  end.

Definition configureLinuxPlatform : M (option error) :=
  err <- loadStateData "id" FID ;;
  match err with
  | Some e => ret (Some (Errorf "load machine identifier" e))
  | None =>
      vm <- get_vm ;;
      if (length (ID vm) =? 0)%nat then
        r <- nextRandom ;;
        match NewGenericMachineIdentifier E r with
        | inr e => ret (Some (Errorf "create machine identifier" e))
        | inl id =>
            modify_vm (set_ID id) ;;
            err <- saveStateData "id" (BytesVal id) ;;
            match err with
            | Some e => ret (Some (Errorf "save machine identifier" e))
            | None =>
                log "DEBUG" "created new machine identifier" ;;
                configureLinuxPlatform_platform id
            end
        end
      else
        match NewGenericMachineIdentifierWithData E (ID vm) with
        | Some e => ret (Some (Errorf "load machine identifier" e))
        | None =>
            log "DEBUG" "loaded machine identifier" ;;
            configureLinuxPlatform_platform (ID vm)
        end
  end.

(** *** attachSharedDirs *)

Definition configureDirShare (path : string) (readOnly : bool)
    : M (DirShare + error) :=
  match NewSharedDirectory E path readOnly with
  | Some e => ret (inr (Errorf ("create shared directory " +:+ path) e))
  | None =>
      match NewSingleDirectoryShare E path with
      | Some e => ret (inr (Errorf ("create directory share " +:+ path) e))
      | None =>
          match NewVirtioFileSystemDeviceConfiguration E (Base path) with
          | Some e =>
              ret (inr (Errorf ("create virtiofs configuration " +:+ path
                                +:+ " -> host") e))
          | None =>
              log "DEBUG" "configured shared directory" ;;
              ret (inl {| share_tag := Base path; share_path := path;
                          share_readOnly := readOnly |})
          end
      end
  end.

(** The loop over [vm.SharedDirectories]. *)
Fixpoint attachSharedDirs_loop (dirs : list SharedDirectory)
    (configs : list DirShare) : M (list DirShare + error) :=
  match dirs with
  | [] => ret (inl configs)
  | dir :: rest =>
      r <- configureDirShare (Path dir) (ReadOnly dir) ;;
      match r with
      | inr e => ret (inr e)
      | inl config => attachSharedDirs_loop rest (configs ++ [config])
      end
  end.

Definition attachSharedDirs_configs : M (option error) :=
  vm <- get_vm ;;
  r <- attachSharedDirs_loop (SharedDirectories vm) [] ;;
  match r with
  | inr e => ret (Some e)
  | inl configs =>
      with_config (set_c_shares configs) ;;
      log "DEBUG" "attached shared directories" ;;
      ret None
  end.

Definition attachSharedDirs : M (option error) :=
  vm <- get_vm ;;
  if Install vm then
    r <- generateBootstrapScript I ;;
    match r with
    | inr e => ret (Some (Errorf "generate bootstrap files" e))
    | inl dir =>
        r <- dataFilePath "boot" ;;
        match r with
        | inr e => ret (Some e)
        | inl bootDir =>
            err <- os_MkdirAll bootDir ;;
            match err with
            | Some e => ret (Some e)
            | None =>
                vm <- get_vm ;;
                modify_vm (set_SharedDirectories
                             (SharedDirectories vm
                                ++ [ {| Path := dir; ReadOnly := true |};
                                     {| Path := bootDir; ReadOnly := false |} ])) ;;
                attachSharedDirs_configs
            end
        end
    end
  else attachSharedDirs_configs.

(** *** fileBundle *)

Definition bundle (dir : string) (isTemp : bool) : dataDirectory :=
  {| d_path := dir;
     d_isTemp := isTemp;
     d_init := Join [dir; "boot"; "default"; "init"];
     d_initrd := Join [dir; "boot"; "nixos-initrd"];
     d_kernel := Join [dir; "boot"; "nixos-kernel"];
     d_bootstrap := Join [dir; "install"; "install.sh"];
     d_image := Join [dir; "disk.img"];
     d_cpu := Join [dir; "cpu"];
     d_memory := Join [dir; "mem"];
     d_id := Join [dir; "id"];
     d_log := Join [dir; "log"] |}%string.

Definition fileBundle (dir : string) : M (dataDirectory + error) :=
  if bool_decide (dir = ""%string) then
    r <- MkdirTemp "devboxvm-" ;;
    match r with
    | inr e =>
        ret (inr (Errorf "create temporary directory for virtual machine data" e))
    | inl dir => ret (inl (bundle dir true))
    end
  else ret (inl (bundle dir false)).

(** *** initLogger *)

Definition initLogger_fail (err : error) : M unit :=
  modify_vm (set_Logger (Some DefaultLogger)) ;;
  log "ERROR" "could not create log file, using slog.Default()".

Definition initLogger_opened (path : string) (err : option error) : M unit :=
  match err with
  | Some e => initLogger_fail e
  | None => modify_vm (set_Logger (Some (FileLogger path)))
  end.

Definition initLogger : M unit :=
  r <- dataFilePath "log" ;;
  match r with
  | inr e => initLogger_fail e
  | inl path =>
      let flag := Z.lor O_WRONLY (Z.lor O_CREATE O_APPEND) in
      err <- os_OpenFile path flag ;;
      if is_ErrNotExist err then
        err <- os_MkdirAll (Dir path) ;;
        match err with
        | Some e => initLogger_fail e
        | None =>
            err <- os_OpenFile path flag ;;
            initLogger_opened path err
        end
      else initLogger_opened path err
  end.

(** *** linuxBootLoader *)

Definition linuxBootLoader : M (bootLoader + error) :=
  vm <- get_vm ;;
  if Install vm then installerBootLoader I
  else
    w <- get_world ;;
    match Readlink (fs w) (symlinks w) (d_init (files vm)) with
    | inr e =>
        ret (inr (Errorf "determine path to kernel init file inside vm" e))
    | inl guestInitPath =>
        let params :=
          ("console=hvc0 root=/dev/vda init=" +:+ guestInitPath +:+
           " quiet boot.shell_on_fail rd.systemd.show_status=false rd.udev.log_level=3 rd.udev.log_priority=3")%string in
        log "DEBUG" "created boot loader" ;;
        match NewLinuxBootLoader E (d_kernel (files vm)) (d_initrd (files vm))
                                 params with
        | Some e => ret (inr e)
        | None =>
            ret (inl (LinuxBootLoader (d_kernel (files vm))
                                      (d_initrd (files vm)) params))
        end
    end.

(** *** attachConsole

    The terminal attributes of standard input are read, changed and
    written back; writing the attributes of a terminal that could be
    read is taken to succeed. *)

Definition raw_mode (term : termios) : termios :=
  {| Iflag := Z.ldiff (Iflag term) ICRNL;
     Oflag := Oflag term;
     Cflag := Cflag term;
     Lflag := Z.ldiff (Lflag term) (Z.lor ICANON ECHO);
     Cc := <[VTIME := 0]> (<[VMIN := 1]> (Cc term)) |}.

Definition attachConsole : M (option error) :=
  w <- get_world ;;
  match stdin_tty w with
  | None =>
      ret (Some (Errorf "put stdin in raw mode: get terminal attributes" ENOTTY))
  | Some term =>
      modify_world (set_stdin_tty (Some (raw_mode term))) ;;
      match NewFileHandleSerialPortAttachment E with
      | Some e => ret (Some (Errorf "create serial port attachment" e))
      | None =>
          match NewVirtioConsoleDeviceSerialPortConfiguration E with
          | Some e => ret (Some (Errorf "create serial port configuration" e))
          | None =>
              with_config (set_c_serial [StdioConsole]) ;;
              log "DEBUG" "attached console device" ;;
              ret None
          end
      end
  end.

(** *** attachNetwork, attachEntropy *)

Definition attachNetwork : M (option error) :=
  match NewNATNetworkDeviceAttachment E with
  | Some e => ret (Some (Errorf "create network attachment" e))
  | None =>
      match NewVirtioNetworkDeviceConfiguration E with
      | Some e => ret (Some (Errorf "create network configuration" e))
      | None =>
          r <- nextRandom ;;
          match NewRandomLocallyAdministeredMACAddress E r with
          | inr e => ret (Some (Errorf "create random MAC address" e))
          | inl mac =>
              with_config (set_c_network [NATDevice mac]) ;;
              log "DEBUG" "attached network device" ;;
              ret None
          end
      end
  end.

Definition attachEntropy : M (option error) :=
  match NewVirtioEntropyDeviceConfiguration E with
  | Some e => ret (Some (Errorf "create entropy configuration" e))
  | None =>
      with_config (set_c_entropy [VirtioEntropy]) ;;
      log "DEBUG" "attached entropy device" ;;
      ret None
  end.

(** *** Start *)

(** [if err := step(); err != nil { return fmt.Errorf("msg: %v", err) }] *)
Definition step (msg : string) (c : M (option error))
    (k : M (option error)) : M (option error) :=
  err <- c ;;
  match err with
  | Some e => ret (Some (Errorf msg e))
  | None => k
  end.

(** The conversions [uint(vm.CPUs)] and [uint64(vm.Memory)]. *)
Definition uint64 (n : Z) : Z := n mod 2 ^ 64.

Definition new_configuration (loader : bootLoader) (cpus memory : Z)
    : Configuration :=
  {| c_loader := loader; c_cpus := cpus; c_memory := memory;
     c_serial := []; c_storage := []; c_network := []; c_entropy := [];
     c_shares := []; c_platform := None |}.

Definition Start_validate : M (option error) :=
  vm <- get_vm ;;
  match config vm with
  | None => panic
  | Some c =>
      let '(valid, err) := Validate E c in
      match err with
      | Some e => ret (Some (Errorf "invalid configuration" e))
      | None =>
          if negb valid then ret (Some (ErrorString "invalid configuration"))
          else
            match NewVirtualMachine E c with
            | Some e =>
                modify_vm (set_vzvm None) ;;
                ret (Some (Errorf "create virtual machine" e))
            | None =>
                let h := {| vm_configuration := c |} in
                modify_vm (set_vzvm (Some h)) ;;
                log "DEBUG" "starting virtual machine" ;;
                modify_world (fun w => set_trace (trace w ++ [EvEngineStart]) w) ;;
                ret (VirtualMachine_Start E h)
            end
      end
  end.

Definition Start : M (option error) :=
  vm <- get_vm ;;
  r <- fileBundle (HostDataDir vm) ;;
  match r with
  | inr e =>
      modify_vm (set_files zero_dataDirectory) ;;
      ret (Some (Errorf "create directory for virtual machine data" e))
  | inl bundle =>
      modify_vm (set_files bundle) ;;
      vm <- get_vm ;;
      (if bool_decide (OS vm = ""%string) then modify_vm (set_OS "linux")
       else ret tt) ;;
      vm <- get_vm ;;
      (if bool_decide (Arch vm = ""%string) then modify_vm (set_Arch "aarch64")
       else ret tt) ;;
      initLogger ;;
      configureCPUs ;;
      configureMemory ;;
      r <- linuxBootLoader ;;
      match r with
      | inr e => ret (Some (Errorf "create boot loader" e))
      | inl loader =>
          log "DEBUG" "creating virtual machine" ;;
          vm <- get_vm ;;
          match NewVirtualMachineConfiguration E loader (uint64 (CPUs vm))
                                               (uint64 (Memory vm)) with
          | Some e =>
              modify_vm (set_config None) ;;
              ret (Some (Errorf "create virtual machine configuration" e))
          | None =>
              modify_vm (set_config
                           (Some (new_configuration loader (uint64 (CPUs vm))
                                                    (uint64 (Memory vm))))) ;;
              step "attach console" attachConsole
             (step "attach disks" attachDisks
             (step "attach network" attachNetwork
             (step "attach entropy" attachEntropy
             (step "attach shared directories" attachSharedDirs
             (step "configure linux platform" configureLinuxPlatform
              Start_validate)))))
          end
      end
  end.

(** *** Stop

    [Stop] starts a goroutine that asks the engine to stop and reports
    on an unbuffered channel, and selects between that channel and
    [ctx.Done()].  The two run concurrently; what [select] sees is
    fixed by a [schedule]. *)

(** What the background task does and what it sends: [None] is the
    close of the channel (a receive then yields the nil error). *)
Definition stop_task (h : VirtualMachine) : list event * option error :=
  let '(ok, err) := VirtualMachine_RequestStop E h in
  if negb ok || negb (is_nil err) then
    ([EvRequestStop; EvEngineStop],
     match err with
     | Some e => Some (Errorf "could not shutdown gracefully" e)
     | None => Some (ErrorString "invalid machine state for stopping")
     end)
  else ([EvRequestStop], None).

End Package.

(** The context handed to [Stop], as far as [Stop] looks at it. *)
Inductive context : Type :=
| NeverDone                       (* Done() never becomes ready *)
| AlreadyDone (err : error)       (* cancelled or expired before the call *)
| DoneLater (err : error).        (* cancelled or expires during the call *)

(** The interleaving of the background task with the caller.
    [task_first]: the task has reached its send (or close) when the
    select commits.  [pick_done]: the case the runtime's pseudo-random
    choice takes when both cases are ready. *)
Record schedule : Type := { task_first : bool; pick_done : bool }.

(** [Stop] has a pointer receiver, which may be nil; it assigns to no
    field of the VM, which is returned as it was.  When [Stop] returns
    while its task is still running, the calls the task goes on to make
    are not part of what [Stop] did: the host is returned as it was. *)
Definition Stop (E : Engine) (sched : schedule) (ctx : context)
    (vm : option VM) (w : World) : option error * option VM * World :=
  match vm with
  | None => (None, vm, w)
  | Some v =>
      match vzvm v with
      | None => (None, vm, w)
      | Some h =>
          let '(calls, sent) := stop_task E h in
          let w_task := set_trace (trace w ++ calls) w in
          match ctx with
          | NeverDone => (sent, vm, w_task)
          | AlreadyDone e =>
              if task_first sched then
                if pick_done sched then (Some e, vm, w_task)
                else (sent, vm, w_task)
              else (Some e, vm, w)
          | DoneLater e =>
              if task_first sched then (sent, vm, w_task)
              else (Some e, vm, w)
          end
      end
  end.

(** ** Firmware boot: the NVRAM store

    The EFI side of the engine, kept apart from [Engine]: whether
    [vz.NewEFIVariableStore] (with or without the option that creates
    the store) and [vz.NewEFIBootLoader] succeed.  What the engine
    itself writes into the store's file is outside the model. *)

Record EFIVariableStore : Type := { nvram_path : string; nvram_created : bool }.

Inductive EFIBootLoader : Type := EFILoader (store : EFIVariableStore).

Record Firmware : Type := {
  NewEFIVariableStore : gmap string node -> string -> bool -> option error;
  NewEFIBootLoader : EFIVariableStore -> option error
}.

Section FirmwareBoot.

Variable F : Firmware.

(** *** nvram *)

(** The part of [nvram] after the file has been opened: [created] is
    [err == nil] of the exclusive create. *)
Definition nvram_store (path : string) (created : bool)
    : M (EFIVariableStore + error) :=
  w <- get_world ;;
  if created then
    match NewEFIVariableStore F (fs w) path true with
    | Some e => ret (inr (Errorf "create nvram variable store" e))
    | None => ret (inl {| nvram_path := path; nvram_created := true |})
    end
  else
    match NewEFIVariableStore F (fs w) path false with
    | Some e => ret (inr (Errorf "load nvram variable store" e))
    | None => ret (inl {| nvram_path := path; nvram_created := false |})
    end.

Definition nvram_opened (path : string) (err : option error)
    : M (EFIVariableStore + error) :=
  match err with
  | Some e =>
      if negb (is_ErrExist err) then ret (inr (Errorf "open nvram file" e))
      else nvram_store path (is_nil err)
  | None => nvram_store path (is_nil err)
  end.

Definition nvram : M (EFIVariableStore + error) :=
  r <- dataFilePath "nvram" ;;
  match r with
  | inr e => ret (inr (Errorf "create nvram file" e))
  | inl path =>
      let flag := Z.lor O_RDWR (Z.lor O_CREATE O_EXCL) in
      err <- os_OpenFile path flag ;;
      if is_ErrNotExist err then
        err <- os_MkdirAll (Dir path) ;;
        match err with
        | Some e => ret (inr (Errorf "create directory for nvram file" e))
        | None =>
            err <- os_OpenFile path flag ;;
            nvram_opened path err
        end
      else nvram_opened path err
  end.

(** *** efiBootLoader *)

Definition efiBootLoader : M (EFIBootLoader + error) :=
  r <- nvram ;;
  match r with
  | inr e => ret (inr e)
  | inl store =>
      match NewEFIBootLoader F store with
      | Some e => ret (inr e)
      | None => ret (inl (EFILoader store))
      end
  end.

End FirmwareBoot.

(** *** nixSystem *)

Definition nixSystem (vm : VM) : string := Arch vm +:+ "-" +:+ OS vm.

(** *** cleanup

    The removal of a temporary bundle is commented out in the source:
    what is left is a debug record on the default logger. *)
Definition cleanup (d : dataDirectory) : list event * option error :=
  if negb (d_isTemp d) then ([], None)
  else ([EvLog DefaultLogger "DEBUG" ("would delete " +:+ d_path d)], None).

(** * The envsec command [exec]

    [ExecCmd] of package envcli builds a shell command from its
    arguments and runs it with the stored environment variables added
    to the environment of the process. *)

Module envcli.

(** A stored variable, as [Store.List] returns it. *)
Record EnvVar : Type := { Name : string; Value : string }.

(** The fields of [exec.Cmd] that [ExecCmd] sets. *)
Record Cmd : Type := { cmd_Path : string; cmd_Args : list string;
                       cmd_Env : list string }.

Definition set_Env (env : list string) (c : Cmd) : Cmd :=
  {| cmd_Path := cmd_Path c; cmd_Args := cmd_Args c; cmd_Env := env |}.

(** [strings.Join(elems, sep)]. *)
Definition strings_Join (elems : list string) (sep : string) : string :=
  String.concat sep elems.

(** [exec.Command(name, arg...)]: the arguments start with the name,
    the environment is nil. *)
Definition Command (name : string) (arg : list string) : Cmd :=
  {| cmd_Path := name; cmd_Args := name :: arg; cmd_Env := [] |}.

(** [fmt.Sprintf("%s=%s", envVar.Name, envVar.Value)]. *)
Definition entry (v : EnvVar) : string := Name v +:+ "=" +:+ Value v.

(** The loop that appends one entry for each stored variable. *)
Definition attach_env (environ : list string) (envVars : list EnvVar)
    : list string :=
  fold_left (fun env v => env ++ [entry v]) envVars environ.

Section Exec.

(** Errors, the configuration [genConfig] builds, the store's [List]
    for the environment it names, and what running a command returns. *)
Variable err : Type.
Variable WithStack : err -> err.
Variable config : Type.
Variable List : config -> list EnvVar + err.
Variable Run : Cmd -> option err.

(** The [RunE] function of the command, given what [genConfig]
    returned and the environment of the process. *)
Definition RunE (genConfig : config + err) (environ : list string)
    (args : list string) : option err :=
  match genConfig with
  | inr e => Some e
  | inl cmdCfg =>
      let commandString := strings_Join args " " in
      let commandToRun := Command "/bin/sh" ["-c"%string; commandString] in
      match List cmdCfg with
      | inr e => Some (WithStack e)
      | inl envVars =>
          Run (set_Env (attach_env environ envVars) commandToRun)
      end
  end.

End Exec.

(** ** What the child process sees

    An entry is "key=value", cut at its first '='.  When a key occurs
    more than once in [Cmd.Env], os/exec hands the child the last
    entry for it. *)
Fixpoint cut (kv : string) : option (string * string) :=
  match kv with
  | EmptyString => None
  | String c rest =>
      if Ascii.eqb c "="%char then Some (EmptyString, rest)
      else match cut rest with
           | Some (k, v) => Some (String c k, v)
           | None => None
           end
  end.

(** One entry met while looking for [key]. *)
Definition pick (key : string) (found : option string) (kv : string)
    : option string :=
  match cut kv with
  | Some (k, v) => if String.eqb k key then Some v else found
  | None => found
  end.

Definition Getenv (env : list string) (key : string) : option string :=
  fold_left (pick key) env None.

(** The value stored last under a name. *)
Definition stored (envVars : list EnvVar) (key : string) : option string :=
  fold_left (fun found v =>
               if String.eqb (Name v) key then Some (Value v) else found)
            envVars None.

(** A name that contains no '='. *)
Definition plain (name : string) : Prop := cut name = None.

End envcli.

(** ** A concrete host, used to run the model *)

Module Example.

(** An engine whose constructors all succeed, on a host that allows
    1 to 8 cores and 256 MiB to 8 GiB of memory.  A new machine
    identifier is the three bytes 1, 2, 3. *)
Definition engine : Engine :=
  {| MinimumAllowedCPUCount := 1;
     MaximumAllowedCPUCount := 8;
     MinimumAllowedMemorySize := 268435456;
     MaximumAllowedMemorySize := 8589934592;
     NewLinuxBootLoader := fun _ _ _ => None;
     NewVirtualMachineConfiguration := fun _ _ _ => None;
     NewFileHandleSerialPortAttachment := None;
     NewVirtioConsoleDeviceSerialPortConfiguration := None;
     NewDiskImageStorageDeviceAttachment := fun _ _ _ => None;
     NewVirtioBlockDeviceConfiguration := fun _ => None;
     NewNATNetworkDeviceAttachment := None;
     NewVirtioNetworkDeviceConfiguration := None;
     NewRandomLocallyAdministeredMACAddress := fun r => inl r;
     NewVirtioEntropyDeviceConfiguration := None;
     NewGenericMachineIdentifier := fun _ => inl [chr 1; chr 2; chr 3];
     NewGenericMachineIdentifierWithData := fun _ => None;
     NewGenericPlatformConfiguration := fun _ => None;
     NewSharedDirectory := fun _ _ => None;
     NewSingleDirectoryShare := fun _ => None;
     NewVirtioFileSystemDeviceConfiguration := fun _ => None;
     Validate := fun _ => (true, None);
     NewVirtualMachine := fun _ => None;
     VirtualMachine_Start := fun _ => None;
     VirtualMachine_RequestStop := fun _ => (true, None) |}.

(** The same engine with a guest that refuses to stop. *)
Definition stubborn_engine : Engine :=
  {| MinimumAllowedCPUCount := 1;
     MaximumAllowedCPUCount := 8;
     MinimumAllowedMemorySize := 268435456;
     MaximumAllowedMemorySize := 8589934592;
     NewLinuxBootLoader := fun _ _ _ => None;
     NewVirtualMachineConfiguration := fun _ _ _ => None;
     NewFileHandleSerialPortAttachment := None;
     NewVirtioConsoleDeviceSerialPortConfiguration := None;
     NewDiskImageStorageDeviceAttachment := fun _ _ _ => None;
     NewVirtioBlockDeviceConfiguration := fun _ => None;
     NewNATNetworkDeviceAttachment := None;
     NewVirtioNetworkDeviceConfiguration := None;
     NewRandomLocallyAdministeredMACAddress := fun r => inl r;
     NewVirtioEntropyDeviceConfiguration := None;
     NewGenericMachineIdentifier := fun _ => inl [chr 1; chr 2; chr 3];
     NewGenericMachineIdentifierWithData := fun _ => None;
     NewGenericPlatformConfiguration := fun _ => None;
     NewSharedDirectory := fun _ _ => None;
     NewSingleDirectoryShare := fun _ => None;
     NewVirtioFileSystemDeviceConfiguration := fun _ => None;
     Validate := fun _ => (true, None);
     NewVirtualMachine := fun _ => None;
     VirtualMachine_Start := fun _ => None;
     VirtualMachine_RequestStop :=
       fun _ => (false, Some (EngineError "guest did not respond")) |}.

(** Installer support that writes nothing and names its outputs. *)
Definition installer : Installer :=
  {| installerBootLoader := ret (inl (InstallerLoader "nixos-installer"));
     generateBootstrapScript := ret (inl "/var/vm/install"%string);
     installerDisk := ret (inl (InstallerImage "nixos.iso")) |}.

Definition tty : termios :=
  {| Iflag := 11010; Oflag := 3; Cflag := 19200; Lflag := 1483;
     Cc := repeat 0 20 |}.

(** A host with an empty data directory /var/vm. *)
Definition host : World :=
  {| fs := <["/var/vm" := NDir]> (<["/var" := NDir]> (<["/tmp" := NDir]>
             (<["/" := NDir]> ∅)));
     symlinks := {["/var/vm/boot/default/init" := "/nix/store/abc/init"]};
     TempDir := "/tmp";
     randoms := [7; 11; 13];
     stdin_tty := Some tty;
     trace := [] |}%string.

Definition machine : VM := set_HostDataDir "/var/vm" zero_VM.


(** The configuration [Start] has built when the devices are attached. *)
Definition configuration : Configuration :=
  {| c_loader := InstallerLoader "nixos-installer";
     c_cpus := 1; c_memory := 1073741824;
     c_serial := []; c_storage := []; c_network := []; c_entropy := [];
     c_shares := []; c_platform := None |}.

(** The machine in the middle of [Start]: logger and configuration set. *)
Definition configured_machine : VM :=
  set_config (Some configuration)
    (set_Logger (Some DefaultLogger) machine).

(** The same in install mode, with one directory shared by the caller. *)
Definition install_machine : VM :=
  {| ID := []; CPUs := 1; Memory := 1073741824; DiskSize := 0;
     OS := "linux"; Arch := "aarch64"; Install := true;
     SharedDirectories := [ {| Path := "/home/u/src"; ReadOnly := false |} ];
     HostDataDir := "/var/vm"; Logger := Some DefaultLogger;
     vzvm := None; config := Some configuration;
     files := zero_dataDirectory |}%string.

(** A machine that has been started. *)
Definition running_machine : VM :=
  set_vzvm (Some {| vm_configuration := configuration |}) configured_machine.

End Example.

(** * Specification vocabulary *)

(** ** Total correctness of a state transformer *)

(** [wp c Q s]: run from [s], [c] returns (it does not panic) and its
    result and final state satisfy [Q]. *)
Definition wp {A : Type} (c : M A) (Q : A -> VM * World -> Prop)
    (s : VM * World) : Prop :=
  match c s with
  | Some (a, s') => Q a s'
  | None => False
  end.

(** [vm'] is [vm] up to the data directory, the one field that
    [dataFilePath] may set. *)
Definition dir_only (vm vm' : VM) : Prop :=
  vm' = set_HostDataDir (HostDataDir vm') vm.

(** The open flags of [saveStateData] and of [rootDisk]. *)
Definition flag_save : Z := Z.lor O_WRONLY (Z.lor O_CREATE O_TRUNC).
Definition flag_excl : Z := Z.lor O_RDWR (Z.lor O_CREATE O_EXCL).

(** The file a scalar is persisted in. *)
Definition scalar_file (v : value) : node :=
  NFile {| fsize := Z.of_nat (length (Sprintf_v_nl v));
           fdata := Sprintf_v_nl v |}.

(** The image of a new disk: a hole of the given size. *)
Definition new_image (size : Z) : node :=
  NFile {| fsize := size; fdata := [] |}.

(** The device built for a shared directory. *)
Definition dirshare (d : SharedDirectory) : DirShare :=
  {| share_tag := Base (Path d); share_path := Path d;
     share_readOnly := ReadOnly d |}.

(** The error [Stop] returns. *)
Definition Stop_error (r : option error * option VM * World) : option error :=
  fst (fst r).

(** ** Partial correctness of a state transformer *)

(** [pc c Q s]: whenever [c] returns from [s], its result and final
    state satisfy [Q]. *)
Definition pc {A : Type} (c : M A) (Q : A -> VM * World -> Prop)
    (s : VM * World) : Prop :=
  forall a s', c s = Some (a, s') -> Q a s'.

(** [vm'] is [vm] with, at most, the data directory set; a data
    directory that is set is never changed. *)
Definition dir_kept (vm vm' : VM) : Prop :=
  exists d, vm' = set_HostDataDir d vm /\
            (HostDataDir vm <> ""%string -> d = HostDataDir vm).

(** An update of another field commutes with setting the directory. *)
Definition dir_blind (f : VM -> VM) : Prop :=
  forall d vm, f (set_HostDataDir d vm) = set_HostDataDir d (f vm).

(** What no function of the package changes in the host. *)
Definition host_kept (w w' : World) : Prop :=
  symlinks w' = symlinks w /\ TempDir w' = TempDir w.

(** The host up to files and random source: terminal and trace as
    they were. *)
Definition quiet (w w' : World) : Prop :=
  host_kept w w' /\ stdin_tty w' = stdin_tty w /\ trace w' = trace w.


(** A scalar can be saved where the file is a regular file or where it
    is missing from an existing directory. *)
Definition writable (fs : gmap string node) (path : string) : Prop :=
  (exists f, fs !! path = Some (NFile f)) \/
  (fs !! path = None /\ fs !! Dir path = Some NDir).


(** The host up to files, random source and trace: the terminal is as
    it was. *)
Definition calm (w w' : World) : Prop :=
  host_kept w w' /\ stdin_tty w' = stdin_tty w.

(** The defaults [Start] fills in for the guest system. *)
Definition default_OS (vm : VM) : VM :=
  if bool_decide (OS vm = ""%string) then set_OS "linux" vm else vm.
Definition default_Arch (vm : VM) : VM :=
  if bool_decide (Arch vm = ""%string) then set_Arch "aarch64" vm else vm.

(** The kernel command line that boots the init program at [init]. *)
Definition boot_params (init : string) : string :=
  ("console=hvc0 root=/dev/vda init=" +:+ init +:+
   " quiet boot.shell_on_fail rd.systemd.show_status=false rd.udev.log_level=3 rd.udev.log_priority=3")%string.

(** The VM when [Start] has prepared it: file bundle, guest system,
    logger and negotiated resources. *)
Definition prepared_vm (b : dataDirectory) (l : logger) (n m : Z) (vm : VM) : VM :=
  set_Memory m (set_CPUs n (set_Logger (Some l)
    (default_Arch (default_OS (set_files b vm))))).

(** The VM with a configuration under construction, a disk size and
    an identifier. *)
Definition with_devices (c : Configuration) (ds : Z) (id : list byte)
    (vm : VM) : VM :=
  set_config (Some c) (set_ID id (set_DiskSize ds vm)).

(** The boot loader of a normal boot from the bundle [b]. *)
Definition linux_loader (b : dataDirectory) (init : string) : bootLoader :=
  LinuxBootLoader (d_kernel b) (d_initrd b) (boot_params init).

(** The devices [Start] attaches to the configuration [c] outside
    install mode. *)
Definition attach_all (image : string) (mac : Z) (dirs : list SharedDirectory)
    (id : list byte) (c : Configuration) : Configuration :=
  set_c_platform (Some id)
    (set_c_shares (map dirshare dirs)
       (set_c_entropy [VirtioEntropy]
          (set_c_network [NATDevice mac]
             (set_c_storage [DiskImage image false] c)))).

(** The steps of [Start] after the console. *)
Definition Start_devices (E : Engine) (I : Installer) : M (option error) :=
  step "attach disks" (attachDisks E I)
 (step "attach network" (attachNetwork E)
 (step "attach entropy" (attachEntropy E)
 (step "attach shared directories" (attachSharedDirs E I)
 (step "configure linux platform" (configureLinuxPlatform E)
  (Start_validate E))))).

(** How the steps after the console can end, from a VM [X] with the
    configuration [c]: a step fails and its error comes back wrapped;
    or every device is attached, and then the configuration is found
    invalid, or the engine refuses to make the machine, or the machine
    is made and the result is that of the engine's own start. *)
Definition devices_outcome (E : Engine) (X : VM) (c : Configuration)
    (r : option error) (s' : VM * World) : Prop :=
  (exists msg e c' ds' id',
      r = Some (Errorf msg e) /\
      dir_kept (with_devices c' ds' id' X) (fst s')) \/
  exists ds' id' mac,
    let c' := attach_all (Join [HostDataDir (fst s'); "disk.img"%string])
                         mac (SharedDirectories X) id' c in
    let vm' := with_devices c' ds' id' X in
    HostDataDir (fst s') <> ""%string /\
    ((r <> None /\ dir_kept vm' (fst s')) \/
     (exists e, NewVirtualMachine E c' = Some e /\
                r = Some (Errorf "create virtual machine" e) /\
                dir_kept (set_vzvm None vm') (fst s')) \/
     (Validate E c' = (true, None) /\ NewVirtualMachine E c' = None /\
      r = VirtualMachine_Start E {| vm_configuration := c' |} /\
      dir_kept (set_vzvm (Some {| vm_configuration := c' |}) vm') (fst s'))).

(** How [Start] can end from [s] outside install mode, stage by stage:
    no bundle; no boot loader; no configuration; no terminal; and,
    with the terminal in raw mode, the outcomes of the later steps. *)
Definition Start_outcome (E : Engine) (s : VM * World)
    (r : option error) (s' : VM * World) : Prop :=
  let vm := fst s in
  let w := snd s in
  (HostDataDir vm = ""%string /\
   (exists e,
       r = Some (Errorf "create directory for virtual machine data" e)) /\
   fst s' = set_files zero_dataDirectory vm /\
   stdin_tty (snd s') = stdin_tty w) \/
  exists b l n m,
    let X := prepared_vm b l n m vm in
    (HostDataDir vm <> ""%string -> b = bundle (HostDataDir vm) false) /\
    (HostDataDir vm = ""%string -> exists tmp, b = bundle tmp true) /\
    (exists v, n = clamp v (MinimumAllowedCPUCount E)
                         (MaximumAllowedCPUCount E)) /\
    (exists v, m = clamp v (MinimumAllowedMemorySize E)
                         (MaximumAllowedMemorySize E)) /\
    ((exists e,
         r = Some (Errorf "create boot loader" e) /\
         dir_kept X (fst s') /\ stdin_tty (snd s') = stdin_tty w /\
         ((symlinks w !! d_init b = None /\
           exists e0,
             e = Errorf "determine path to kernel init file inside vm" e0) \/
          exists init,
            symlinks w !! d_init b = Some init /\
            NewLinuxBootLoader E (d_kernel b) (d_initrd b) (boot_params init)
            = Some e)) \/
     exists init,
       symlinks w !! d_init b = Some init /\
       let c0 := new_configuration (linux_loader b init) (uint64 n) (uint64 m) in
       ((exists e,
            r = Some (Errorf "create virtual machine configuration" e) /\
            dir_kept (set_config None X) (fst s') /\
            stdin_tty (snd s') = stdin_tty w) \/
        (stdin_tty w = None /\ stdin_tty (snd s') = None /\
         r = Some (Errorf "attach console"
                     (Errorf "put stdin in raw mode: get terminal attributes"
                             ENOTTY)) /\
         dir_kept (set_config (Some c0) X) (fst s')) \/
        exists term,
          stdin_tty w = Some term /\
          stdin_tty (snd s') = Some (raw_mode term) /\
          ((exists e, r = Some (Errorf "attach console" e) /\
                      dir_kept (set_config (Some c0) X) (fst s')) \/
           devices_outcome E X (set_c_serial [StdioConsole] c0) r s'))).

(** The open flags of [initLogger]. *)
Definition flag_log : Z := Z.lor O_WRONLY (Z.lor O_CREATE O_APPEND).

(** The host with some records added to the log and nothing else
    changed. *)
Definition logged (w w' : World) : Prop :=
  exists t, w' = set_trace (trace w ++ t) w.

(** The two directories [attachSharedDirs] adds in install mode. *)
Definition implicit_shares (script bootDir : string) : list SharedDirectory :=
  [ {| Path := script; ReadOnly := true |};
    {| Path := bootDir; ReadOnly := false |} ].

(** Firmware that loads a store only from a regular file. *)
Module ExampleEFI.

Definition firmware : Firmware :=
  {| NewEFIVariableStore :=
       fun fs path create =>
         if create then None
         else match fs !! path with
              | Some (NFile _) => None
              | _ => Some (EngineError "not a variable store")
              end;
     NewEFIBootLoader := fun _ => None |}.

End ExampleEFI.

Module ExampleHosts.

(** The example host with standard input that is not a terminal. *)
Definition headless : World := set_stdin_tty None Example.host.

(** The example host before anything was installed: the data
    directory holds no boot files. *)
Definition blank : World :=
  {| fs := fs Example.host; symlinks := ∅; TempDir := TempDir Example.host;
     randoms := randoms Example.host; stdin_tty := stdin_tty Example.host;
     trace := [] |}.

End ExampleHosts.

Module ExampleFiles.

(** The example host after an earlier run: a log with one line, and a
    machine identifier stored as text. *)
Definition log_file : file :=
  {| fsize := 6; fdata := text "hello" ++ ["010"%char] |}.

Definition used : World :=
  set_fs (<["/var/vm/id"%string := scalar_file (BytesVal (text "abc"))]>
            (<["/var/vm/log"%string := NFile log_file]> (fs Example.host)))
         Example.host.

(** The same host with a directory where the log file should be. *)
Definition log_is_directory : World :=
  set_fs (<["/var/vm/log"%string := NDir]> (fs Example.host)) Example.host.

End ExampleFiles.


(** * Properties *)

(** ** Round trip of integers through the verb v *)

Section IntRoundTrip.

Lemma is_dec_cases d :
  is_dec d ->
  d = 0 \/ d = 1 \/ d = 2 \/ d = 3 \/ d = 4 \/
  d = 5 \/ d = 6 \/ d = 7 \/ d = 8 \/ d = 9.
Proof. unfold is_dec. lia. Qed.

Ltac by_digit H :=
  apply is_dec_cases in H;
  repeat (destruct H as [H | H]); subst; vm_compute; reflexivity.

Lemma dchr_not_newline d : is_dec d -> Ascii.eqb (dchr d) "010" = false.
Proof. intros H. by_digit H. Qed.

Lemma dchr_not_space d : is_dec d -> isSpace (dchr d) = false.
Proof. intros H. by_digit H. Qed.

Lemma dchr_not_sign d : is_dec d -> is_char (dchr d) "+-" = false.
Proof. intros H. by_digit H. Qed.

Lemma dchr_not_plus d : is_dec d -> Ascii.eqb (dchr d) "+" = false.
Proof. intros H. by_digit H. Qed.

Lemma dchr_not_minus d : is_dec d -> Ascii.eqb (dchr d) "-" = false.
Proof. intros H. by_digit H. Qed.

Lemma dchr_decimal d : is_dec d -> is_char (dchr d) "0123456789_" = true.
Proof. intros H. by_digit H. Qed.

Lemma dchr_not_underscore d : is_dec d -> Ascii.eqb (dchr d) "_" = false.
Proof. intros H. by_digit H. Qed.

Lemma dchr_digit_val d : is_dec d -> digit_val (dchr d) = Some d.
Proof. intros H. by_digit H. Qed.

Lemma dchr_zero d : is_dec d -> Ascii.eqb (dchr d) "0" = (d =? 0).
Proof. intros H. by_digit H. Qed.

Lemma dec_value_app n zs d :
  dec_value n (zs ++ [d]) = dec_value n zs * 10 + d.
Proof. unfold dec_value. by rewrite fold_left_app. Qed.

Lemma dec_value_ge n zs : 0 <= n -> Forall is_dec zs -> n <= dec_value n zs.
Proof.
  intros Hn Hz. revert n Hn.
  induction Hz as [| d zs Hd _ IH]; intros n Hn; simpl; [lia |].
  unfold is_dec in Hd. specialize (IH (n * 10 + d)). lia.
Qed.

(** What [fmt_digits] writes in front of the buffer. *)
Lemma fmt_digits_spec fuel :
  forall u buf,
    0 <= u < 10 ^ Z.of_nat (S fuel) ->
    exists zs,
      fmt_digits (S fuel) u buf = map dchr zs ++ buf /\
      Forall is_dec zs /\ zs <> [] /\ dec_value 0 zs = u /\
      (hd 0 zs = 0 -> zs = [0]).
Proof.
  induction fuel as [| fuel IH]; intros u buf Hu.
  - assert (Hlt : (u <? 10) = true) by (apply Z.ltb_lt; simpl in Hu; lia).
    cbn [fmt_digits]. rewrite Hlt. apply Z.ltb_lt in Hlt.
    exists [u]. repeat split.
    + constructor; [unfold is_dec; lia | constructor].
    + discriminate.
    + simpl. intros ->. reflexivity.
  - remember (S fuel) as k eqn:Hk.
    cbn [fmt_digits]. destruct (u <? 10) eqn:Hlt.
    + apply Z.ltb_lt in Hlt. exists [u]. repeat split.
      * constructor; [unfold is_dec; lia | constructor].
      * discriminate.
      * simpl. intros ->. reflexivity.
    + apply Z.ltb_ge in Hlt.
      assert (Hdiv : 0 <= u / 10 < 10 ^ Z.of_nat k).
      { split; [apply Z.div_pos; lia |].
        apply Z.div_lt_upper_bound; [lia |].
        replace (Z.of_nat (S k)) with (Z.succ (Z.of_nat k)) in Hu by lia.
        rewrite Z.pow_succ_r in Hu by lia. lia. }
      destruct (IH (u / 10) (chr (48 + u mod 10) :: buf) Hdiv)
        as (zs & Heq & Hall & Hne & Hval & Hhd).
      exists (zs ++ [u mod 10]). repeat split.
      * rewrite Heq, map_app, <- app_assoc. reflexivity.
      * apply Forall_app. split; [assumption |].
        constructor; [| constructor].
        unfold is_dec. apply Z.mod_pos_bound. lia.
      * destruct zs; discriminate.
      * rewrite dec_value_app, Hval.
        pose proof (Z.div_mod u 10). lia.
      * destruct zs as [| z zs]; [congruence |]. simpl. intros Hz.
        specialize (Hhd Hz). inversion Hhd; subst.
        assert (1 <= u / 10) by (apply Z.div_le_lower_bound; lia).
        unfold dec_value in Hval. cbn [fold_left] in Hval. lia.
Qed.

Lemma accept_while_decimal zs :
  Forall is_dec zs ->
  accept_while (fun c => is_char c "0123456789_") (map dchr zs ++ ["010"%char])
  = (map dchr zs, ["010"%char]).
Proof.
  induction 1 as [| d zs Hd _ IH]; [reflexivity |].
  cbn [map app accept_while]. rewrite (dchr_decimal d Hd), IH. reflexivity.
Qed.

Lemma ParseUint_loop_decimal zs :
  Forall is_dec zs ->
  forall n, 0 <= n -> dec_value n zs <= maxUint64 ->
  ParseUint_loop 10 true (map dchr zs) n false = inl (dec_value n zs, false).
Proof.
  induction 1 as [| d zs Hd Hall IH]; intros n Hn Hmax; [reflexivity |].
  cbn [map ParseUint_loop].
  rewrite (dchr_not_underscore d Hd), (dchr_digit_val d Hd). simpl andb. cbv iota.
  simpl in Hmax. unfold is_dec in Hd.
  pose proof (dec_value_ge (n * 10 + d) zs ltac:(lia) Hall) as Hge.
  assert (Hmaxv : maxUint64 = 18446744073709551615) by reflexivity.
  destruct (d >=? 10) eqn:E1; [apply Z.geb_le in E1; lia |].
  replace (maxUint64 / 10 + 1) with 1844674407370955162 by reflexivity.
  destruct (n >=? 1844674407370955162) eqn:E2; [apply Z.geb_le in E2; lia |].
  destruct (n * 10 + d >? maxUint64) eqn:E3; [apply Z.gtb_lt in E3; lia |].
  apply IH; [lia | assumption].
Qed.

(** Scanning the digits of a magnitude below 2^64 gives it back. *)
Lemma ParseUint_digits zs :
  Forall is_dec zs -> zs <> [] -> (hd 0 zs = 0 -> zs = [0]) ->
  dec_value 0 zs <= maxUint64 ->
  ParseUint (map dchr zs) = inl (dec_value 0 zs).
Proof.
  intros Hall Hne Hhd Hmax.
  destruct zs as [| z zs]; [congruence |].
  inversion Hall as [| ? ? Hz Hzs]; subst.
  destruct (Z.eq_dec z 0) as [-> | Hnz].
  - specialize (Hhd eq_refl). inversion Hhd; subst. reflexivity.
  - unfold ParseUint. cbn [map].
    unfold base_prefix. rewrite (dchr_zero z Hz).
    destruct (Z.eqb_spec z 0) as [? | _]; [contradiction |].
    change (dchr z :: map dchr zs) with (map dchr (z :: zs)).
    rewrite (ParseUint_loop_decimal (z :: zs) Hall 0 ltac:(lia) Hmax).
    reflexivity.
Qed.

Lemma SkipSpace_digits zs rest :
  Forall is_dec zs -> zs <> [] ->
  SkipSpace (map dchr zs ++ rest) = inl (map dchr zs ++ rest).
Proof.
  intros Hall Hne. destruct zs as [| z zs]; [congruence |].
  inversion Hall; subst. cbn [map app SkipSpace].
  by rewrite dchr_not_newline, dchr_not_space.
Qed.

(** The scanner reads back an unsigned decimal numeral. *)
Lemma scanInt_unsigned zs :
  Forall is_dec zs -> zs <> [] -> (hd 0 zs = 0 -> zs = [0]) ->
  scanInt (map dchr zs ++ ["010"%char]) = ParseInt (map dchr zs).
Proof.
  intros Hall Hne Hhd. unfold scanInt.
  rewrite SkipSpace_digits by assumption.
  destruct zs as [| z zs]; [congruence |].
  inversion Hall as [| ? ? Hz Hzs]; subst.
  destruct (Z.eq_dec z 0) as [-> | Hnz].
  - specialize (Hhd eq_refl). inversion Hhd; subst. reflexivity.
  - cbn [map app]. unfold accept1. rewrite (dchr_not_sign z Hz).
    unfold scanBasePrefix. rewrite (dchr_zero z Hz).
    destruct (Z.eqb_spec z 0) as [? | _]; [contradiction |].
    unfold scanNumber. rewrite (dchr_decimal z Hz).
    rewrite (accept_while_decimal zs Hzs). reflexivity.
Qed.

(** ... and a negative one. *)
Lemma scanInt_negative zs :
  Forall is_dec zs -> zs <> [] -> hd 0 zs <> 0 ->
  scanInt ("-"%char :: map dchr zs ++ ["010"%char])
  = ParseInt ("-"%char :: map dchr zs).
Proof.
  intros Hall Hne Hhd. unfold scanInt.
  change (SkipSpace ("-"%char :: map dchr zs ++ ["010"%char]))
    with (@inl _ error ("-"%char :: map dchr zs ++ ["010"%char])).
  cbv iota. change (accept1 "+-" ("-"%char :: map dchr zs ++ ["010"%char]))
    with (["-"%char], map dchr zs ++ ["010"%char]).
  cbv iota beta.
  destruct zs as [| z zs]; [congruence |].
  inversion Hall as [| ? ? Hz Hzs]; subst. simpl in Hhd.
  cbn [map app]. unfold scanBasePrefix. rewrite (dchr_zero z Hz).
  destruct (Z.eqb_spec z 0) as [? | _]; [contradiction |].
  unfold scanNumber. rewrite (dchr_decimal z Hz).
  rewrite (accept_while_decimal zs Hzs). reflexivity.
Qed.

Lemma ParseInt_unsigned zs :
  Forall is_dec zs -> zs <> [] -> (hd 0 zs = 0 -> zs = [0]) ->
  dec_value 0 zs < 2 ^ 63 ->
  ParseInt (map dchr zs) = inl (dec_value 0 zs).
Proof.
  intros Hall Hne Hhd Hmax.
  assert (Hu : ParseUint (map dchr zs) = inl (dec_value 0 zs)).
  { apply ParseUint_digits; try assumption. unfold maxUint64. lia. }
  destruct zs as [| z zs]; [congruence |].
  inversion Hall as [| ? ? Hz Hzs]; subst.
  unfold ParseInt. cbn [map]. unfold strip_sign.
  rewrite (dchr_not_plus z Hz), (dchr_not_minus z Hz).
  change (dchr z :: map dchr zs) with (map dchr (z :: zs)). rewrite Hu.
  cbv zeta. cbn [negb andb].
  destruct (dec_value 0 (z :: zs) >=? 2 ^ 63) eqn:E;
    [apply Z.geb_le in E; lia | reflexivity].
Qed.

Lemma ParseInt_negative zs :
  Forall is_dec zs -> zs <> [] -> (hd 0 zs = 0 -> zs = [0]) ->
  dec_value 0 zs <= 2 ^ 63 ->
  ParseInt ("-"%char :: map dchr zs) = inl (- dec_value 0 zs).
Proof.
  intros Hall Hne Hhd Hmax.
  assert (Hu : ParseUint (map dchr zs) = inl (dec_value 0 zs)).
  { apply ParseUint_digits; try assumption. unfold maxUint64. lia. }
  unfold ParseInt. change (strip_sign ("-"%char :: map dchr zs))
    with (true, map dchr zs).
  cbv iota beta. rewrite Hu. cbv zeta. cbn [negb andb].
  destruct (dec_value 0 zs >? 2 ^ 63) eqn:E;
    [apply Z.gtb_lt in E; lia | reflexivity].
Qed.

(** [fmt.Fscanf(f, "%v", &n)] inverts [fmt.Fprintf(f, "%v\n", n)] on
    every 64-bit integer. *)
Lemma Fscanf_Sprintf_int (v : Z) :
  - 2 ^ 63 <= v < 2 ^ 63 ->
  Fscanf_v KInt (Sprintf_v_nl (IntVal v)) = inl (IntVal v).
Proof.
  intros Hv.
  assert (Hb : 0 <= Z.abs v < 10 ^ Z.of_nat 20).
  { change (10 ^ Z.of_nat 20) with 100000000000000000000.
    change (2 ^ 63) with 9223372036854775808 in Hv. lia. }
  destruct (fmt_digits_spec 19 (Z.abs v) [] Hb)
    as (zs & Heq & Hall & Hne & Hval & Hhd).
  rewrite app_nil_r in Heq.
  unfold Sprintf_v_nl, Sprint_v, fmtInteger. rewrite Heq.
  destruct (v <? 0) eqn:Hneg.
  - apply Z.ltb_lt in Hneg.
    assert (Hnz : hd 0 zs <> 0).
    { intros Hz. specialize (Hhd Hz). subst zs.
      unfold dec_value in Hval. simpl in Hval. lia. }
    unfold Fscanf_v.
    change (SkipSpace (("-"%char :: map dchr zs) ++ ["010"%char]))
      with (@inl _ error ("-"%char :: map dchr zs ++ ["010"%char])).
    cbv iota. unfold scanOne_v.
    rewrite scanInt_negative by assumption.
    rewrite ParseInt_negative by (try assumption; lia).
    f_equal. f_equal. lia.
  - apply Z.ltb_ge in Hneg. unfold Fscanf_v.
    rewrite SkipSpace_digits by assumption. unfold scanOne_v.
    rewrite scanInt_unsigned by assumption.
    rewrite ParseInt_unsigned by (try assumption; lia).
    f_equal. f_equal. lia.
Qed.

End IntRoundTrip.

(** ** Reasoning about state transformers *)

Lemma wp_ret {A : Type} (a : A) Q s : Q a s -> wp (ret a) Q s.
Proof. done. Qed.

Lemma wp_bind {A B : Type} (c : M A) (k : A -> M B) Q s :
  wp c (fun a s' => wp (k a) Q s') s -> wp (bind c k) Q s.
Proof.
  unfold wp, bind. destruct (c s) as [[a s'] |]; [done | done].
Qed.

Lemma wp_mono {A : Type} (c : M A) (Q Q' : A -> VM * World -> Prop) s :
  wp c Q s -> (forall a s', Q a s' -> Q' a s') -> wp c Q' s.
Proof.
  unfold wp. destruct (c s) as [[a s'] |]; [auto | done].
Qed.

Lemma wp_get_vm Q s : Q (fst s) s -> wp get_vm Q s.
Proof. done. Qed.

Lemma wp_get_world Q s : Q (snd s) s -> wp get_world Q s.
Proof. done. Qed.

Lemma wp_modify_vm f Q s : Q tt (f (fst s), snd s) -> wp (modify_vm f) Q s.
Proof. done. Qed.

Lemma wp_modify_world f Q s :
  Q tt (fst s, f (snd s)) -> wp (modify_world f) Q s.
Proof. done. Qed.

Lemma wp_elim {A : Type} (c : M A) Q s :
  wp c Q s -> exists a s', c s = Some (a, s') /\ Q a s'.
Proof.
  unfold wp. destruct (c s) as [[a s'] |]; [eauto | done].
Qed.

Lemma wp_intro {A : Type} (c : M A) (Q : A -> VM * World -> Prop) s a s' :
  c s = Some (a, s') -> Q a s' -> wp c Q s.
Proof. unfold wp. by intros ->. Qed.

Ltac wp_step :=
  lazymatch goal with
  | |- wp (bind _ _) _ _ => apply wp_bind
  | |- wp (ret _) _ _ => apply wp_ret
  | |- wp get_vm _ _ => apply wp_get_vm
  | |- wp get_world _ _ => apply wp_get_world
  | |- wp (modify_vm _) _ _ => apply wp_modify_vm
  | |- wp (modify_world _) _ _ => apply wp_modify_world
  end.

Ltac wsimpl :=
  cbn [fst snd fs symlinks TempDir randoms stdin_tty trace
       set_fs set_randoms set_stdin_tty set_trace].

Ltac wp_steps := repeat (wp_step; wsimpl).

(** Record updates that change nothing. *)
Lemma set_fs_same w : set_fs (fs w) w = w.
Proof. by destruct w. Qed.

Lemma set_HostDataDir_same vm : set_HostDataDir (HostDataDir vm) vm = vm.
Proof. by destruct vm. Qed.

Lemma set_DiskSize_same vm : set_DiskSize (DiskSize vm) vm = vm.
Proof. by destruct vm. Qed.

(** ** clamp *)

Lemma clamp_range v min max : min <= max -> min <= clamp v min max <= max.
Proof.
  intros H. unfold clamp.
  destruct (v <? min) eqn:E1; [lia |]. apply Z.ltb_ge in E1.
  destruct (v >? max) eqn:E2; [lia |].
  assert (~ v > max) by (rewrite Z.gtb_ltb in E2; apply Z.ltb_ge in E2; lia).
  lia.
Qed.

Lemma clamp_below v min max : v < min -> clamp v min max = min.
Proof. intros H. unfold clamp. by apply Z.ltb_lt in H as ->. Qed.

Lemma clamp_above v min max : min <= v -> v > max -> clamp v min max = max.
Proof.
  intros H1 H2. unfold clamp.
  destruct (v <? min) eqn:E1; [apply Z.ltb_lt in E1; lia |].
  destruct (v >? max) eqn:E2; [done |].
  rewrite Z.gtb_ltb in E2. apply Z.ltb_ge in E2. lia.
Qed.

Lemma clamp_inside v min max : min <= v <= max -> clamp v min max = v.
Proof.
  intros H. unfold clamp.
  destruct (v <? min) eqn:E1; [apply Z.ltb_lt in E1; lia |].
  destruct (v >? max) eqn:E2; [| done].
  rewrite Z.gtb_ltb in E2. apply Z.ltb_lt in E2. lia.
Qed.

(** Logging and updating the configuration, when neither is nil. *)
Lemma log_eq level msg vm w l :
  Logger vm = Some l ->
  log level msg (vm, w)
  = Some (tt, (vm, set_trace (trace w ++ [EvLog l level msg]) w)).
Proof. intros H. unfold log, bind, get_vm. cbn [fst snd]. by rewrite H. Qed.

Lemma with_config_eq f vm w c :
  config vm = Some c ->
  with_config f (vm, w) = Some (tt, (set_config (Some (f c)) vm, w)).
Proof.
  intros H. unfold with_config, bind, get_vm. cbn [fst snd]. by rewrite H.
Qed.

Lemma Logger_set_config c vm : Logger (set_config c vm) = Logger vm.
Proof. by destruct vm. Qed.

(** ** The scalar store: totality and what it leaves alone *)

Lemma dir_only_refl vm : dir_only vm vm.
Proof. unfold dir_only. by destruct vm. Qed.

Lemma dir_only_set vm d : dir_only vm (set_HostDataDir d vm).
Proof. unfold dir_only. by destruct vm. Qed.

Lemma dir_only_trans vm1 vm2 vm3 :
  dir_only vm1 vm2 -> dir_only vm2 vm3 -> dir_only vm1 vm3.
Proof.
  unfold dir_only. intros H12 H23. rewrite H23 at 1. rewrite H12.
  by destruct vm1.
Qed.

Lemma dir_only_CPUs vm vm' : dir_only vm vm' -> CPUs vm' = CPUs vm.
Proof. intros ->. by destruct vm. Qed.

Lemma dir_only_Memory vm vm' : dir_only vm vm' -> Memory vm' = Memory vm.
Proof. intros ->. by destruct vm. Qed.

Lemma dir_only_set_CPUs vm vm' n :
  dir_only vm vm' -> dir_only (set_CPUs n vm) (set_CPUs n vm').
Proof. unfold dir_only. intros ->. by destruct vm. Qed.

Lemma dir_only_set_Memory vm vm' n :
  dir_only vm vm' -> dir_only (set_Memory n vm) (set_Memory n vm').
Proof. unfold dir_only. intros ->. by destruct vm. Qed.

#[local] Hint Resolve dir_only_refl dir_only_set dir_only_trans : core.

Lemma append_nonempty_r (a b : string) : b <> ""%string -> a +:+ b <> ""%string.
Proof. destruct a; [done | discriminate]. Qed.

Lemma append_nonempty_l (a b : string) : a <> ""%string -> a +:+ b <> ""%string.
Proof. destruct a; [done | discriminate]. Qed.

Lemma joinPath_nonempty dir name : joinPath dir name <> ""%string.
Proof.
  unfold joinPath.
  destruct (rev (list_ascii_of_string dir)) as [| c l] eqn:Hrev.
  - apply append_nonempty_r. discriminate.
  - destruct (is_sep c).
    + apply append_nonempty_l. intros ->. discriminate.
    + apply append_nonempty_r. discriminate.
Qed.

Lemma on_fs_wp op (Q : option error -> VM * World -> Prop) s :
  Q (fst (op (fs (snd s)))) (fst s, set_fs (snd (op (fs (snd s)))) (snd s)) ->
  wp (on_fs op) Q s.
Proof.
  intros H. unfold on_fs. wp_steps.
  destruct (op (fs (snd s))) as [err fs']. wp_steps. exact H.
Qed.

Lemma nextRandom_wp (Q : Z -> VM * World -> Prop) s :
  Q (hd 0 (randoms (snd s))) (fst s, set_randoms (tl (randoms (snd s))) (snd s)) ->
  wp nextRandom Q s.
Proof. intros H. unfold nextRandom. wp_steps. exact H. Qed.

Lemma MkdirTemp_try_wp tries pattern s :
  wp (MkdirTemp_try tries pattern)
     (fun r s' => fst s' = fst s /\
                  match r with inl p => p <> ""%string | inr _ => True end) s.
Proof.
  revert s. induction tries as [| tries IH]; intros s.
  - cbn [MkdirTemp_try]. wp_steps. apply nextRandom_wp. cbn [fst snd].
    wp_steps. apply on_fs_wp. cbn [fst snd].
    match goal with |- context [Mkdir ?f ?n] => destruct (Mkdir f n) as [[e |] f'] end;
      cbn [fst snd].
    + destruct e; wp_steps; done.
    + wp_steps. split; [done |]. apply append_nonempty_l, joinPath_nonempty.
  - cbn [MkdirTemp_try]. wp_steps. apply nextRandom_wp. cbn [fst snd].
    wp_steps. apply on_fs_wp. cbn [fst snd].
    match goal with |- context [Mkdir ?f ?n] => destruct (Mkdir f n) as [[e |] f'] end;
      cbn [fst snd].
    + destruct e; wp_steps; try done.
      eapply wp_mono; [apply IH |]. cbn [fst snd]. done.
    + wp_steps. split; [done |]. apply append_nonempty_l, joinPath_nonempty.
Qed.

Section ScalarStore.

Lemma dataFilePath_set name vm w :
  HostDataDir vm <> ""%string ->
  dataFilePath name (vm, w) = Some (inl (Join [HostDataDir vm; name]), (vm, w)).
Proof.
  intros Hd. unfold dataFilePath, bind, get_vm, ret. wsimpl.
  by rewrite bool_decide_eq_false_2.
Qed.

Lemma dataFilePath_wp name s :
  wp (dataFilePath name)
     (fun r s' =>
        dir_only (fst s) (fst s') /\
        match r with
        | inl p => HostDataDir (fst s') <> ""%string /\
                   p = Join [HostDataDir (fst s'); name]
        | inr _ => True
        end) s.
Proof.
  unfold dataFilePath. wp_steps. case_bool_decide as Hd.
  - wp_step. eapply wp_mono; [apply MkdirTemp_try_wp |].
    intros [p | e] s' [Hvm Hp]; wp_steps.
    + rewrite Hvm. destruct (fst s); cbn. split; [done |]. done.
    + rewrite Hvm. split; [apply dir_only_refl | done].
  - wp_steps. split; [apply dir_only_refl | done].
Qed.

(** A successful open for overwriting leaves an empty regular file. *)
Lemma OpenFile_save_ok fs path fs' :
  OpenFile fs path flag_save = (None, fs') ->
  fs' !! path = Some (NFile empty_file).
Proof.
  unfold OpenFile.
  change (has_flag flag_save O_CREATE) with true.
  change (has_flag flag_save O_EXCL) with false.
  change (has_flag flag_save O_TRUNC) with true.
  change (write_mode flag_save) with true. cbn [andb orb].
  destruct (fs !! path) as [[| f] |] eqn:Hl.
  - discriminate.
  - intros [= <-]. apply lookup_insert_eq.
  - destruct (parent_of fs path); [discriminate |].
    intros [= <-]. apply lookup_insert_eq.
Qed.

Lemma WriteFile_empty fs path data :
  fs !! path = Some (NFile empty_file) ->
  WriteFile fs path data
  = (None, <[path := NFile {| fsize := Z.of_nat (length data);
                              fdata := data |}]> fs).
Proof. intros H. unfold WriteFile. by rewrite H. Qed.

Lemma saveStateData_write_wp path v err s :
  (err = None -> fs (snd s) !! path = Some (NFile empty_file)) ->
  wp (saveStateData_write path v err)
     (fun err' s' =>
        fst s' = fst s /\
        (err' = None -> fs (snd s') !! path = Some (scalar_file v))) s.
Proof.
  intros Hopen. unfold saveStateData_write. destruct err as [e |].
  - wp_steps. done.
  - unfold os_Write. apply on_fs_wp. wsimpl.
    rewrite (WriteFile_empty _ _ _ (Hopen eq_refl)). wsimpl.
    split; [done |]. intros _. destruct (snd s). cbn.
    apply lookup_insert_eq.
Qed.

(** [saveStateData] always returns; it touches no field of the VM but
    the data directory; when it reports no error the scalar file holds
    the formatted value and a newline. *)
Lemma saveStateData_wp name v s :
  wp (saveStateData name v)
     (fun err s' =>
        dir_only (fst s) (fst s') /\
        (err = None ->
         HostDataDir (fst s') <> ""%string /\
         fs (snd s') !! Join [HostDataDir (fst s'); name]
         = Some (scalar_file v))) s.
Proof.
  unfold saveStateData. wp_step.
  eapply wp_mono; [apply dataFilePath_wp |].
  intros [path | e] s1 [Hframe Hpath]; [| wp_steps; done].
  destruct Hpath as [Hdir ->]. fold flag_save.
  wp_step. unfold os_OpenFile at 1. apply on_fs_wp. wsimpl.
  destruct (OpenFile (fs (snd s1)) _ flag_save) as [err fs1] eqn:Hopen.
  wsimpl. destruct (is_ErrNotExist err) eqn:Hne.
  - wp_step. unfold os_MkdirAll. apply on_fs_wp. wsimpl.
    destruct (MkdirAll _ _) as [[e |] fs2]; wsimpl; [wp_steps; done |].
    wp_step. unfold os_OpenFile. apply on_fs_wp. wsimpl.
    destruct (OpenFile fs2 _ flag_save) as [err3 fs3] eqn:Hopen3.
    wsimpl.
    eapply wp_mono; [apply saveStateData_write_wp |].
    + wsimpl. intros ->. destruct (snd s1); cbn.
      by apply OpenFile_save_ok in Hopen3.
    + wsimpl. intros err' s' [-> Hfile]. split; [done |].
      intros ->. split; [done |]. by apply Hfile.
  - eapply wp_mono; [apply saveStateData_write_wp |].
    + wsimpl. intros ->. destruct (snd s1); cbn.
      by apply OpenFile_save_ok in Hopen.
    + wsimpl. intros err' s' [-> Hfile]. split; [done |].
      intros ->. split; [done |]. by apply Hfile.
Qed.

(** [loadStateData] always returns; besides the data directory it
    changes at most the field it was given. *)
Lemma loadStateData_wp name dst s :
  wp (loadStateData name dst)
     (fun err s' =>
        exists vm1, dir_only (fst s) vm1 /\
                    (fst s' = vm1 \/ exists v, fst s' = store dst v vm1)) s.
Proof.
  unfold loadStateData. wp_step.
  eapply wp_mono; [apply dataFilePath_wp |].
  intros [path | e] s1 [Hframe Hpath]; [| wp_steps; eauto].
  wp_step. unfold os_OpenFile. apply on_fs_wp. wsimpl.
  destruct (OpenFile _ _ _) as [err fs1]. wsimpl.
  destruct (is_ErrNotExist err); [wp_steps; eauto |].
  destruct err as [e |]; [wp_steps; eauto |].
  wp_step. unfold Fscanf_file. wp_steps.
  destruct (ReadFile _ _) as [bytes | e].
  - destruct (Fscanf_v _ _) as [v | e]; wp_steps.
    + destruct (is_ErrUnexpectedEOF None); wp_steps; eauto.
    + destruct (is_ErrUnexpectedEOF (Some e)); wp_steps; eauto.
  - wp_steps. destruct (is_ErrUnexpectedEOF (Some e)); wp_steps; eauto.
Qed.

End ScalarStore.

(** ** Resource negotiation *)

Section Negotiation.

Variable E : Engine.

Lemma configureCPUs_clamp_wp minCPU maxCPU s :
  wp (configureCPUs_clamp minCPU maxCPU)
     (fun _ s' => CPUs (fst s') = clamp (CPUs (fst s)) minCPU maxCPU) s.
Proof.
  unfold configureCPUs_clamp. wp_steps.
  destruct (CPUs (fst s) =? clamp (CPUs (fst s)) minCPU maxCPU) eqn:Heq;
    cbn [negb].
  - wp_steps. by apply Z.eqb_eq in Heq.
  - wp_steps. eapply wp_mono; [apply saveStateData_wp |].
    wsimpl. intros err s' [Hframe _]. wp_steps.
    rewrite (dir_only_CPUs _ _ Hframe). by destruct (fst s).
Qed.

Lemma configureMemory_clamp_wp minMemory maxMemory s :
  wp (configureMemory_clamp minMemory maxMemory)
     (fun _ s' => Memory (fst s') = clamp (Memory (fst s)) minMemory maxMemory) s.
Proof.
  unfold configureMemory_clamp. wp_steps.
  destruct (Memory (fst s) =? clamp (Memory (fst s)) minMemory maxMemory) eqn:Heq;
    cbn [negb].
  - wp_steps. by apply Z.eqb_eq in Heq.
  - wp_steps. eapply wp_mono; [apply saveStateData_wp |].
    wsimpl. intros err s' [Hframe _]. wp_steps.
    rewrite (dir_only_Memory _ _ Hframe). by destruct (fst s).
Qed.

(** Whatever the scalar store does, the negotiated CPU count is a
    clamped value. *)
Lemma configureCPUs_wp s :
  wp (configureCPUs E)
     (fun _ s' =>
        exists v, CPUs (fst s')
                  = clamp v (MinimumAllowedCPUCount E) (MaximumAllowedCPUCount E)) s.
Proof.
  unfold configureCPUs. wp_steps. destruct (CPUs (fst s) =? 0).
  - wp_step. eapply wp_mono; [apply loadStateData_wp |].
    intros err s1 _. wp_steps. destruct (CPUs (fst s1) =? 0).
    + wp_steps. eapply wp_mono; [apply saveStateData_wp |].
      wsimpl. intros err' s' [Hframe _]. wp_steps.
      rewrite (dir_only_CPUs _ _ Hframe). eexists. by destruct (fst s1).
    + eapply wp_mono; [apply configureCPUs_clamp_wp |]. cbv beta. eauto.
  - eapply wp_mono; [apply configureCPUs_clamp_wp |]. cbv beta. eauto.
Qed.

Lemma configureMemory_wp s :
  wp (configureMemory E)
     (fun _ s' =>
        exists v, Memory (fst s')
                  = clamp v (MinimumAllowedMemorySize E)
                          (MaximumAllowedMemorySize E)) s.
Proof.
  unfold configureMemory. wp_steps. destruct (Memory (fst s) =? 0).
  - wp_step. eapply wp_mono; [apply loadStateData_wp |].
    intros err s1 _. wp_steps. destruct (Memory (fst s1) =? 0).
    + wp_steps. eapply wp_mono; [apply saveStateData_wp |].
      wsimpl. intros err' s' [Hframe _]. wp_steps.
      rewrite (dir_only_Memory _ _ Hframe). eexists. by destruct (fst s1).
    + eapply wp_mono; [apply configureMemory_clamp_wp |]. cbv beta. eauto.
  - eapply wp_mono; [apply configureMemory_clamp_wp |]. cbv beta. eauto.
Qed.

End Negotiation.

(** C1.  With host bounds [min <= max], [clamp] sends a value below the
    minimum to the minimum, a value above the maximum to the maximum and
    leaves any other value unchanged; [configureCPUs] and
    [configureMemory] always return, and the CPU count and the memory
    size they leave in the VM lie within the host's bounds, whatever was
    requested and whatever the data directory holds. *)
Theorem negotiated_value_within_bounds
    (E : Engine) (vm : VM) (w : World) (v min max : Z) :
  min <= max ->
  MinimumAllowedCPUCount E <= MaximumAllowedCPUCount E ->
  MinimumAllowedMemorySize E <= MaximumAllowedMemorySize E ->
  (min <= clamp v min max <= max /\
   (v < min -> clamp v min max = min) /\
   (v > max -> clamp v min max = max) /\
   (min <= v <= max -> clamp v min max = v)) /\
  (exists vm' w',
      configureCPUs E (vm, w) = Some (tt, (vm', w')) /\
      MinimumAllowedCPUCount E <= CPUs vm' <= MaximumAllowedCPUCount E) /\
  (exists vm' w',
      configureMemory E (vm, w) = Some (tt, (vm', w')) /\
      MinimumAllowedMemorySize E <= Memory vm' <= MaximumAllowedMemorySize E).
Proof.
  intros Hmm Hcpu Hmem. split; [| split].
  - split; [by apply clamp_range |]. split; [apply clamp_below |].
    split; [| apply clamp_inside].
    intros Hv. apply clamp_above; lia.
  - destruct (wp_elim _ _ _ (configureCPUs_wp E (vm, w)))
      as ([] & [vm' w'] & Hrun & x & Hx).
    exists vm', w'. split; [done |]. cbn [fst] in Hx. rewrite Hx.
    by apply clamp_range.
  - destruct (wp_elim _ _ _ (configureMemory_wp E (vm, w)))
      as ([] & [vm' w'] & Hrun & x & Hx).
    exists vm', w'. split; [done |]. cbn [fst] in Hx. rewrite Hx.
    by apply clamp_range.
Qed.

Lemma negotiated_value_within_bounds_witness :
  exists vm' w',
    configureCPUs Example.engine (set_CPUs 64 Example.machine, Example.host)
    = Some (tt, (vm', w')) /\ 1 <= CPUs vm' <= 8.
Proof.
  exact (proj1 (proj2 (negotiated_value_within_bounds
                         Example.engine (set_CPUs 64 Example.machine)
                         Example.host 64 1 8
                         ltac:(lia) ltac:(simpl; lia) ltac:(simpl; lia)))).
Defined.

(** ** The scalar store: what is written and what is read back *)

Lemma on_fs_eq op vm w :
  on_fs op (vm, w)
  = Some (fst (op (fs w)), (vm, set_fs (snd (op (fs w))) w)).
Proof.
  unfold on_fs, bind, get_world, modify_world, ret. cbn [fst snd].
  by destruct (op (fs w)).
Qed.

Lemma OpenFile_rdonly_file fs path f :
  fs !! path = Some (NFile f) -> OpenFile fs path O_RDONLY = (None, fs).
Proof. intros H. unfold OpenFile. by rewrite H. Qed.

Lemma OpenFile_rdonly_absent fs path :
  fs !! path = None -> exists e, OpenFile fs path O_RDONLY = (Some e, fs).
Proof.
  intros H. unfold OpenFile. rewrite H.
  destruct (parent_of fs path); eauto.
Qed.

Lemma parent_status_dir fuel fs path :
  fs !! Dir path = Some NDir -> parent_status fuel fs path = None.
Proof. intros H. destruct fuel; cbn [parent_status]; by rewrite H. Qed.

Lemma OpenFile_create_absent fs path flag :
  fs !! path = None -> fs !! Dir path = Some NDir ->
  has_flag flag O_CREATE = true ->
  OpenFile fs path flag = (None, <[path := NFile empty_file]> fs).
Proof.
  intros Hp Hd Hc. unfold OpenFile, parent_of.
  by rewrite Hp, (parent_status_dir _ _ _ Hd), Hc.
Qed.

Lemma file_bytes_scalar v :
  file_bytes {| fsize := Z.of_nat (length (Sprintf_v_nl v));
                fdata := Sprintf_v_nl v |} = Sprintf_v_nl v.
Proof.
  unfold file_bytes. cbn [fsize fdata].
  rewrite Nat2Z.id, Nat.sub_diag. apply app_nil_r.
Qed.

(** Loading a scalar from a file that holds a formatted value. *)
Lemma loadStateData_scalar name dst v vm w :
  HostDataDir vm <> ""%string ->
  fs w !! Join [HostDataDir vm; name] = Some (scalar_file v) ->
  loadStateData name dst (vm, w)
  = match Fscanf_v (field_kind dst) (Sprintf_v_nl v) with
    | inl x => Some (None, (store dst x vm, w))
    | inr e => Some (if is_ErrUnexpectedEOF (Some e) then None else Some e,
                     (vm, w))
    end.
Proof.
  intros Hd Hf. unfold loadStateData, bind.
  rewrite (dataFilePath_set _ _ _ Hd). unfold os_OpenFile.
  rewrite on_fs_eq, (OpenFile_rdonly_file _ _ _ Hf). cbn [fst snd is_ErrNotExist].
  rewrite set_fs_same. unfold Fscanf_file, bind, get_world. cbn [fst snd].
  unfold ReadFile. rewrite Hf. unfold scalar_file at 1.
  rewrite file_bytes_scalar.
  destruct (Fscanf_v (field_kind dst) (Sprintf_v_nl v)) as [x | e]; [done |].
  unfold ret. by destruct (is_ErrUnexpectedEOF (Some e)).
Qed.

(** Loading a scalar that was never persisted changes nothing. *)
Lemma loadStateData_absent name dst vm w :
  HostDataDir vm <> ""%string ->
  fs w !! Join [HostDataDir vm; name] = None ->
  exists err, loadStateData name dst (vm, w) = Some (err, (vm, w)).
Proof.
  intros Hd Hf. unfold loadStateData, bind.
  rewrite (dataFilePath_set _ _ _ Hd). unfold os_OpenFile. rewrite on_fs_eq.
  destruct (OpenFile_rdonly_absent _ _ Hf) as [e ->]. cbn [fst snd].
  rewrite set_fs_same. destruct (is_ErrNotExist (Some e)); unfold ret; eauto.
Qed.

(** Saving into an existing data directory where the scalar is absent. *)
Lemma saveStateData_fresh name v vm w :
  HostDataDir vm <> ""%string ->
  fs w !! Join [HostDataDir vm; name] = None ->
  fs w !! Dir (Join [HostDataDir vm; name]) = Some NDir ->
  saveStateData name v (vm, w)
  = Some (None, (vm, set_fs (<[Join [HostDataDir vm; name] := scalar_file v]>
                               (fs w)) w)).
Proof.
  intros Hd Hf Hdir. unfold saveStateData, bind.
  rewrite (dataFilePath_set _ _ _ Hd). unfold os_OpenFile. rewrite on_fs_eq.
  rewrite (OpenFile_create_absent _ _ _ Hf Hdir) by done.
  cbn [fst snd is_ErrNotExist saveStateData_write]. unfold os_Write.
  rewrite on_fs_eq. wsimpl.
  rewrite WriteFile_empty by apply lookup_insert_eq. cbn [fst snd].
  rewrite insert_insert_eq. by destruct w.
Qed.

(** C9.  Persisted-scalar round trip.  For every 64-bit integer [v] and
    every scalar name: once [saveStateData name v] has reported no
    error, [loadStateData name] into an integer field reports no error
    and stores [v]; this holds whatever was saved under the name before,
    so of two saves the last is the one read back. *)
Theorem scalar_round_trip
    (name : string) (dst : field) (v0 v : Z) (e0 : option error)
    (s s0 s1 : VM * World) :
  - 2 ^ 63 <= v < 2 ^ 63 ->
  field_kind dst = KInt ->
  saveStateData name (IntVal v0) s = Some (e0, s0) ->
  saveStateData name (IntVal v) s0 = Some (None, s1) ->
  Fscanf_v KInt (Sprintf_v_nl (IntVal v)) = inl (IntVal v) /\
  loadStateData name dst s1
  = Some (None, (store dst (IntVal v) (fst s1), snd s1)) /\
  (dst = FCPUs -> CPUs (store dst (IntVal v) (fst s1)) = v) /\
  (dst = FMemory -> Memory (store dst (IntVal v) (fst s1)) = v).
Proof.
  intros Hv Hk _ Hsave.
  pose proof (Fscanf_Sprintf_int v Hv) as Hrt.
  destruct (wp_elim _ _ _ (saveStateData_wp name (IntVal v) s0))
    as (err & s' & Hrun & _ & Hfile).
  rewrite Hsave in Hrun. injection Hrun as <- <-.
  destruct (Hfile eq_refl) as [Hd Hf]. destruct s1 as [vm1 w1].
  cbn [fst snd] in *. split; [done |]. split.
  - rewrite (loadStateData_scalar _ _ _ _ _ Hd Hf), Hk, Hrt. done.
  - split; intros ->; by destruct vm1.
Qed.

Lemma scalar_round_trip_witness :
  loadStateData "cpu" FCPUs
    (Example.machine,
     set_fs (<["/var/vm/cpu"%string := scalar_file (IntVal (-3))]>
               (fs Example.host)) Example.host)
  = Some (None,
          (set_CPUs (-3) Example.machine,
           set_fs (<["/var/vm/cpu"%string := scalar_file (IntVal (-3))]>
                     (fs Example.host)) Example.host)).
Proof.
  refine (proj1 (proj2 (scalar_round_trip "cpu" FCPUs 5 (-3) None
            (Example.machine, Example.host)
            (Example.machine,
             set_fs (<["/var/vm/cpu"%string := scalar_file (IntVal 5)]>
                       (fs Example.host)) Example.host)
            (Example.machine,
             set_fs (<["/var/vm/cpu"%string := scalar_file (IntVal (-3))]>
                       (fs Example.host)) Example.host)
            _ _ _ _))).
  - vm_compute. split; [discriminate | reflexivity].
  - reflexivity.
  - vm_compute. reflexivity.
  - vm_compute. reflexivity.
Defined.

(** ** Negotiation from an unset value with nothing persisted *)

Section Defaults.

Variable E : Engine.

Lemma configureCPUs_default vm w :
  HostDataDir vm <> ""%string ->
  CPUs vm = 0 ->
  fs w !! Join [HostDataDir vm; "cpu"%string] = None ->
  let c := clamp DefaultCPUs (MinimumAllowedCPUCount E)
                 (MaximumAllowedCPUCount E) in
  configureCPUs E (vm, w)
  = match saveStateData "cpu" (IntVal c) (set_CPUs c vm, w) with
    | Some (_, s') => Some (tt, s')
    | None => None
    end.
Proof.
  intros Hd Hz Hf c. unfold configureCPUs, bind, get_vm. cbn [fst snd].
  rewrite Hz. cbn [Z.eqb].
  destruct (loadStateData_absent "cpu" FCPUs vm w Hd Hf) as [err ->].
  cbn [fst snd]. rewrite Hz. cbn [Z.eqb]. unfold modify_vm. cbn [fst snd].
  replace (CPUs (set_CPUs _ vm)) with c by (by destruct vm).
  fold c. by destruct (saveStateData _ _ _) as [[? ?] |].
Qed.

Lemma configureMemory_default vm w :
  HostDataDir vm <> ""%string ->
  Memory vm = 0 ->
  fs w !! Join [HostDataDir vm; "mem"%string] = None ->
  let c := clamp DefaultMemory (MinimumAllowedMemorySize E)
                 (MaximumAllowedMemorySize E) in
  configureMemory E (vm, w)
  = match saveStateData "mem" (IntVal c) (set_Memory c vm, w) with
    | Some (_, s') => Some (tt, s')
    | None => None
    end.
Proof.
  intros Hd Hz Hf c. unfold configureMemory, bind, get_vm. cbn [fst snd].
  rewrite Hz. cbn [Z.eqb].
  destruct (loadStateData_absent "mem" FMemory vm w Hd Hf) as [err ->].
  cbn [fst snd]. rewrite Hz. cbn [Z.eqb]. unfold modify_vm. cbn [fst snd].
  replace (Memory (set_Memory _ vm)) with c by (by destruct vm).
  fold c. by destruct (saveStateData _ _ _) as [[? ?] |].
Qed.

End Defaults.

(** C2.  The caller left the CPU count (the memory size) at zero and the
    data directory holds no cpu (mem) scalar.  Then negotiation sets the
    field to [clamp] of the built-in default and calls [saveStateData]
    with that value, without looking at whether clamping changed it: the
    outcome is that of the save from the unchanged host.  In a data
    directory that exists the save succeeds, and the scalar file then
    holds the value followed by a newline. *)
Theorem unset_value_defaults_and_persists (E : Engine) (vm : VM) (w : World) :
  HostDataDir vm <> ""%string ->
  let cpu := Join [HostDataDir vm; "cpu"%string] in
  let mem := Join [HostDataDir vm; "mem"%string] in
  let c := clamp DefaultCPUs (MinimumAllowedCPUCount E)
                 (MaximumAllowedCPUCount E) in
  let m := clamp DefaultMemory (MinimumAllowedMemorySize E)
                 (MaximumAllowedMemorySize E) in
  (CPUs vm = 0 -> fs w !! cpu = None ->
     (exists err vm' w',
         saveStateData "cpu" (IntVal c) (set_CPUs c vm, w)
         = Some (err, (vm', w')) /\
         configureCPUs E (vm, w) = Some (tt, (vm', w')) /\
         CPUs vm' = c) /\
     (fs w !! Dir cpu = Some NDir ->
      configureCPUs E (vm, w)
      = Some (tt, (set_CPUs c vm,
                   set_fs (<[cpu := scalar_file (IntVal c)]> (fs w)) w)))) /\
  (Memory vm = 0 -> fs w !! mem = None ->
     (exists err vm' w',
         saveStateData "mem" (IntVal m) (set_Memory m vm, w)
         = Some (err, (vm', w')) /\
         configureMemory E (vm, w) = Some (tt, (vm', w')) /\
         Memory vm' = m) /\
     (fs w !! Dir mem = Some NDir ->
      configureMemory E (vm, w)
      = Some (tt, (set_Memory m vm,
                   set_fs (<[mem := scalar_file (IntVal m)]> (fs w)) w)))).
Proof.
  intros Hd cpu mem c m. split.
  - intros Hz Hf. pose proof (configureCPUs_default E vm w Hd Hz Hf) as Hrun.
    cbv zeta in Hrun. fold c in Hrun. split.
    + destruct (wp_elim _ _ _ (saveStateData_wp "cpu" (IntVal c)
                                 (set_CPUs c vm, w)))
        as (err & [vm' w'] & Hsave & Hframe & _).
      exists err, vm', w'. rewrite Hrun, Hsave. split; [done |].
      split; [done |]. cbn [fst] in Hframe.
      rewrite (dir_only_CPUs _ _ Hframe). by destruct vm.
    + intros Hdir. rewrite Hrun.
      assert (Hd' : HostDataDir (set_CPUs c vm) <> ""%string) by (by destruct vm).
      assert (Heq : HostDataDir (set_CPUs c vm) = HostDataDir vm) by (by destruct vm).
      rewrite (saveStateData_fresh "cpu" (IntVal c) (set_CPUs c vm) w Hd');
        rewrite ?Heq; done.
  - intros Hz Hf. pose proof (configureMemory_default E vm w Hd Hz Hf) as Hrun.
    cbv zeta in Hrun. fold m in Hrun. split.
    + destruct (wp_elim _ _ _ (saveStateData_wp "mem" (IntVal m)
                                 (set_Memory m vm, w)))
        as (err & [vm' w'] & Hsave & Hframe & _).
      exists err, vm', w'. rewrite Hrun, Hsave. split; [done |].
      split; [done |]. cbn [fst] in Hframe.
      rewrite (dir_only_Memory _ _ Hframe). by destruct vm.
    + intros Hdir. rewrite Hrun.
      assert (Hd' : HostDataDir (set_Memory m vm) <> ""%string) by (by destruct vm).
      assert (Heq : HostDataDir (set_Memory m vm) = HostDataDir vm) by (by destruct vm).
      rewrite (saveStateData_fresh "mem" (IntVal m) (set_Memory m vm) w Hd');
        rewrite ?Heq; done.
Qed.

Lemma unset_value_defaults_and_persists_witness :
  configureCPUs Example.engine (Example.machine, Example.host)
  = Some (tt, (set_CPUs 1 Example.machine,
               set_fs (<["/var/vm/cpu"%string := scalar_file (IntVal 1)]>
                         (fs Example.host)) Example.host)).
Proof.
  refine (proj2 (proj1 (unset_value_defaults_and_persists
                          Example.engine Example.machine Example.host _) _ _) _).
  - discriminate.
  - reflexivity.
  - vm_compute. reflexivity.
  - vm_compute. reflexivity.
Defined.

(** ** The root disk image *)

Lemma Mkdir_frame fs path p :
  snd (Mkdir fs path) !! p = fs !! p \/
  (fs !! p = None /\ snd (Mkdir fs path) !! p = Some NDir).
Proof.
  unfold Mkdir. destruct (fs !! path) eqn:Hl; [by left |].
  destruct (parent_of fs path); [by left |]. cbn [snd].
  destruct (decide (path = p)) as [<- | Hne].
  - right. by rewrite lookup_insert_eq.
  - left. by rewrite lookup_insert_ne.
Qed.

(** [MkdirAll] adds directories and nothing else. *)
Lemma MkdirAll_rec_frame fuel : forall fs path p,
  snd (MkdirAll_rec fuel fs path) !! p = fs !! p \/
  (fs !! p = None /\ snd (MkdirAll_rec fuel fs path) !! p = Some NDir).
Proof.
  induction fuel as [| fuel IH]; intros fs path p; cbn [MkdirAll_rec].
  - destruct (fs !! path) as [[| f] |]; [by left | by left |].
    apply Mkdir_frame.
  - destruct (fs !! path) as [[| f] |]; [by left | by left |].
    destruct (bool_decide (MkdirAll_parent path = ""%string)).
    + pose proof (Mkdir_frame fs path p) as HM.
      destruct (Mkdir fs path) as [err1 fs2]. cbn [snd] in HM.
      destruct err1 as [e1 |]; [| exact HM].
      destruct (fs2 !! path) as [[| f] |]; exact HM.
    + specialize (IH fs (MkdirAll_parent path) p).
      destruct (MkdirAll_rec fuel fs (MkdirAll_parent path)) as [[e |] fs1];
        cbn [snd] in IH; [exact IH |].
      pose proof (Mkdir_frame fs1 path p) as HM.
      destruct (Mkdir fs1 path) as [err1 fs2]. cbn [snd] in HM.
      assert (Hgoal : fs2 !! p = fs !! p \/ (fs !! p = None /\ fs2 !! p = Some NDir)).
      { destruct IH as [IH | [IH1 IH2]], HM as [HM | [HM1 HM2]].
        - left. congruence.
        - right. split; congruence.
        - right. split; congruence.
        - congruence. }
      destruct err1 as [e1 |]; [| exact Hgoal].
      destruct (fs2 !! path) as [[| f] |]; exact Hgoal.
Qed.

Lemma MkdirAll_frame fs path p :
  snd (MkdirAll fs path) !! p = fs !! p \/
  (fs !! p = None /\ snd (MkdirAll fs path) !! p = Some NDir).
Proof. apply MkdirAll_rec_frame. Qed.

Lemma OpenFile_excl_exists fs path n :
  fs !! path = Some n -> OpenFile fs path flag_excl = (Some ErrExist, fs).
Proof. intros H. unfold OpenFile. rewrite H. by destruct n. Qed.

Lemma OpenFile_excl_absent fs path :
  fs !! path = None ->
  OpenFile fs path flag_excl = (None, <[path := NFile empty_file]> fs) \/
  exists e, OpenFile fs path flag_excl = (Some e, fs) /\
            is_ErrExist (Some e) = false.
Proof.
  intros H. unfold OpenFile. rewrite H.
  destruct (parent_of fs path) as [e |] eqn:Hp; [| by left].
  right. exists e. split; [done |].
  unfold parent_of in Hp. revert Hp. generalize (String.length path).
  intros n. revert path H. induction n as [| n IH]; intros path H;
    cbn [parent_status].
  - destruct (fs !! Dir path) as [[| f] |]; [done | by intros [= <-] | by intros [= <-]].
  - destruct (fs !! Dir path) as [[| f] |]; [done | by intros [= <-] |].
    destruct (bool_decide (Dir path = path)); [by intros [= <-] |].
    destruct (parent_status n fs (Dir path)) as [[] |]; by intros [= <-].
Qed.

Lemma Truncate_empty fs path size :
  fs !! path = Some (NFile empty_file) -> 0 <= size ->
  Truncate fs path size = (None, <[path := new_image size]> fs).
Proof.
  intros H Hs. unfold Truncate. rewrite H.
  destruct (size <? 0) eqn:E; [apply Z.ltb_lt in E; lia | done].
Qed.

Section RootDisk.

Variable E : Engine.

Lemma rootDisk_attach_state path s :
  exists r, rootDisk_attach E path s = Some (r, s).
Proof.
  unfold rootDisk_attach, bind, get_world, ret.
  destruct (NewDiskImageStorageDeviceAttachment E _ _ _); [eauto |].
  destruct (NewVirtioBlockDeviceConfiguration E _); eauto.
Qed.

(** The branch taken when the exclusive create made the file. *)
Lemma rootDisk_created_new path vm w :
  fs w !! path = Some (NFile empty_file) ->
  let size := if DiskSize vm =? 0 then DefaultDisk else DiskSize vm in
  0 <= size ->
  exists r,
    rootDisk_created E path true (vm, w)
    = Some (r, (set_DiskSize size vm,
                set_fs (<[path := new_image size]> (fs w)) w)).
Proof.
  intros Hf size Hsize. unfold rootDisk_created, bind, get_vm. cbn [fst snd].
  assert (Hvm : forall A (k : VM -> M A),
             (match (if DiskSize vm =? 0
                     then modify_vm (set_DiskSize DefaultDisk)
                     else ret tt) (vm, w) with
              | Some (_, s') => k (fst s') s'
              | None => None
              end) = k (set_DiskSize size vm) (set_DiskSize size vm, w)).
  { intros A k. subst size. destruct (DiskSize vm =? 0); cbn.
    - done.
    - by destruct vm. }
  rewrite (Hvm _ (fun v s' =>
             match os_Truncate path (DiskSize v) s' with
             | Some (a, s'') =>
                 match a with
                 | Some e => ret (inr (Errorf "truncate new root disk image" e))
                 | None => rootDisk_attach E path
                 end s''
             | None => None
             end)).
  unfold os_Truncate. rewrite on_fs_eq.
  replace (DiskSize (set_DiskSize size vm)) with size by (by destruct vm).
  rewrite (Truncate_empty _ _ _ Hf Hsize). cbn [fst snd].
  apply rootDisk_attach_state.
Qed.

Lemma rootDisk_existing vm w n :
  HostDataDir vm <> ""%string ->
  fs w !! Join [HostDataDir vm; "disk.img"%string] = Some n ->
  exists r, rootDisk E (vm, w) = Some (r, (vm, w)).
Proof.
  intros Hd Hf. unfold rootDisk, bind.
  rewrite (dataFilePath_set _ _ _ Hd). fold flag_excl. unfold os_OpenFile.
  rewrite on_fs_eq, (OpenFile_excl_exists _ _ _ Hf).
  cbn [fst snd is_ErrNotExist rootDisk_opened is_ErrExist negb is_nil
       rootDisk_created].
  rewrite set_fs_same. apply rootDisk_attach_state.
Qed.

Lemma rootDisk_first vm w :
  HostDataDir vm <> ""%string ->
  let path := Join [HostDataDir vm; "disk.img"%string] in
  let size := if DiskSize vm =? 0 then DefaultDisk else DiskSize vm in
  fs w !! path = None -> fs w !! Dir path = Some NDir -> 0 <= size ->
  exists r,
    rootDisk E (vm, w)
    = Some (r, (set_DiskSize size vm,
                set_fs (<[path := new_image size]> (fs w)) w)).
Proof.
  intros Hd path size Hf Hdir Hsize. unfold rootDisk, bind.
  rewrite (dataFilePath_set _ _ _ Hd). fold flag_excl path. unfold os_OpenFile.
  rewrite on_fs_eq, (OpenFile_create_absent _ _ _ Hf Hdir) by done.
  cbn [fst snd is_ErrNotExist rootDisk_opened is_nil].
  destruct (rootDisk_created_new path vm
              (set_fs (<[path := NFile empty_file]> (fs w)) w)) as [r Hr].
  - wsimpl. apply lookup_insert_eq.
  - exact Hsize.
  - exists r. rewrite Hr. wsimpl. rewrite insert_insert_eq. by destruct w.
Qed.

End RootDisk.

(** C4.  In a data directory whose disk.img exists, [rootDisk] changes
    neither the host (the image keeps its size and its bytes; no other
    file changes either) nor the VM, whatever [DiskSize] asks for; the
    image gets its size on the call that creates it, and a later call
    that asks for another size leaves it as it is. *)
Theorem existing_image_is_not_resized (E : Engine) (vm : VM) (w : World) :
  HostDataDir vm <> ""%string ->
  let path := Join [HostDataDir vm; "disk.img"%string] in
  (forall n, fs w !! path = Some n ->
             exists r, rootDisk E (vm, w) = Some (r, (vm, w))) /\
  (fs w !! path = None -> fs w !! Dir path = Some NDir -> 0 < DiskSize vm ->
   exists r w1,
     rootDisk E (vm, w) = Some (r, (vm, w1)) /\
     fs w1 = <[path := new_image (DiskSize vm)]> (fs w) /\
     forall size2,
     exists r2,
       rootDisk E (set_DiskSize size2 vm, w1)
       = Some (r2, (set_DiskSize size2 vm, w1))).
Proof.
  intros Hd path. split.
  - intros n Hn. by apply (rootDisk_existing E vm w n).
  - intros Hf Hdir Hsize.
    destruct (rootDisk_first E vm w Hd Hf Hdir) as [r Hr].
    { destruct (DiskSize vm =? 0) eqn:Hz; [apply Z.eqb_eq in Hz; lia | lia]. }
    destruct (DiskSize vm =? 0) eqn:Hz; [apply Z.eqb_eq in Hz; lia |].
    rewrite set_DiskSize_same in Hr.
    eexists r, _. split; [exact Hr |]. split; [done |].
    intros size2. apply (rootDisk_existing E _ _ (new_image (DiskSize vm))).
    + by destruct vm.
    + wsimpl. replace (HostDataDir (set_DiskSize size2 vm)) with (HostDataDir vm)
        by (by destruct vm).
      apply lookup_insert_eq.
Qed.

Lemma existing_image_is_not_resized_witness :
  exists r,
    rootDisk Example.engine
      (set_DiskSize 1048576 Example.machine,
       set_fs (<["/var/vm/disk.img"%string := new_image 4096]> (fs Example.host))
              Example.host)
    = Some (r, (set_DiskSize 1048576 Example.machine,
                set_fs (<["/var/vm/disk.img"%string := new_image 4096]>
                          (fs Example.host)) Example.host)).
Proof.
  refine (proj1 (existing_image_is_not_resized Example.engine
                   (set_DiskSize 1048576 Example.machine)
                   (set_fs (<["/var/vm/disk.img"%string := new_image 4096]>
                              (fs Example.host)) Example.host) _)
                (new_image 4096) _).
  - discriminate.
  - vm_compute. reflexivity.
Defined.

Section FirstCreation.

Variable E : Engine.

Lemma rootDisk_opened_error path e s :
  is_ErrExist (Some e) = false ->
  rootDisk_opened E path (Some e) s = Some (inr e, s).
Proof. intros H. unfold rootDisk_opened. by rewrite H. Qed.

Lemma rootDisk_opened_exists path s :
  exists r, rootDisk_opened E path (Some ErrExist) s = Some (r, s).
Proof.
  unfold rootDisk_opened. cbn [is_ErrExist negb is_nil rootDisk_created].
  apply rootDisk_attach_state.
Qed.

(** After an exclusive create at an absent path: either the file was
    made and sized, or no regular file stands at the path. *)
Lemma rootDisk_open_absent path vm w r vm' w' :
  DiskSize vm = 0 ->
  fs w !! path = None \/ fs w !! path = Some NDir ->
  (err_fs <- os_OpenFile path flag_excl ;; rootDisk_opened E path err_fs) (vm, w)
  = Some (r, (vm', w')) ->
  (vm' = set_DiskSize DefaultDisk vm /\
   fs w' !! path = Some (new_image DefaultDisk)) \/
  (fs w' !! path = None \/ fs w' !! path = Some NDir).
Proof.
  intros Hz Hf. unfold bind, os_OpenFile. rewrite on_fs_eq.
  destruct Hf as [Hf | Hf].
  - destruct (OpenFile_excl_absent _ _ Hf) as [-> | (e & -> & He)];
      cbn [fst snd].
    + cbn [rootDisk_opened is_nil].
      destruct (rootDisk_created_new E path vm
                  (set_fs (<[path := NFile empty_file]> (fs w)) w)) as [r' ->].
      * wsimpl. apply lookup_insert_eq.
      * rewrite Hz. done.
      * rewrite Hz. cbn [Z.eqb]. intros [= _ <- <-]. left. split; [done |].
        wsimpl. apply lookup_insert_eq.
    + rewrite (rootDisk_opened_error _ _ _ He). intros [= _ _ <-].
      right. left. wsimpl. done.
  - rewrite (OpenFile_excl_exists _ _ _ Hf). cbn [fst snd].
    destruct (rootDisk_opened_exists path (vm, set_fs (fs w) w)) as [r' ->].
    intros [= _ _ <-]. right. right. wsimpl. done.
Qed.

Lemma rootDisk_creates vm w r vm' w' f :
  HostDataDir vm <> ""%string ->
  DiskSize vm = 0 ->
  let path := Join [HostDataDir vm; "disk.img"%string] in
  fs w !! path = None ->
  rootDisk E (vm, w) = Some (r, (vm', w')) ->
  fs w' !! path = Some (NFile f) ->
  vm' = set_DiskSize DefaultDisk vm /\ NFile f = new_image DefaultDisk.
Proof.
  intros Hd Hz path Hf Hrun Hafter. unfold rootDisk in Hrun.
  unfold bind at 1 in Hrun. rewrite (dataFilePath_set _ _ _ Hd) in Hrun.
  fold flag_excl path in Hrun.
  assert (Hdone : (vm' = set_DiskSize DefaultDisk vm /\
                   fs w' !! path = Some (new_image DefaultDisk)) \/
                  (fs w' !! path = None \/ fs w' !! path = Some NDir)).
  { unfold bind at 1 in Hrun. unfold os_OpenFile at 1 in Hrun.
    rewrite on_fs_eq in Hrun.
    pose proof (OpenFile_excl_absent _ _ Hf) as Hopen.
    destruct Hopen as [Hopen | (e & Hopen & He)].
    - eapply (rootDisk_open_absent path vm w r vm' w' Hz); [by left |].
      unfold bind, os_OpenFile. rewrite on_fs_eq. rewrite Hopen in Hrun |- *.
      cbn [fst snd is_ErrNotExist] in Hrun |- *. exact Hrun.
    - rewrite Hopen in Hrun. cbn [fst snd] in Hrun. rewrite set_fs_same in Hrun.
      destruct (is_ErrNotExist (Some e)) eqn:Hne.
      + unfold bind at 1 in Hrun. unfold os_MkdirAll in Hrun.
        rewrite on_fs_eq in Hrun.
        pose proof (MkdirAll_frame (fs w) (Dir path) path) as Hfr.
        destruct (MkdirAll (fs w) (Dir path)) as [[e2 |] fs2];
          cbn [fst snd] in Hrun, Hfr.
        * injection Hrun as _ _ <-. right. wsimpl.
          destruct Hfr as [-> | [_ ->]]; auto.
        * eapply (rootDisk_open_absent path vm (set_fs fs2 w) r vm' w' Hz);
            [| exact Hrun].
          wsimpl. destruct Hfr as [-> | [_ ->]]; auto.
      + rewrite (rootDisk_opened_error _ _ _ He) in Hrun.
        injection Hrun as _ _ <-. right. by left. }
  destruct Hdone as [[-> Hnew] | [Hnone | Hdir]]; [| congruence | congruence].
  split; [done |]. congruence.
Qed.

End FirstCreation.

(** C10.  [DiskSize] is zero and the data directory holds no disk.img.
    Whenever a call of [rootDisk] then leaves a regular file at that
    path (it is the call that creates the image), the VM's [DiskSize] is
    the built-in default of 2^32 bytes and the image is a file of
    exactly that size; in a data directory that exists the call does
    create it.  The disk size is not zero afterwards. *)
Theorem unset_disk_size_defaults (E : Engine) (vm : VM) (w : World) :
  HostDataDir vm <> ""%string ->
  DiskSize vm = 0 ->
  let path := Join [HostDataDir vm; "disk.img"%string] in
  fs w !! path = None ->
  DefaultDisk = 2 ^ 32 /\
  (forall r vm' w' f,
      rootDisk E (vm, w) = Some (r, (vm', w')) ->
      fs w' !! path = Some (NFile f) ->
      DiskSize vm' = 2 ^ 32 /\ fsize f = 2 ^ 32 /\ fdata f = []) /\
  (fs w !! Dir path = Some NDir ->
   exists r w',
     rootDisk E (vm, w) = Some (r, (set_DiskSize DefaultDisk vm, w')) /\
     fs w' = <[path := new_image (2 ^ 32)]> (fs w) /\
     DiskSize (set_DiskSize DefaultDisk vm) <> 0).
Proof.
  intros Hd Hz path Hf. split; [reflexivity |]. split.
  - intros r vm' w' f Hrun Hafter.
    destruct (rootDisk_creates E vm w r vm' w' f Hd Hz Hf Hrun Hafter)
      as [-> Himg].
    injection Himg as ->. cbn [fsize fdata].
    split; [by destruct vm | by split].
  - intros Hdir. destruct (rootDisk_first E vm w Hd Hf Hdir) as [r Hr].
    { rewrite Hz. done. }
    rewrite Hz in Hr. cbn [Z.eqb] in Hr.
    eexists r, _. split; [exact Hr |]. split; [done |]. by destruct vm.
Qed.

Lemma unset_disk_size_defaults_witness :
  exists r w',
    rootDisk Example.engine (Example.machine, Example.host)
    = Some (r, (set_DiskSize DefaultDisk Example.machine, w')) /\
    fs w' = <["/var/vm/disk.img"%string := new_image (2 ^ 32)]> (fs Example.host) /\
    DiskSize (set_DiskSize DefaultDisk Example.machine) <> 0.
Proof.
  refine (proj2 (proj2 (unset_disk_size_defaults Example.engine Example.machine
                          Example.host _ _ _)) _).
  - discriminate.
  - reflexivity.
  - vm_compute. reflexivity.
  - vm_compute. reflexivity.
Defined.

(** ** Stop *)

(** C6.  On a nil [*VM], or on a VM whose engine instance handle is nil
    (no [Start] has set it), [Stop] returns the nil error; the VM and
    the host are as they were: nothing is added to the trace of engine
    calls, no file changes. *)
Theorem stop_never_started_is_noop
    (E : Engine) (sched : schedule) (ctx : context) (vm : option VM)
    (w : World) :
  (vm = None \/ exists v, vm = Some v /\ vzvm v = None) ->
  Stop E sched ctx vm w = (None, vm, w).
Proof.
  intros [-> | (v & -> & Hv)]; unfold Stop; [done |]. by rewrite Hv.
Qed.

Lemma stop_never_started_is_noop_witness :
  Stop Example.stubborn_engine {| task_first := true; pick_done := false |}
       (AlreadyDone Canceled) (Some Example.machine) Example.host
  = (None, Some Example.machine, Example.host).
Proof.
  apply (stop_never_started_is_noop Example.stubborn_engine).
  right. exists Example.machine. split; reflexivity.
Defined.

(** C7, as stated, fails: with a context that is already cancelled, a
    background task that has reported before the select is evaluated
    leaves both cases ready, and the case taken may be the channel's.
    Here the guest refuses to stop and [Stop] returns the engine's
    error, not [context.Canceled]. *)
Lemma cancelled_stop_can_return_engine_error :
  Stop_error
    (Stop Example.stubborn_engine {| task_first := true; pick_done := false |}
          (AlreadyDone Canceled) (Some Example.running_machine) Example.host)
  = Some (Errorf "could not shutdown gracefully"
                 (EngineError "guest did not respond")) /\
  Stop_error
    (Stop Example.stubborn_engine {| task_first := true; pick_done := false |}
          (AlreadyDone Canceled) (Some Example.running_machine) Example.host)
  <> Some Canceled.
Proof. split; [reflexivity | discriminate]. Qed.

(** C7, amended.  On a running VM, with a context already cancelled
    with error [e]: when the background task has not reported by the
    time the select is evaluated, [Stop] returns [e]; when it has, both
    cases are ready and [Stop] returns [e] or what the task reported,
    as the runtime picks.  Nothing else is returned. *)
Theorem stop_with_cancelled_context
    (E : Engine) (sched : schedule) (e : error) (vm : VM)
    (h : VirtualMachine) (w : World) :
  vzvm vm = Some h ->
  let res := Stop_error (Stop E sched (AlreadyDone e) (Some vm) w) in
  (task_first sched = false -> res = Some e) /\
  (pick_done sched = true -> res = Some e) /\
  (task_first sched = true -> pick_done sched = false ->
   res = snd (stop_task E h)) /\
  (res = Some e \/ res = snd (stop_task E h)).
Proof.
  intros Hh res. subst res. unfold Stop, Stop_error. rewrite Hh.
  destruct (stop_task E h) as [calls sent]. cbn [snd].
  destruct (task_first sched), (pick_done sched); cbn [fst];
    repeat split; try done; auto.
Qed.

Lemma stop_with_cancelled_context_witness :
  Stop_error
    (Stop Example.stubborn_engine {| task_first := false; pick_done := false |}
          (AlreadyDone Canceled) (Some Example.running_machine) Example.host)
  = Some Canceled.
Proof.
  refine (proj1 (stop_with_cancelled_context Example.stubborn_engine
                   {| task_first := false; pick_done := false |} Canceled
                   Example.running_machine
                   {| vm_configuration := Example.configuration |}
                   Example.host _) _); reflexivity.
Defined.

(** ** Shared directories *)

Section SharedDirs.

Variable E : Engine.
Variable I : Installer.

Hypothesis shared_directory_ok : forall p ro, NewSharedDirectory E p ro = None.
Hypothesis directory_share_ok : forall p, NewSingleDirectoryShare E p = None.
Hypothesis virtiofs_ok :
  forall tag, NewVirtioFileSystemDeviceConfiguration E tag = None.

Lemma configureDirShare_ok d vm w l :
  Logger vm = Some l ->
  configureDirShare E (Path d) (ReadOnly d) (vm, w)
  = Some (inl (dirshare d),
          (vm, set_trace (trace w ++ [EvLog l "DEBUG" "configured shared directory"]) w)).
Proof using shared_directory_ok directory_share_ok virtiofs_ok.
  intros Hl. unfold configureDirShare.
  rewrite shared_directory_ok, directory_share_ok, virtiofs_ok.
  unfold bind. by rewrite (log_eq _ _ _ _ _ Hl).
Qed.

(** The loop builds one device per directory, in the order of the list. *)
Lemma attachSharedDirs_loop_ok dirs : forall configs vm w l,
  Logger vm = Some l ->
  exists w',
    attachSharedDirs_loop E dirs configs (vm, w)
    = Some (inl (configs ++ map dirshare dirs), (vm, w')).
Proof using shared_directory_ok directory_share_ok virtiofs_ok.
  induction dirs as [| d dirs IH]; intros configs vm w l Hl.
  - exists w. cbn [attachSharedDirs_loop map]. by rewrite app_nil_r.
  - cbn [attachSharedDirs_loop map]. unfold bind at 1.
    rewrite (configureDirShare_ok d vm w l Hl).
    destruct (IH (configs ++ [dirshare d]) vm
                 (set_trace (trace w ++ [EvLog l "DEBUG" "configured shared directory"]) w)
                 l Hl) as [w' Hw'].
    exists w'. rewrite Hw'. by rewrite <- app_assoc.
Qed.

Lemma attachSharedDirs_configs_ok vm w l c :
  Logger vm = Some l -> config vm = Some c ->
  exists w',
    attachSharedDirs_configs E (vm, w)
    = Some (None,
            (set_config (Some (set_c_shares (map dirshare (SharedDirectories vm)) c)) vm,
             w')).
Proof using shared_directory_ok directory_share_ok virtiofs_ok.
  intros Hl Hc. unfold attachSharedDirs_configs, bind at 1, get_vm.
  cbn [fst snd]. unfold bind at 1.
  destruct (attachSharedDirs_loop_ok (SharedDirectories vm) [] vm w l Hl)
    as [w1 ->].
  cbn [app]. unfold bind at 1. rewrite (with_config_eq _ _ _ _ Hc).
  unfold bind. rewrite (log_eq _ _ _ _ l) by (by rewrite Logger_set_config).
  unfold ret. eauto.
Qed.

End SharedDirs.

(** C3, as stated, fails: the two implicit entries are appended to the
    caller's list, so they come after the caller's entries in the device
    list, not before. *)
Lemma implicit_shares_do_not_precede :
  exists c vm' w',
    attachSharedDirs Example.engine Example.installer
      (Example.install_machine, Example.host)
    = Some (None, (vm', w')) /\
    config vm' = Some c /\
    c_shares c
    = [ {| share_tag := "src"; share_path := "/home/u/src";
           share_readOnly := false |};
        {| share_tag := "install"; share_path := "/var/vm/install";
           share_readOnly := true |};
        {| share_tag := "boot"; share_path := "/var/vm/boot";
           share_readOnly := false |} ]%string /\
    c_shares c
    <> [ {| share_tag := "install"; share_path := "/var/vm/install";
            share_readOnly := true |};
         {| share_tag := "boot"; share_path := "/var/vm/boot";
            share_readOnly := false |};
         {| share_tag := "src"; share_path := "/home/u/src";
            share_readOnly := false |} ]%string.
Proof.
  eexists _, _, _. split; [vm_compute; reflexivity |].
  split; [reflexivity |]. split; [reflexivity | discriminate].
Qed.

(** C3, amended.  In install mode, when the bootstrap script has been
    generated in [dir], the boot-output directory has been made and the
    engine accepts every share, [attachSharedDirs] succeeds and the
    device list is: one device per caller-supplied directory, in the
    caller's order, then the bootstrap directory read-only, then the
    boot-output directory writable.  The two implicit entries are the
    last two, and they are also appended to [SharedDirectories]. *)
Theorem implicit_shares_follow_callers
    (E : Engine) (I : Installer) (vm vm1 : VM) (w w1 : World)
    (dir : string) (c : Configuration) (l : logger) (fs2 : gmap string node) :
  Install vm = true ->
  generateBootstrapScript I (vm, w) = Some (inl dir, (vm1, w1)) ->
  SharedDirectories vm1 = SharedDirectories vm ->
  HostDataDir vm1 <> ""%string ->
  config vm1 = Some c ->
  Logger vm1 = Some l ->
  MkdirAll (fs w1) (Join [HostDataDir vm1; "boot"%string]) = (None, fs2) ->
  (forall p ro, NewSharedDirectory E p ro = None) ->
  (forall p, NewSingleDirectoryShare E p = None) ->
  (forall tag, NewVirtioFileSystemDeviceConfiguration E tag = None) ->
  let bootDir := Join [HostDataDir vm1; "boot"%string] in
  let all := SharedDirectories vm
             ++ [ {| Path := dir; ReadOnly := true |};
                  {| Path := bootDir; ReadOnly := false |} ] in
  exists vm' w',
    attachSharedDirs E I (vm, w) = Some (None, (vm', w')) /\
    SharedDirectories vm' = all /\
    config vm' = Some (set_c_shares (map dirshare all) c) /\
    map dirshare all
    = map dirshare (SharedDirectories vm)
      ++ [ {| share_tag := Base dir; share_path := dir; share_readOnly := true |};
           {| share_tag := Base bootDir; share_path := bootDir;
              share_readOnly := false |} ].
Proof.
  intros Hinst Hgen Hshared Hd Hc Hl Hmk H1 H2 H3 bootDir all.
  unfold attachSharedDirs, bind at 1, get_vm. cbn [fst snd]. rewrite Hinst.
  unfold bind at 1. rewrite Hgen. unfold bind at 1.
  rewrite (dataFilePath_set _ _ _ Hd). fold bootDir.
  unfold bind at 1, os_MkdirAll. rewrite on_fs_eq. fold bootDir in Hmk.
  rewrite Hmk. cbn [fst snd]. unfold bind at 1, get_vm. cbn [fst snd].
  unfold bind at 1, modify_vm. cbn [fst snd]. rewrite Hshared. fold all.
  destruct (attachSharedDirs_configs_ok E H1 H2 H3
              (set_SharedDirectories all vm1) (set_fs fs2 w1) l c)
    as [w' Hw'].
  { by destruct vm1. }
  { by destruct vm1. }
  rewrite Hw'. eexists _, w'. split; [reflexivity |].
  replace (SharedDirectories (set_SharedDirectories all vm1)) with all
    by (by destruct vm1).
  split; [by destruct vm1 |]. split; [by destruct vm1 |].
  subst all. by rewrite map_app.
Qed.

Lemma implicit_shares_follow_callers_witness :
  exists vm' w',
    attachSharedDirs Example.engine Example.installer
      (Example.install_machine, Example.host)
    = Some (None, (vm', w')) /\
    SharedDirectories vm'
    = [ {| Path := "/home/u/src"; ReadOnly := false |};
        {| Path := "/var/vm/install"; ReadOnly := true |};
        {| Path := "/var/vm/boot"; ReadOnly := false |} ]%string.
Proof.
  destruct (implicit_shares_follow_callers Example.engine Example.installer
              Example.install_machine Example.install_machine
              Example.host Example.host "/var/vm/install"
              Example.configuration DefaultLogger
              (<["/var/vm/boot"%string := NDir]> (fs Example.host)))
    as (vm' & w' & Hrun & Hdirs & _).
  - reflexivity.
  - reflexivity.
  - reflexivity.
  - discriminate.
  - reflexivity.
  - reflexivity.
  - vm_compute. reflexivity.
  - reflexivity.
  - reflexivity.
  - reflexivity.
  - exists vm', w'. split; [exact Hrun | exact Hdirs].
Defined.

(** ** The machine identifier *)

(** What [Fscanf] with the verb v reads back from a byte slice printed
    with the verb v: the first space-delimited word of the printed form,
    which opens with a bracket. *)
Lemma Fscanf_Sprintf_bytes (b : list byte) :
  exists word,
    Fscanf_v KBytes (Sprintf_v_nl (BytesVal b))
    = inl (BytesVal ("["%char :: word)).
Proof.
  assert (Hskip : forall s, SkipSpace ("["%char :: s) = inl ("["%char :: s))
    by reflexivity.
  assert (Hword : forall s,
             accept_while (fun c => negb (isSpace c)) ("["%char :: s)
             = ("["%char :: fst (accept_while (fun c => negb (isSpace c)) s),
                snd (accept_while (fun c => negb (isSpace c)) s))).
  { intros s. cbn [accept_while]. change (negb (isSpace "[")) with true.
    cbv iota. by destruct (accept_while _ s). }
  unfold Sprintf_v_nl, Sprint_v, fmtBytes, Fscanf_v, scanOne_v, convertString.
  cbn [app]. rewrite !Hskip, Hword. cbn [fst]. eauto.
Qed.

(** An identifier that does not itself begin with a bracket is never
    read back as it was saved. *)
Lemma identity_round_trip_fails (b : list byte) :
  hd "000"%char b <> "["%char ->
  Fscanf_v KBytes (Sprintf_v_nl (BytesVal b)) <> inl (BytesVal b).
Proof.
  intros Hb Heq. destruct (Fscanf_Sprintf_bytes b) as [word Hw].
  rewrite Hw in Heq. injection Heq as <-. by apply Hb.
Qed.

(** C5: the code does not keep the promise.  First run: no identifier
    is persisted, the engine makes the identifier 1, 2, 3, which is
    saved as the text [[1 2 3]].  Second run on the same data directory:
    no new identifier is made, but the one loaded is the two bytes of
    the word [[1], not the identifier that was persisted. *)
Theorem persisted_identity_is_read_back_mangled :
  exists vm1 w1 vm2 w2,
    configureLinuxPlatform Example.engine
      (Example.configured_machine, Example.host) = Some (None, (vm1, w1)) /\
    ID vm1 = [chr 1; chr 2; chr 3] /\
    fs w1 !! "/var/vm/id"%string = Some (scalar_file (BytesVal (ID vm1))) /\
    string_of_list_ascii (Sprintf_v_nl (BytesVal (ID vm1)))
    = String "[" (String "1" (String " " (String "2" (String " "
        (String "3" (String "]" (String "010" ""))))))) /\
    configureLinuxPlatform Example.engine
      (Example.configured_machine, w1) = Some (None, (vm2, w2)) /\
    ID vm2 = ["["%char; "1"%char] /\
    ID vm2 <> ID vm1 /\
    c_platform <$> config vm2 = Some (Some ["["%char; "1"%char]).
Proof.
  eexists _, _, _, _. split; [vm_compute; reflexivity |].
  split; [reflexivity |]. split; [vm_compute; reflexivity |].
  split; [reflexivity |]. split; [vm_compute; reflexivity |].
  split; [reflexivity |]. split; [discriminate | reflexivity].
Qed.

(** ** Start and the failures of the scalar store *)

Lemma bind_inv {A B : Type} (c : M A) (k : A -> M B) s b s' :
  bind c k s = Some (b, s') ->
  exists a s1, c s = Some (a, s1) /\ k a s1 = Some (b, s').
Proof.
  unfold bind. destruct (c s) as [[a s1] |]; [eauto | done].
Qed.






Section StartFailures.

Variable E : Engine.
Variable I : Installer.







End StartFailures.



(** ** Further properties of the package *)



(** X2.  A VM restarted without explicit sizing takes the persisted
    CPU count: with the field at zero and a cpu scalar holding a
    non-zero 64-bit value within the host's bounds, [configureCPUs]
    sets the field to that value and writes nothing. *)
Theorem persisted_cpu_count_is_reused
    (E : Engine) (vm : VM) (w : World) (v : Z) :
  HostDataDir vm <> ""%string ->
  CPUs vm = 0 ->
  - 2 ^ 63 <= v < 2 ^ 63 ->
  v <> 0 ->
  MinimumAllowedCPUCount E <= v <= MaximumAllowedCPUCount E ->
  fs w !! Join [HostDataDir vm; "cpu"%string] = Some (scalar_file (IntVal v)) ->
  configureCPUs E (vm, w) = Some (tt, (set_CPUs v vm, w)).
Proof.
  intros Hd Hz Hv Hnz Hin Hf.
  unfold configureCPUs, bind at 1, get_vm. cbn [fst snd]. rewrite Hz.
  cbn [Z.eqb]. unfold bind at 1.
  rewrite (loadStateData_scalar _ _ _ _ _ Hd Hf). cbn [field_kind].
  rewrite (Fscanf_Sprintf_int v Hv). cbn [store].
  unfold bind at 1. cbn [fst snd].
  replace (CPUs (set_CPUs v vm)) with v by (by destruct vm).
  destruct (Z.eqb_spec v 0) as [? | _]; [done |].
  unfold configureCPUs_clamp, bind, get_vm. cbn [fst snd].
  replace (CPUs (set_CPUs v vm)) with v by (by destruct vm).
  rewrite (clamp_inside _ _ _ Hin), Z.eqb_refl. done.
Qed.

Lemma persisted_cpu_count_is_reused_witness :
  configureCPUs Example.engine
    (Example.machine,
     set_fs (<["/var/vm/cpu"%string := scalar_file (IntVal 4)]> (fs Example.host))
            Example.host)
  = Some (tt,
          (set_CPUs 4 Example.machine,
           set_fs (<["/var/vm/cpu"%string := scalar_file (IntVal 4)]>
                     (fs Example.host)) Example.host)).
Proof.
  apply (persisted_cpu_count_is_reused Example.engine Example.machine).
  - discriminate.
  - reflexivity.
  - vm_compute. split; [discriminate | reflexivity].
  - discriminate.
  - vm_compute. split; discriminate.
  - vm_compute. reflexivity.
Defined.

(** X3.  A scalar that was never persisted reads as unset: in a data
    directory that exists, [loadStateData] of an absent file returns
    the nil error and changes neither the VM nor the host. *)
Theorem absent_scalar_loads_as_unset
    (name : string) (dst : field) (vm : VM) (w : World) :
  HostDataDir vm <> ""%string ->
  fs w !! Join [HostDataDir vm; name] = None ->
  fs w !! Dir (Join [HostDataDir vm; name]) = Some NDir ->
  loadStateData name dst (vm, w) = Some (None, (vm, w)).
Proof.
  intros Hd Hf Hdir. unfold loadStateData, bind.
  rewrite (dataFilePath_set _ _ _ Hd). unfold os_OpenFile. rewrite on_fs_eq.
  unfold OpenFile, parent_of.
  rewrite Hf, (parent_status_dir _ _ _ Hdir). cbn [fst snd has_flag].
  change (has_flag O_RDONLY O_CREATE) with false. cbn [fst snd is_ErrNotExist].
  by rewrite set_fs_same.
Qed.

Lemma absent_scalar_loads_as_unset_witness :
  loadStateData "mem" FMemory (Example.machine, Example.host)
  = Some (None, (Example.machine, Example.host)).
Proof.
  apply absent_scalar_loads_as_unset.
  - discriminate.
  - vm_compute. reflexivity.
  - vm_compute. reflexivity.
Defined.



(** X5.  On a running VM, with a context that never ends, [Stop]
    returns what the graceful request came to: nil when the engine
    accepted it; when the engine rejected it or reported an error, the
    stop is forced ([EvEngineStop] follows [EvRequestStop] in the
    trace) and the original rejection or error is what [Stop] returns. *)
Theorem stop_forces_after_rejected_request
    (E : Engine) (sched : schedule) (vm : VM) (h : VirtualMachine)
    (w : World) :
  vzvm vm = Some h ->
  let '(ok, err) := VirtualMachine_RequestStop E h in
  Stop E sched NeverDone (Some vm) w
  = if ok && is_nil err
    then (None, Some vm, set_trace (trace w ++ [EvRequestStop]) w)
    else (match err with
          | Some e => Some (Errorf "could not shutdown gracefully" e)
          | None => Some (ErrorString "invalid machine state for stopping")
          end,
          Some vm, set_trace (trace w ++ [EvRequestStop; EvEngineStop]) w).
Proof.
  intros Hh. unfold Stop, stop_task. rewrite Hh.
  destruct (VirtualMachine_RequestStop E h) as [ok err].
  by destruct ok, err.
Qed.

Lemma stop_forces_after_rejected_request_witness :
  Stop Example.stubborn_engine {| task_first := false; pick_done := true |}
       NeverDone (Some Example.running_machine) Example.host
  = (Some (Errorf "could not shutdown gracefully"
                  (EngineError "guest did not respond")),
     Some Example.running_machine,
     set_trace [EvRequestStop; EvEngineStop] Example.host).
Proof.
  exact (stop_forces_after_rejected_request Example.stubborn_engine
           {| task_first := false; pick_done := true |}
           Example.running_machine
           {| vm_configuration := Example.configuration |}
           Example.host eq_refl).
Defined.

(** ** Partial correctness: rules *)

Lemma pc_ret {A : Type} (a : A) (Q : A -> VM * World -> Prop) s :
  Q a s -> pc (ret a) Q s.
Proof. intros H a' s' [= <- <-]. exact H. Qed.

Lemma pc_bind {A B : Type} (c : M A) (k : A -> M B) Q s :
  pc c (fun a s' => pc (k a) Q s') s -> pc (bind c k) Q s.
Proof.
  intros H b s' Hrun. apply bind_inv in Hrun as (a & s1 & Hc & Hk).
  exact (H a s1 Hc b s' Hk).
Qed.

Lemma pc_mono {A : Type} (c : M A) (Q Q' : A -> VM * World -> Prop) s :
  pc c Q s -> (forall a s', Q a s' -> Q' a s') -> pc c Q' s.
Proof. intros H HQ a s' Hrun. apply HQ, H, Hrun. Qed.

Lemma pc_of_wp {A : Type} (c : M A) (Q : A -> VM * World -> Prop) s :
  wp c Q s -> pc c Q s.
Proof. unfold wp. intros H a s' Hrun. by rewrite Hrun in H. Qed.

Lemma pc_panic {A : Type} (Q : A -> VM * World -> Prop) s : pc panic Q s.
Proof. intros a s' H. discriminate H. Qed.

Lemma pc_get_vm Q s : Q (fst s) s -> pc get_vm Q s.
Proof. intros H. by apply pc_of_wp. Qed.

Lemma pc_get_world Q s : Q (snd s) s -> pc get_world Q s.
Proof. intros H. by apply pc_of_wp. Qed.

Lemma pc_modify_vm f Q s : Q tt (f (fst s), snd s) -> pc (modify_vm f) Q s.
Proof. intros H. by apply pc_of_wp. Qed.

Lemma pc_modify_world f Q s :
  Q tt (fst s, f (snd s)) -> pc (modify_world f) Q s.
Proof. intros H. by apply pc_of_wp. Qed.

Lemma wp_conj {A : Type} (c : M A) (Q1 Q2 : A -> VM * World -> Prop) s :
  wp c Q1 s -> wp c Q2 s -> wp c (fun a s' => Q1 a s' /\ Q2 a s') s.
Proof. unfold wp. destruct (c s) as [[a s'] |]; [done | done]. Qed.

Ltac pc_step :=
  lazymatch goal with
  | |- pc (bind _ _) _ _ => apply pc_bind
  | |- pc (ret _) _ _ => apply pc_ret
  | |- pc panic _ _ => apply pc_panic
  | |- pc get_vm _ _ => apply pc_get_vm
  | |- pc get_world _ _ => apply pc_get_world
  | |- pc (modify_vm _) _ _ => apply pc_modify_vm
  | |- pc (modify_world _) _ _ => apply pc_modify_world
  end.

Ltac pc_steps := repeat (pc_step; wsimpl).

(** ** What the file operations leave alone *)

Lemma dir_kept_refl vm : dir_kept vm vm.
Proof. exists (HostDataDir vm). split; [by destruct vm | done]. Qed.

Lemma dir_kept_trans vm1 vm2 vm3 :
  dir_kept vm1 vm2 -> dir_kept vm2 vm3 -> dir_kept vm1 vm3.
Proof.
  intros (d1 & -> & H1) (d2 & -> & H2). exists d2. split; [by destruct vm1 |].
  intros Hne. rewrite H2; destruct vm1; cbn in *; [by apply H1 |].
  by rewrite (H1 Hne).
Qed.

Lemma dir_kept_set vm d :
  HostDataDir vm = ""%string -> dir_kept vm (set_HostDataDir d vm).
Proof. intros H. exists d. split; [done | by rewrite H]. Qed.

Lemma dir_kept_dir_only vm vm' : dir_kept vm vm' -> dir_only vm vm'.
Proof. intros (d & -> & _). unfold dir_only. by destruct vm. Qed.

Lemma dir_kept_same vm vm' :
  dir_kept vm vm' -> HostDataDir vm <> ""%string -> vm' = vm.
Proof. intros (d & -> & H) Hne. rewrite (H Hne). by destruct vm. Qed.

Lemma dir_kept_nonempty vm vm' :
  dir_kept vm vm' -> HostDataDir vm <> ""%string ->
  HostDataDir vm' <> ""%string.
Proof. intros H Hne. by rewrite (dir_kept_same _ _ H Hne). Qed.

Lemma dir_blind_dir f vm : dir_blind f -> HostDataDir (f vm) = HostDataDir vm.
Proof.
  intros Hf. rewrite <- (set_HostDataDir_same vm) at 1. rewrite Hf.
  by destruct (f vm).
Qed.

Lemma dir_kept_update f vm vm' :
  dir_blind f -> dir_kept vm vm' -> dir_kept (f vm) (f vm').
Proof.
  intros Hf (d & -> & H). exists d. split; [apply Hf |].
  by rewrite (dir_blind_dir f vm Hf).
Qed.

Lemma dir_blind_compose f g : dir_blind f -> dir_blind g -> dir_blind (f ∘ g).
Proof. intros Hf Hg d vm. cbn. by rewrite Hg, Hf. Qed.

Lemma dir_blind_id : dir_blind (fun vm => vm).
Proof. done. Qed.

Lemma dir_blind_CPUs n : dir_blind (set_CPUs n).
Proof. by intros d []. Qed.
Lemma dir_blind_Memory n : dir_blind (set_Memory n).
Proof. by intros d []. Qed.
Lemma dir_blind_DiskSize n : dir_blind (set_DiskSize n).
Proof. by intros d []. Qed.
Lemma dir_blind_ID b : dir_blind (set_ID b).
Proof. by intros d []. Qed.
Lemma dir_blind_Logger l : dir_blind (set_Logger l).
Proof. by intros d []. Qed.
Lemma dir_blind_config c : dir_blind (set_config c).
Proof. by intros d []. Qed.
Lemma dir_blind_vzvm h : dir_blind (set_vzvm h).
Proof. by intros d []. Qed.
Lemma dir_blind_files b : dir_blind (set_files b).
Proof. by intros d []. Qed.
Lemma dir_blind_OS o : dir_blind (set_OS o).
Proof. by intros d []. Qed.
Lemma dir_blind_Arch a : dir_blind (set_Arch a).
Proof. by intros d []. Qed.
Lemma dir_blind_SharedDirectories l : dir_blind (set_SharedDirectories l).
Proof. by intros d []. Qed.
Lemma dir_blind_store dst v : dir_blind (store dst v).
Proof. intros d vm. destruct dst, v; by destruct vm. Qed.

Create HintDb frames.

#[local] Hint Resolve dir_blind_id dir_blind_CPUs dir_blind_Memory
  dir_blind_DiskSize dir_blind_ID dir_blind_Logger dir_blind_config
  dir_blind_vzvm dir_blind_files dir_blind_OS dir_blind_Arch
  dir_blind_SharedDirectories dir_blind_store dir_blind_compose : frames.

Lemma host_kept_refl w : host_kept w w.
Proof. done. Qed.

Lemma host_kept_trans w1 w2 w3 :
  host_kept w1 w2 -> host_kept w2 w3 -> host_kept w1 w3.
Proof. intros [? ?] [? ?]. split; congruence. Qed.

Lemma quiet_refl w : quiet w w.
Proof. done. Qed.

Lemma quiet_trans w1 w2 w3 : quiet w1 w2 -> quiet w2 w3 -> quiet w1 w3.
Proof.
  intros (H1 & ? & ?) (H2 & ? & ?).
  split; [by eapply host_kept_trans | split; congruence].
Qed.

Lemma quiet_set_fs w f : quiet w (set_fs f w).
Proof. done. Qed.

Lemma quiet_set_randoms w r : quiet w (set_randoms r w).
Proof. done. Qed.

Lemma host_kept_set_trace w t : host_kept w (set_trace t w).
Proof. done. Qed.

Lemma host_kept_set_stdin_tty w t : host_kept w (set_stdin_tty t w).
Proof. done. Qed.

#[local] Hint Resolve dir_kept_refl host_kept_refl quiet_refl quiet_set_fs
  quiet_set_randoms host_kept_set_trace host_kept_set_stdin_tty : frames.

(** A file operation changes the files only. *)
Lemma on_fs_frame op (Q : option error -> VM * World -> Prop) s :
  (forall w', quiet (snd s) w' ->
              fs w' = snd (op (fs (snd s))) ->
              Q (fst (op (fs (snd s)))) (fst s, w')) ->
  wp (on_fs op) Q s.
Proof. intros H. apply on_fs_wp. apply H; [apply quiet_set_fs | done]. Qed.

(** [MkdirTemp]: on success one new directory, absent before; on
    failure no change to the files. *)
Lemma MkdirTemp_try_frame tries pattern s :
  wp (MkdirTemp_try tries pattern)
     (fun r s' =>
        fst s' = fst s /\ quiet (snd s) (snd s') /\
        match r with
        | inl p => p <> ""%string /\ fs (snd s) !! p = None /\
                   fs (snd s') = <[p := NDir]> (fs (snd s))
        | inr _ => fs (snd s') = fs (snd s)
        end) s.
Proof.
  revert s. induction tries as [| tries IH]; intros s.
  - cbn [MkdirTemp_try]. wp_steps. apply nextRandom_wp. wsimpl.
    wp_steps. apply on_fs_wp. wsimpl. unfold Mkdir.
    match goal with
    | |- context [fs (snd s) !! ?n] =>
        destruct (fs (snd s) !! n) eqn:Hl;
        [| destruct (parent_of (fs (snd s)) n) as [e |]]
    end; wsimpl.
    + wp_steps. done.
    + destruct e; wp_steps; done.
    + wp_steps. split; [done |]. split; [done |]. split; [| done].
      apply append_nonempty_l, joinPath_nonempty.
  - cbn [MkdirTemp_try]. wp_steps. apply nextRandom_wp. wsimpl.
    wp_steps. apply on_fs_wp. wsimpl. unfold Mkdir.
    match goal with
    | |- context [fs (snd s) !! ?n] =>
        destruct (fs (snd s) !! n) eqn:Hl;
        [| destruct (parent_of (fs (snd s)) n) as [e |]]
    end; wsimpl.
    + eapply wp_mono; [apply IH |]. wsimpl. intros r s' (Hvm & Hq & Hr).
      split; [done |]. split; [exact Hq | exact Hr].
    + destruct e; wp_steps; try done.
      eapply wp_mono; [apply IH |]. wsimpl. intros r s' (Hvm & Hq & Hr).
      split; [done |]. split; [exact Hq | exact Hr].
    + wp_steps. split; [done |]. split; [done |]. split; [| done].
      apply append_nonempty_l, joinPath_nonempty.
Qed.

(** [dataFilePath] always returns; it sets the data directory when it
    is empty and changes nothing else in the VM; in the host it can only
    make the temporary directory; a path it returns lies in the data
    directory, which is then set. *)
Lemma dataFilePath_frame name s :
  wp (dataFilePath name)
     (fun r s' =>
        dir_kept (fst s) (fst s') /\ quiet (snd s) (snd s') /\
        (HostDataDir (fst s) <> ""%string -> s' = s) /\
        match r with
        | inl p => HostDataDir (fst s') <> ""%string /\
                   p = Join [HostDataDir (fst s'); name]
        | inr _ => fst s' = fst s
        end) s.
Proof.
  unfold dataFilePath. wp_steps. case_bool_decide as Hd.
  - wp_step. eapply wp_mono; [apply MkdirTemp_try_frame |].
    intros [p | e] s' (Hvm & Hq & Hr); wp_steps.
    + destruct Hr as (Hp & _). rewrite Hvm.
      split; [by apply dir_kept_set |]. split; [done |]. split; [done |].
      by destruct (fst s).
    + rewrite Hvm. split; [apply dir_kept_refl |]. done.
  - wp_steps. split; [apply dir_kept_refl |]. split; [done |].
    split; [by destruct s |]. done.
Qed.

Lemma saveStateData_frame name v s :
  wp (saveStateData name v)
     (fun _ s' => dir_kept (fst s) (fst s') /\ quiet (snd s) (snd s')) s.
Proof.
  unfold saveStateData. wp_step.
  eapply wp_mono; [apply dataFilePath_frame |].
  intros [path | e] s1 (Hvm & Hq & _ & _); [| wp_steps; done].
  assert (Hfin : forall err s2,
             fst s2 = fst s1 -> quiet (snd s1) (snd s2) ->
             wp (saveStateData_write path v err)
                (fun _ s' => dir_kept (fst s) (fst s') /\ quiet (snd s) (snd s')) s2).
  { intros err s2 Hv2 Hq2. unfold saveStateData_write. destruct err as [e |].
    - wp_steps. rewrite Hv2. split; [done |]. by eapply quiet_trans.
    - unfold os_Write. apply on_fs_wp. wsimpl. rewrite Hv2.
      split; [done |]. eapply quiet_trans; [exact Hq |].
      eapply quiet_trans; [exact Hq2 | apply quiet_set_fs]. }
  wp_step. unfold os_OpenFile at 1. apply on_fs_wp. wsimpl.
  destruct (OpenFile _ _ _) as [err fs1]. wsimpl.
  destruct (is_ErrNotExist err).
  - wp_step. unfold os_MkdirAll. apply on_fs_wp. wsimpl.
    destruct (MkdirAll _ _) as [[e |] fs2]; wsimpl.
    + wp_steps. split; [done |]. eapply quiet_trans; [exact Hq | done].
    + wp_step. unfold os_OpenFile. apply on_fs_wp. wsimpl.
      destruct (OpenFile _ _ _) as [err3 fs3]. wsimpl.
      apply Hfin; done.
  - apply Hfin; done.
Qed.

Lemma loadStateData_frame name dst s :
  wp (loadStateData name dst)
     (fun _ s' =>
        (dir_kept (fst s) (fst s') \/
         exists v, dir_kept (store dst v (fst s)) (fst s')) /\
        quiet (snd s) (snd s')) s.
Proof.
  unfold loadStateData. wp_step.
  eapply wp_mono; [apply dataFilePath_frame |].
  intros [path | e] s1 (Hvm & Hq & _ & _); [| wp_steps; auto].
  wp_step. unfold os_OpenFile. apply on_fs_wp. wsimpl.
  destruct (OpenFile _ _ _) as [err fs1]. wsimpl.
  assert (Hq1 : quiet (snd s) (set_fs fs1 (snd s1))).
  { eapply quiet_trans; [exact Hq | apply quiet_set_fs]. }
  destruct (is_ErrNotExist err); [wp_steps; auto |].
  destruct err as [e |]; [wp_steps; auto |].
  wp_step. unfold Fscanf_file. wp_steps.
  destruct (ReadFile _ _) as [bytes | e].
  - destruct (Fscanf_v _ _) as [v | e]; wp_steps.
    + destruct (is_ErrUnexpectedEOF None); wp_steps;
        (split; [right; exists v; by apply dir_kept_update; auto with frames
                | done]).
    + destruct (is_ErrUnexpectedEOF (Some e)); wp_steps; auto.
  - wp_steps. destruct (is_ErrUnexpectedEOF (Some e)); wp_steps; auto.
Qed.

Lemma set_CPUs_twice n m vm : set_CPUs n (set_CPUs m vm) = set_CPUs n vm.
Proof. by destruct vm. Qed.

Lemma set_Memory_twice n m vm : set_Memory n (set_Memory m vm) = set_Memory n vm.
Proof. by destruct vm. Qed.

Lemma set_CPUs_same vm : set_CPUs (CPUs vm) vm = vm.
Proof. by destruct vm. Qed.

Lemma set_Memory_same vm : set_Memory (Memory vm) vm = vm.
Proof. by destruct vm. Qed.

Section NegotiationFrames.

Variable E : Engine.

Lemma configureCPUs_clamp_frame minCPU maxCPU s :
  wp (configureCPUs_clamp minCPU maxCPU)
     (fun _ s' =>
        dir_kept (set_CPUs (clamp (CPUs (fst s)) minCPU maxCPU) (fst s)) (fst s')
        /\ quiet (snd s) (snd s')) s.
Proof.
  unfold configureCPUs_clamp. wp_steps.
  destruct (CPUs (fst s) =? clamp (CPUs (fst s)) minCPU maxCPU) eqn:Heq;
    cbn [negb].
  - wp_steps. apply Z.eqb_eq in Heq. rewrite <- Heq, set_CPUs_same. auto with frames.
  - wp_steps. eapply wp_mono; [apply saveStateData_frame |]. wsimpl.
    intros _ s' [Hvm Hq]. wp_steps. done.
Qed.

(** [configureCPUs] changes the CPU count and, at most, sets the data
    directory; terminal, trace and links are as they were. *)
Lemma configureCPUs_frame s :
  wp (configureCPUs E)
     (fun _ s' =>
        (exists n, dir_kept (set_CPUs n (fst s)) (fst s')) /\
        quiet (snd s) (snd s')) s.
Proof.
  unfold configureCPUs. wp_steps. destruct (CPUs (fst s) =? 0).
  - wp_step. eapply wp_mono; [apply loadStateData_frame |].
    intros _ s1 [Hvm Hq].
    assert (Hvm1 : exists n, dir_kept (set_CPUs n (fst s)) (fst s1)).
    { destruct Hvm as [Hvm | [v Hvm]].
      - exists (CPUs (fst s)). by rewrite set_CPUs_same.
      - destruct v as [n | b]; cbn [store] in Hvm; [by exists n |].
        exists (CPUs (fst s)). by rewrite set_CPUs_same. }
    destruct Hvm1 as [n Hvm1]. wp_steps. destruct (CPUs (fst s1) =? 0).
    + wp_steps. eapply wp_mono; [apply saveStateData_frame |]. wsimpl.
      intros _ s' [Hvm' Hq']. wp_steps. split; [| by eapply quiet_trans].
      eexists. eapply dir_kept_trans; [| exact Hvm'].
      rewrite <- (set_CPUs_twice _ n).
      by apply dir_kept_update; auto with frames.
    + eapply wp_mono; [apply configureCPUs_clamp_frame |]. wsimpl.
      intros _ s' [Hvm' Hq']. split; [| by eapply quiet_trans].
      eexists. eapply dir_kept_trans; [| exact Hvm'].
      rewrite <- (set_CPUs_twice _ n).
      by apply dir_kept_update; auto with frames.
  - eapply wp_mono; [apply configureCPUs_clamp_frame |]. wsimpl.
    intros _ s' [Hvm' Hq']. eauto.
Qed.

Lemma configureMemory_clamp_frame minMemory maxMemory s :
  wp (configureMemory_clamp minMemory maxMemory)
     (fun _ s' =>
        dir_kept (set_Memory (clamp (Memory (fst s)) minMemory maxMemory) (fst s))
                 (fst s')
        /\ quiet (snd s) (snd s')) s.
Proof.
  unfold configureMemory_clamp. wp_steps.
  destruct (Memory (fst s) =? clamp (Memory (fst s)) minMemory maxMemory) eqn:Heq;
    cbn [negb].
  - wp_steps. apply Z.eqb_eq in Heq. rewrite <- Heq, set_Memory_same. auto with frames.
  - wp_steps. eapply wp_mono; [apply saveStateData_frame |]. wsimpl.
    intros _ s' [Hvm Hq]. wp_steps. done.
Qed.

Lemma configureMemory_frame s :
  wp (configureMemory E)
     (fun _ s' =>
        (exists n, dir_kept (set_Memory n (fst s)) (fst s')) /\
        quiet (snd s) (snd s')) s.
Proof.
  unfold configureMemory. wp_steps. destruct (Memory (fst s) =? 0).
  - wp_step. eapply wp_mono; [apply loadStateData_frame |].
    intros _ s1 [Hvm Hq].
    assert (Hvm1 : exists n, dir_kept (set_Memory n (fst s)) (fst s1)).
    { destruct Hvm as [Hvm | [v Hvm]].
      - exists (Memory (fst s)). by rewrite set_Memory_same.
      - destruct v as [n | b]; cbn [store] in Hvm; [by exists n |].
        exists (Memory (fst s)). by rewrite set_Memory_same. }
    destruct Hvm1 as [n Hvm1]. wp_steps. destruct (Memory (fst s1) =? 0).
    + wp_steps. eapply wp_mono; [apply saveStateData_frame |]. wsimpl.
      intros _ s' [Hvm' Hq']. wp_steps. split; [| by eapply quiet_trans].
      eexists. eapply dir_kept_trans; [| exact Hvm'].
      rewrite <- (set_Memory_twice _ n).
      by apply dir_kept_update; auto with frames.
    + eapply wp_mono; [apply configureMemory_clamp_frame |]. wsimpl.
      intros _ s' [Hvm' Hq']. split; [| by eapply quiet_trans].
      eexists. eapply dir_kept_trans; [| exact Hvm'].
      rewrite <- (set_Memory_twice _ n).
      by apply dir_kept_update; auto with frames.
  - eapply wp_mono; [apply configureMemory_clamp_frame |]. wsimpl.
    intros _ s' [Hvm' Hq']. eauto.
Qed.

End NegotiationFrames.

(** ** The steps of [Start], one by one *)

Lemma log_wp level msg l (Q : unit -> VM * World -> Prop) s :
  Logger (fst s) = Some l ->
  Q tt (fst s, set_trace (trace (snd s) ++ [EvLog l level msg]) (snd s)) ->
  wp (log level msg) Q s.
Proof.
  intros Hl HQ. unfold wp. destruct s as [vm w].
  by rewrite (log_eq _ _ _ _ _ Hl).
Qed.

Lemma with_config_wp f c (Q : unit -> VM * World -> Prop) s :
  config (fst s) = Some c ->
  Q tt (set_config (Some (f c)) (fst s), snd s) ->
  wp (with_config f) Q s.
Proof.
  intros Hc HQ. unfold wp. destruct s as [vm w].
  by rewrite (with_config_eq _ _ _ _ Hc).
Qed.

Lemma calm_refl w : calm w w.
Proof. split; [apply host_kept_refl | done]. Qed.

Lemma calm_trans w1 w2 w3 : calm w1 w2 -> calm w2 w3 -> calm w1 w3.
Proof.
  intros [H1 T1] [H2 T2]. split; [by eapply host_kept_trans | congruence].
Qed.

Lemma quiet_calm w w' : quiet w w' -> calm w w'.
Proof. intros (H & T & _). by split. Qed.

Lemma calm_set_trace w t : calm w (set_trace t w).
Proof. by destruct w. Qed.

Lemma calm_set_fs w f : calm w (set_fs f w).
Proof. by destruct w. Qed.

Lemma calm_set_randoms w r : calm w (set_randoms r w).
Proof. by destruct w. Qed.

#[local] Hint Resolve calm_refl quiet_calm calm_set_trace calm_set_fs
  calm_set_randoms : frames.

Lemma dir_kept_step g a b c :
  dir_blind g -> dir_kept a b -> dir_kept (g b) c -> dir_kept (g a) c.
Proof.
  intros Hg Hab Hbc. eapply dir_kept_trans; [| exact Hbc].
  by apply dir_kept_update.
Qed.

Lemma dir_kept_Logger a b : dir_kept a b -> Logger b = Logger a.
Proof. intros (d & -> & _). by destruct a. Qed.

Lemma dir_kept_config a b : dir_kept a b -> config b = config a.
Proof. intros (d & -> & _). by destruct a. Qed.

Lemma dir_kept_Install a b : dir_kept a b -> Install b = Install a.
Proof. intros (d & -> & _). by destruct a. Qed.

Lemma dir_kept_files a b : dir_kept a b -> files b = files a.
Proof. intros (d & -> & _). by destruct a. Qed.

Lemma dir_kept_vzvm a b : dir_kept a b -> vzvm b = vzvm a.
Proof. intros (d & -> & _). by destruct a. Qed.

Lemma dir_kept_ID a b : dir_kept a b -> ID b = ID a.
Proof. intros (d & -> & _). by destruct a. Qed.

Lemma dir_kept_CPUs a b : dir_kept a b -> CPUs b = CPUs a.
Proof. intros (d & -> & _). by destruct a. Qed.

Lemma dir_kept_Memory a b : dir_kept a b -> Memory b = Memory a.
Proof. intros (d & -> & _). by destruct a. Qed.

Lemma dir_kept_SharedDirectories a b :
  dir_kept a b -> SharedDirectories b = SharedDirectories a.
Proof. intros (d & -> & _). by destruct a. Qed.

Lemma dir_kept_HostDataDir a b :
  dir_kept a b -> HostDataDir a <> ""%string -> HostDataDir b = HostDataDir a.
Proof. intros (d & -> & Hd) Ha. rewrite <- (Hd Ha). by destruct a. Qed.

Section Steps.

Variable E : Engine.
Variable I : Installer.

(** *** initLogger *)

Lemma initLogger_fail_frame e s :
  wp (initLogger_fail e)
     (fun _ s' => fst s' = set_Logger (Some DefaultLogger) (fst s) /\
                  calm (snd s) (snd s')) s.
Proof.
  unfold initLogger_fail. wp_steps.
  apply (log_wp _ _ DefaultLogger); [by destruct (fst s) |].
  wsimpl. split; [done | apply calm_set_trace].
Qed.

Lemma initLogger_opened_frame path err s :
  wp (initLogger_opened path err)
     (fun _ s' => (exists l, fst s' = set_Logger (Some l) (fst s)) /\
                  calm (snd s) (snd s')) s.
Proof.
  unfold initLogger_opened. destruct err as [e |].
  - eapply wp_mono; [apply initLogger_fail_frame |].
    intros _ s' [Hvm Hc]. eauto.
  - wp_steps. split; [eauto | apply calm_refl].
Qed.

(** [initLogger] always returns and sets a logger; besides, it can
    only set the data directory. *)
Lemma initLogger_frame s :
  wp initLogger
     (fun _ s' => (exists l, dir_kept (set_Logger (Some l) (fst s)) (fst s')) /\
                  calm (snd s) (snd s')) s.
Proof.
  unfold initLogger. wp_step.
  eapply wp_mono; [apply dataFilePath_frame |].
  intros [path | e] s1 (Hvm & Hq & _ & _).
  - assert (Hfin : forall err s2,
               fst s2 = fst s1 -> calm (snd s1) (snd s2) ->
               wp (initLogger_opened path err)
                  (fun _ s' =>
                     (exists l, dir_kept (set_Logger (Some l) (fst s)) (fst s')) /\
                     calm (snd s) (snd s')) s2).
    { intros err s2 Hv2 Hc2.
      eapply wp_mono; [apply initLogger_opened_frame |].
      intros _ s' [[l Hl] Hc]. split.
      - exists l. rewrite Hl, Hv2. apply dir_kept_update; auto with frames.
      - eapply calm_trans; [apply quiet_calm, Hq |].
        by eapply calm_trans. }
    wp_step. unfold os_OpenFile at 1. apply on_fs_wp. wsimpl.
    destruct (OpenFile _ _ _) as [err fs1]. wsimpl.
    destruct (is_ErrNotExist err).
    + wp_step. unfold os_MkdirAll. apply on_fs_wp. wsimpl.
      destruct (MkdirAll _ _) as [[e |] fs2]; wsimpl.
      * eapply wp_mono; [apply initLogger_fail_frame |]. wsimpl.
        intros _ s' [Hl Hc]. split.
        -- exists DefaultLogger. rewrite Hl.
           apply dir_kept_update; auto with frames.
        -- eapply calm_trans; [apply quiet_calm, Hq |].
           eapply calm_trans; [| exact Hc]. by destruct (snd s1).
      * wp_step. unfold os_OpenFile. apply on_fs_wp. wsimpl.
        destruct (OpenFile _ _ _) as [err3 fs3]. wsimpl.
        apply Hfin; [done | by destruct (snd s1)].
    + apply Hfin; [done | apply calm_set_fs].
  - eapply wp_mono; [apply initLogger_fail_frame |].
    intros _ s' [Hl Hc]. split.
    + exists DefaultLogger. rewrite Hl. apply dir_kept_update; auto with frames.
    + eapply calm_trans; [apply quiet_calm, Hq | exact Hc].
Qed.

(** *** linuxBootLoader *)

Lemma linuxBootLoader_frame l s :
  Install (fst s) = false ->
  Logger (fst s) = Some l ->
  let b := files (fst s) in
  wp (linuxBootLoader E I)
     (fun r s' =>
        fst s' = fst s /\ calm (snd s) (snd s') /\
        match r with
        | inl loader =>
            exists init,
              symlinks (snd s) !! d_init b = Some init /\
              loader = LinuxBootLoader (d_kernel b) (d_initrd b) (boot_params init)
        | inr e =>
            (symlinks (snd s) !! d_init b = None /\ s' = s /\
             exists e0,
               e = Errorf "determine path to kernel init file inside vm" e0) \/
            (exists init,
                symlinks (snd s) !! d_init b = Some init /\
                NewLinuxBootLoader E (d_kernel b) (d_initrd b) (boot_params init)
                = Some e)
        end) s.
Proof.
  intros Hi Hl b. unfold linuxBootLoader. wp_steps. rewrite Hi. wp_steps.
  fold b. unfold Readlink.
  destruct (symlinks (snd s) !! d_init b) as [init |] eqn:Hlink.
  - wp_step. apply (log_wp _ _ l); [done |]. wsimpl. fold (boot_params init).
    destruct (NewLinuxBootLoader E _ _ _) as [e |] eqn:Hnew; wp_steps.
    + split; [done |]. split; [apply calm_set_trace |]. right. eauto.
    + split; [done |]. split; [apply calm_set_trace |]. eauto.
  - destruct (fs (snd s) !! d_init b); wp_steps;
      (split; [done |]; split; [apply calm_refl |]; left;
       split; [done |]; split; [by destruct s |]; eauto).
Qed.

(** *** attachConsole *)

Lemma attachConsole_frame l c s :
  Logger (fst s) = Some l ->
  config (fst s) = Some c ->
  wp (attachConsole E)
     (fun r s' =>
        host_kept (snd s) (snd s') /\
        match stdin_tty (snd s) with
        | None =>
            s' = s /\
            r = Some (Errorf "put stdin in raw mode: get terminal attributes"
                             ENOTTY)
        | Some term =>
            stdin_tty (snd s') = Some (raw_mode term) /\
            match r with
            | None =>
                fst s' = set_config (Some (set_c_serial [StdioConsole] c)) (fst s)
            | Some _ => fst s' = fst s
            end
        end) s.
Proof.
  intros Hl Hc. unfold attachConsole. wp_steps.
  destruct (stdin_tty (snd s)) as [term |] eqn:Htty.
  - wp_steps.
    destruct (NewFileHandleSerialPortAttachment E) as [e |]; [wp_steps |].
    { split; [by destruct (snd s) |]. done. }
    destruct (NewVirtioConsoleDeviceSerialPortConfiguration E) as [e |];
      [wp_steps |].
    { split; [by destruct (snd s) |]. done. }
    wp_step. apply (with_config_wp _ c); [done |]. wsimpl.
    wp_step. apply (log_wp _ _ l); [cbn [fst]; by rewrite Logger_set_config |]. wsimpl.
    wp_steps. split; [by destruct (snd s) |]. done.
  - wp_steps. split; [apply host_kept_refl |].
    split; [by destruct s | done].
Qed.

(** *** rootDisk, attachDisks *)

Lemma rootDisk_attach_frame path s :
  wp (rootDisk_attach E path)
     (fun r s' => s' = s /\
                  match r with
                  | inl d => d = DiskImage path false
                  | inr _ => True
                  end) s.
Proof.
  unfold rootDisk_attach. wp_steps.
  destruct (NewDiskImageStorageDeviceAttachment E _ _ _); [wp_steps |];
    [by destruct s |].
  destruct (NewVirtioBlockDeviceConfiguration E _); wp_steps; by destruct s.
Qed.

Lemma rootDisk_created_frame path created s :
  wp (rootDisk_created E path created)
     (fun r s' => (exists n, fst s' = set_DiskSize n (fst s)) /\
                  quiet (snd s) (snd s') /\
                  match r with
                  | inl d => d = DiskImage path false
                  | inr _ => True
                  end) s.
Proof.
  unfold rootDisk_created. destruct created.
  - wp_step. wp_step. wsimpl. wp_step.
    assert (Hrest : forall s1, (exists n, fst s1 = set_DiskSize n (fst s)) ->
               snd s1 = snd s ->
               wp (vm <- get_vm ;;
                   err <- os_Truncate path (DiskSize vm) ;;
                   match err with
                   | Some e =>
                       ret (inr (Errorf "truncate new root disk image" e))
                   | None => rootDisk_attach E path
                   end)
                  (fun r s' => (exists n, fst s' = set_DiskSize n (fst s)) /\
                               quiet (snd s) (snd s') /\
                               match r with
                               | inl d => d = DiskImage path false
                               | inr _ => True
                               end) s1).
    { intros s1 Hn Hw. wp_steps. unfold os_Truncate. apply on_fs_wp. wsimpl.
      destruct (Truncate _ _ _) as [[e |] fs1]; wsimpl.
      - wp_steps. split; [done |]. split; [| done].
        rewrite Hw. apply quiet_set_fs.
      - eapply wp_mono; [apply rootDisk_attach_frame |].
        intros r s' [-> Hr]. wsimpl. split; [done |]. split; [| done].
        rewrite Hw. apply quiet_set_fs. }
    destruct (DiskSize (fst s) =? 0); wp_step; apply Hrest; wsimpl;
      try done.
    + eauto.
    + exists (DiskSize (fst s)). by rewrite set_DiskSize_same.
  - eapply wp_mono; [apply rootDisk_attach_frame |].
    intros r s' [-> Hr]. split; [| split; [apply quiet_refl | done]].
    exists (DiskSize (fst s)). by rewrite set_DiskSize_same.
Qed.

Lemma rootDisk_opened_frame path err s :
  wp (rootDisk_opened E path err)
     (fun r s' => (exists n, fst s' = set_DiskSize n (fst s)) /\
                  quiet (snd s) (snd s') /\
                  match r with
                  | inl d => d = DiskImage path false
                  | inr _ => True
                  end) s.
Proof.
  unfold rootDisk_opened. destruct err as [e |].
  - destruct (negb (is_ErrExist (Some e))).
    + wp_steps. split; [| split; [apply quiet_refl | done]].
      exists (DiskSize (fst s)). by rewrite set_DiskSize_same.
    + apply rootDisk_created_frame.
  - apply rootDisk_created_frame.
Qed.

(** [rootDisk] always returns; in the VM it can only set the data
    directory and the disk size; the device it returns is the image
    disk.img of the data directory, attached read-write. *)
Lemma rootDisk_frame s :
  wp (rootDisk E)
     (fun r s' =>
        (exists n, dir_kept (set_DiskSize n (fst s)) (fst s')) /\
        quiet (snd s) (snd s') /\
        match r with
        | inl d =>
            HostDataDir (fst s') <> ""%string /\
            d = DiskImage (Join [HostDataDir (fst s'); "disk.img"%string]) false
        | inr _ => True
        end) s.
Proof.
  unfold rootDisk. wp_step.
  eapply wp_mono; [apply dataFilePath_frame |].
  intros [path | e] s1 (Hvm & Hq & _ & Hp).
  - destruct Hp as [Hd ->].
    set (path := Join [HostDataDir (fst s1); "disk.img"%string]).
    assert (Hfin : forall err s2,
               fst s2 = fst s1 -> quiet (snd s1) (snd s2) ->
               wp (rootDisk_opened E path err)
                  (fun r s' =>
                     (exists n, dir_kept (set_DiskSize n (fst s)) (fst s')) /\
                     quiet (snd s) (snd s') /\
                     match r with
                     | inl d =>
                         HostDataDir (fst s') <> ""%string /\
                         d = DiskImage
                               (Join [HostDataDir (fst s'); "disk.img"%string])
                               false
                     | inr _ => True
                     end) s2).
    { intros err s2 Hv2 Hq2.
      eapply wp_mono; [apply rootDisk_opened_frame |].
      intros r s' ([n Hn] & Hq' & Hr). rewrite Hv2 in Hn. split.
      - exists n. rewrite Hn. apply dir_kept_update; auto with frames.
      - split.
        + eapply quiet_trans; [exact Hq |]. by eapply quiet_trans.
        + destruct r as [d |]; [| done]. rewrite Hn.
          split; [by destruct (fst s1) |]. rewrite Hr. subst path.
          by destruct (fst s1). }
    wp_step. unfold os_OpenFile at 1. apply on_fs_wp. wsimpl.
    destruct (OpenFile _ _ _) as [err fs1]. wsimpl.
    destruct (is_ErrNotExist err).
    + wp_step. unfold os_MkdirAll. apply on_fs_wp. wsimpl.
      destruct (MkdirAll _ _) as [[e |] fs2]; wsimpl.
      * wp_steps. split; [| split; [| done]].
        -- exists (DiskSize (fst s)). by rewrite set_DiskSize_same.
        -- eapply quiet_trans; [exact Hq | by destruct (snd s1)].
      * wp_step. unfold os_OpenFile. apply on_fs_wp. wsimpl.
        destruct (OpenFile _ _ _) as [err3 fs3]. wsimpl.
        apply Hfin; [done | by destruct (snd s1)].
    + apply Hfin; [done | apply quiet_set_fs].
  - wp_steps. split; [| split; [done | done]].
    exists (DiskSize (fst s)). by rewrite set_DiskSize_same.
Qed.

Lemma attachDisks_frame l c s :
  Install (fst s) = false ->
  Logger (fst s) = Some l ->
  config (fst s) = Some c ->
  wp (attachDisks E I)
     (fun r s' =>
        calm (snd s) (snd s') /\
        exists n,
          match r with
          | None =>
              HostDataDir (fst s') <> ""%string /\
              dir_kept
                (set_config
                   (Some (set_c_storage
                            [DiskImage (Join [HostDataDir (fst s');
                                              "disk.img"%string]) false] c))
                   (set_DiskSize n (fst s)))
                (fst s')
          | Some _ => dir_kept (set_DiskSize n (fst s)) (fst s')
          end) s.
Proof.
  intros Hi Hl Hc. unfold attachDisks. wp_step.
  eapply wp_mono; [apply rootDisk_frame |].
  intros [d | e] s1 ([n Hn] & Hq & Hr).
  - destruct Hr as [Hd ->]. wp_steps.
    rewrite (dir_kept_Install _ _ Hn).
    replace (Install (set_DiskSize n (fst s))) with false
      by (by destruct (fst s)).
    wp_step. apply (with_config_wp _ c).
    { rewrite (dir_kept_config _ _ Hn). by destruct (fst s). }
    wsimpl. wp_step. apply (log_wp _ _ l).
    { cbn [fst]. rewrite Logger_set_config, (dir_kept_Logger _ _ Hn).
      by destruct (fst s). }
    wsimpl. wp_steps. split.
    + eapply calm_trans; [apply quiet_calm, Hq | apply calm_set_trace].
    + exists n.
      replace (HostDataDir (set_config
                 (Some (set_c_storage
                          [DiskImage (Join [HostDataDir (fst s1);
                                            "disk.img"%string]) false] c))
                 (fst s1))) with (HostDataDir (fst s1))
        by (by destruct (fst s1)).
      split; [done |]. apply dir_kept_update; auto with frames.
  - wp_steps. split; [by apply quiet_calm | eauto].
Qed.

(** *** attachNetwork, attachEntropy *)

Lemma attachNetwork_frame l c s :
  Logger (fst s) = Some l ->
  config (fst s) = Some c ->
  wp (attachNetwork E)
     (fun r s' =>
        calm (snd s) (snd s') /\
        match r with
        | None =>
            exists mac,
              fst s' = set_config (Some (set_c_network [NATDevice mac] c)) (fst s)
        | Some _ => fst s' = fst s
        end) s.
Proof.
  intros Hl Hc. unfold attachNetwork.
  destruct (NewNATNetworkDeviceAttachment E); [wp_steps |];
    [split; [apply calm_refl | done] |].
  destruct (NewVirtioNetworkDeviceConfiguration E); [wp_steps |];
    [split; [apply calm_refl | done] |].
  wp_step. apply nextRandom_wp. wsimpl.
  destruct (NewRandomLocallyAdministeredMACAddress E _) as [mac | e].
  - wp_step. apply (with_config_wp _ c); [done |]. wsimpl.
    wp_step. apply (log_wp _ _ l); [cbn [fst]; by rewrite Logger_set_config |]. wsimpl.
    wp_steps. split; [by destruct (snd s) | eauto].
  - wp_steps. split; [apply calm_set_randoms | done].
Qed.

Lemma attachEntropy_frame l c s :
  Logger (fst s) = Some l ->
  config (fst s) = Some c ->
  wp (attachEntropy E)
     (fun r s' =>
        calm (snd s) (snd s') /\
        match r with
        | None =>
            fst s' = set_config (Some (set_c_entropy [VirtioEntropy] c)) (fst s)
        | Some _ => fst s' = fst s
        end) s.
Proof.
  intros Hl Hc. unfold attachEntropy.
  destruct (NewVirtioEntropyDeviceConfiguration E); [wp_steps |];
    [split; [apply calm_refl | done] |].
  wp_step. apply (with_config_wp _ c); [done |]. wsimpl.
  wp_step. apply (log_wp _ _ l); [cbn [fst]; by rewrite Logger_set_config |]. wsimpl.
  wp_steps. split; [apply calm_set_trace | done].
Qed.

(** *** attachSharedDirs *)

Lemma configureDirShare_frame l path ro s :
  Logger (fst s) = Some l ->
  wp (configureDirShare E path ro)
     (fun r s' =>
        fst s' = fst s /\ calm (snd s) (snd s') /\
        match r with
        | inl d => d = {| share_tag := Base path; share_path := path;
                          share_readOnly := ro |}
        | inr _ => True
        end) s.
Proof.
  intros Hl. unfold configureDirShare.
  destruct (NewSharedDirectory E path ro); [wp_steps |];
    [split; [done | split; [apply calm_refl | done]] |].
  destruct (NewSingleDirectoryShare E path); [wp_steps |];
    [split; [done | split; [apply calm_refl | done]] |].
  destruct (NewVirtioFileSystemDeviceConfiguration E (Base path)); [wp_steps |];
    [split; [done | split; [apply calm_refl | done]] |].
  wp_step. apply (log_wp _ _ l); [done |]. wsimpl. wp_steps.
  split; [done | split; [apply calm_set_trace | done]].
Qed.

Lemma attachSharedDirs_loop_frame l dirs : forall configs s,
  Logger (fst s) = Some l ->
  wp (attachSharedDirs_loop E dirs configs)
     (fun r s' =>
        fst s' = fst s /\ calm (snd s) (snd s') /\
        match r with
        | inl cs => cs = configs ++ map dirshare dirs
        | inr _ => True
        end) s.
Proof.
  induction dirs as [| d dirs IH]; intros configs s Hl;
    cbn [attachSharedDirs_loop map].
  - wp_steps. split; [done | split; [apply calm_refl |]].
    by rewrite app_nil_r.
  - wp_step. eapply wp_mono; [by apply (configureDirShare_frame l) |].
    intros [cfg | e] s1 (Hvm & Hc & Hr).
    + eapply wp_mono; [apply IH; by rewrite Hvm |].
      intros r s' (Hvm' & Hc' & Hr'). split; [congruence |].
      split; [by eapply calm_trans |].
      destruct r as [cs |]; [| done]. rewrite Hr', Hr, <- app_assoc. done.
    + wp_steps. split; [done | split; [done | done]].
Qed.

Lemma attachSharedDirs_configs_frame l c s :
  Logger (fst s) = Some l ->
  config (fst s) = Some c ->
  wp (attachSharedDirs_configs E)
     (fun r s' =>
        calm (snd s) (snd s') /\
        match r with
        | None =>
            fst s' = set_config
                       (Some (set_c_shares
                                (map dirshare (SharedDirectories (fst s))) c))
                       (fst s)
        | Some _ => fst s' = fst s
        end) s.
Proof.
  intros Hl Hc. unfold attachSharedDirs_configs. wp_steps.
  eapply wp_mono; [by apply (attachSharedDirs_loop_frame l) |].
  intros [cs | e] s1 (Hvm & Hcalm & Hr).
  - subst cs. cbn [app]. wp_step.
    apply (with_config_wp _ c); [by rewrite Hvm |]. wsimpl.
    wp_step. apply (log_wp _ _ l).
    { cbn [fst]. by rewrite Logger_set_config, Hvm. }
    wsimpl. wp_steps. split.
    + eapply calm_trans; [exact Hcalm | apply calm_set_trace].
    + by rewrite Hvm.
  - wp_steps. done.
Qed.

(** Outside install mode [attachSharedDirs] builds one device for each
    of the caller's directories, in their order, or leaves the
    configuration alone. *)
Lemma attachSharedDirs_frame l c s :
  Install (fst s) = false ->
  Logger (fst s) = Some l ->
  config (fst s) = Some c ->
  wp (attachSharedDirs E I)
     (fun r s' =>
        calm (snd s) (snd s') /\
        match r with
        | None =>
            fst s' = set_config
                       (Some (set_c_shares
                                (map dirshare (SharedDirectories (fst s))) c))
                       (fst s)
        | Some _ => fst s' = fst s
        end) s.
Proof.
  intros Hi Hl Hc. unfold attachSharedDirs. wp_steps. rewrite Hi.
  by apply (attachSharedDirs_configs_frame l).
Qed.

(** *** configureLinuxPlatform *)

Lemma set_ID_twice a b vm : set_ID a (set_ID b vm) = set_ID a vm.
Proof. by destruct vm. Qed.

Lemma set_ID_same vm : set_ID (ID vm) vm = vm.
Proof. by destruct vm. Qed.

Lemma configureLinuxPlatform_platform_frame l c id s :
  Logger (fst s) = Some l ->
  config (fst s) = Some c ->
  wp (configureLinuxPlatform_platform E id)
     (fun r s' =>
        snd s' = snd s /\
        match r with
        | None =>
            fst s' = set_config (Some (set_c_platform (Some id) c)) (fst s)
        | Some _ => fst s' = fst s
        end) s.
Proof.
  intros Hl Hc. unfold configureLinuxPlatform_platform.
  destruct (NewGenericPlatformConfiguration E id); [wp_steps; done |].
  wp_step. apply (with_config_wp _ c); [done |]. wsimpl. wp_steps. done.
Qed.

(** [configureLinuxPlatform] can set the identifier (and the data
    directory); when it succeeds, the platform of the configuration
    carries the identifier the VM then has. *)
Lemma configureLinuxPlatform_frame l c s :
  Logger (fst s) = Some l ->
  config (fst s) = Some c ->
  wp (configureLinuxPlatform E)
     (fun r s' =>
        calm (snd s) (snd s') /\
        exists id,
          match r with
          | None =>
              dir_kept (set_config (Some (set_c_platform (Some id) c))
                                   (set_ID id (fst s))) (fst s')
          | Some _ => dir_kept (set_ID id (fst s)) (fst s')
          end) s.
Proof.
  intros Hl Hc. unfold configureLinuxPlatform. wp_step.
  eapply wp_mono; [apply loadStateData_frame |].
  intros err s1 [Hvm Hq].
  assert (Hvm1 : dir_kept (set_ID (ID (fst s1)) (fst s)) (fst s1)).
  { destruct Hvm as [Hvm | [v Hvm]].
    - destruct Hvm as (d & Hvm & Hd). rewrite Hvm at 2. exists d.
      split; [| by destruct (fst s)]. rewrite Hvm. by destruct (fst s).
    - destruct Hvm as (d & Hvm & Hd). rewrite Hvm at 2. exists d.
      split; [| by destruct v, (fst s)]. rewrite Hvm. by destruct v, (fst s). }
  clear Hvm.
  assert (Hl1 : Logger (fst s1) = Some l).
  { rewrite (dir_kept_Logger _ _ Hvm1). by destruct (fst s). }
  assert (Hc1 : config (fst s1) = Some c).
  { rewrite (dir_kept_config _ _ Hvm1). by destruct (fst s). }
  destruct err as [e |]; [wp_steps; split; [by apply quiet_calm | eauto] |].
  wp_steps. destruct (length (ID (fst s1)) =? 0)%nat.
  - wp_step. apply nextRandom_wp. wsimpl.
    destruct (NewGenericMachineIdentifier E _) as [id | e].
    + wp_steps. eapply wp_mono; [apply saveStateData_frame |]. wsimpl.
      intros err s2 [Hvm2 Hq2].
      assert (Hvm2' : dir_kept (set_ID id (fst s)) (fst s2)).
      { rewrite <- (set_ID_twice id (ID (fst s1))).
        eapply dir_kept_step; [| exact Hvm1 | exact Hvm2]; auto with frames. }
      assert (Hcalm : calm (snd s) (snd s2)).
      { eapply calm_trans; [apply quiet_calm, Hq |].
        eapply calm_trans; [| apply quiet_calm, Hq2]. apply calm_set_randoms. }
      destruct err as [e |]; [wp_steps; split; [done | eauto] |].
      wp_step. apply (log_wp _ _ l).
      { rewrite (dir_kept_Logger _ _ Hvm2'). by destruct (fst s). }
      wsimpl.
      eapply wp_mono.
      { apply (configureLinuxPlatform_platform_frame l c); cbn [fst].
        - rewrite (dir_kept_Logger _ _ Hvm2'). by destruct (fst s).
        - rewrite (dir_kept_config _ _ Hvm2'). by destruct (fst s). }
      wsimpl. intros r s' [Hw Hr]. split.
      * rewrite Hw. eapply calm_trans; [exact Hcalm | apply calm_set_trace].
      * exists id. destruct r as [e |]; rewrite Hr; [done |].
        apply dir_kept_update; auto with frames.
    + wp_steps. split.
      * eapply calm_trans; [apply quiet_calm, Hq | apply calm_set_randoms].
      * eauto.
  - destruct (NewGenericMachineIdentifierWithData E _) as [e |].
    + wp_steps. split; [by apply quiet_calm | eauto].
    + wp_step. apply (log_wp _ _ l); [done |]. wsimpl.
      eapply wp_mono.
      { by apply (configureLinuxPlatform_platform_frame l c). }
      wsimpl. intros r s' [Hw Hr]. split.
      * rewrite Hw. eapply calm_trans; [apply quiet_calm, Hq |].
        apply calm_set_trace.
      * exists (ID (fst s1)). destruct r as [e |]; rewrite Hr; [done |].
        apply dir_kept_update; auto with frames.
Qed.

(** *** The end of [Start]: validation and the engine's own start *)

Lemma Start_validate_frame l c s :
  Logger (fst s) = Some l ->
  config (fst s) = Some c ->
  wp (Start_validate E)
     (fun r s' =>
        calm (snd s) (snd s') /\
        ((r <> None /\ fst s' = fst s) \/
         (exists e, NewVirtualMachine E c = Some e /\
                    r = Some (Errorf "create virtual machine" e) /\
                    fst s' = set_vzvm None (fst s)) \/
         (Validate E c = (true, None) /\ NewVirtualMachine E c = None /\
          r = VirtualMachine_Start E {| vm_configuration := c |} /\
          fst s' = set_vzvm (Some {| vm_configuration := c |}) (fst s)))) s.
Proof.
  intros Hl Hc. unfold Start_validate. wp_steps. rewrite Hc.
  destruct (Validate E c) as [valid [e |]] eqn:Hv.
  - wp_steps. split; [apply calm_refl |]. left. done.
  - destruct valid; cbn [negb].
    + destruct (NewVirtualMachine E c) as [e |] eqn:Hn.
      * wp_steps. split; [apply calm_refl |]. right. left. eauto.
      * wp_steps. apply (log_wp _ _ l); [by destruct (fst s) |]. wsimpl.
        wp_steps. split; [by destruct (snd s) |]. right. right. done.
    + wp_steps. split; [apply calm_refl |]. left. done.
Qed.

End Steps.

(** ** The NVRAM store *)

Section Nvram.

Variable F : Firmware.

Lemma nvram_existing vm w n :
  HostDataDir vm <> ""%string ->
  fs w !! Join [HostDataDir vm; "nvram"%string] = Some n ->
  nvram F (vm, w)
  = nvram_store F (Join [HostDataDir vm; "nvram"%string]) false (vm, w).
Proof.
  intros Hd Hf. unfold nvram, bind.
  rewrite (dataFilePath_set _ _ _ Hd). fold flag_excl. unfold os_OpenFile.
  rewrite on_fs_eq, (OpenFile_excl_exists _ _ _ Hf).
  cbn [fst snd is_ErrNotExist nvram_opened is_ErrExist negb is_nil].
  by rewrite set_fs_same.
Qed.

Lemma nvram_first vm w :
  HostDataDir vm <> ""%string ->
  let path := Join [HostDataDir vm; "nvram"%string] in
  fs w !! path = None -> fs w !! Dir path = Some NDir ->
  nvram F (vm, w)
  = nvram_store F path true
      (vm, set_fs (<[path := NFile empty_file]> (fs w)) w).
Proof.
  intros Hd path Hf Hdir. unfold nvram, bind.
  rewrite (dataFilePath_set _ _ _ Hd). fold flag_excl path. unfold os_OpenFile.
  rewrite on_fs_eq, (OpenFile_create_absent _ _ _ Hf Hdir) by done.
  by cbn [fst snd is_ErrNotExist nvram_opened is_nil].
Qed.

End Nvram.

(** X6.  [nvram] creates the variable store once.  In a data directory
    without an nvram file, [nvram] creates the file empty and asks the
    engine for a store with the creating option; once the file is
    there, a call changes neither the VM nor the host and asks the
    engine to load the store, without the creating option. *)
Theorem nvram_store_is_created_once (F : Firmware) (vm : VM) (w : World) :
  HostDataDir vm <> ""%string ->
  let path := Join [HostDataDir vm; "nvram"%string] in
  let w1 := set_fs (<[path := NFile empty_file]> (fs w)) w in
  fs w !! path = None -> fs w !! Dir path = Some NDir ->
  nvram F (vm, w)
  = Some (match NewEFIVariableStore F (fs w1) path true with
          | Some e => inr (Errorf "create nvram variable store" e)
          | None => inl {| nvram_path := path; nvram_created := true |}
          end, (vm, w1)) /\
  forall w2, fs w2 !! path <> None ->
    nvram F (vm, w2)
    = Some (match NewEFIVariableStore F (fs w2) path false with
            | Some e => inr (Errorf "load nvram variable store" e)
            | None => inl {| nvram_path := path; nvram_created := false |}
            end, (vm, w2)).
Proof.
  intros Hd path w1 Hf Hdir. split.
  - rewrite (nvram_first F vm w Hd Hf Hdir). fold path w1.
    unfold nvram_store, bind, get_world. cbn [fst snd].
    by destruct (NewEFIVariableStore F (fs w1) path true).
  - intros w2 Hw2. destruct (fs w2 !! path) as [n |] eqn:Hn; [| done].
    rewrite (nvram_existing F vm w2 n Hd Hn). fold path.
    unfold nvram_store, bind, get_world. cbn [fst snd].
    by destruct (NewEFIVariableStore F (fs w2) path false).
Qed.

Lemma nvram_store_is_created_once_witness :
  nvram ExampleEFI.firmware (Example.machine, Example.host)
  = Some (inl {| nvram_path := "/var/vm/nvram"; nvram_created := true |},
          (Example.machine,
           set_fs (<["/var/vm/nvram"%string := NFile empty_file]>
                     (fs Example.host)) Example.host)).
Proof.
  apply (nvram_store_is_created_once ExampleEFI.firmware
           Example.machine Example.host); [done | reflexivity | reflexivity].
Defined.

(** ** Negotiation: what is written and what is not *)

Lemma OpenFile_save_file fs path f :
  fs !! path = Some (NFile f) ->
  OpenFile fs path flag_save = (None, <[path := NFile empty_file]> fs).
Proof. intros H. unfold OpenFile. by rewrite H. Qed.

(** Saving over a scalar file replaces its content. *)
Lemma saveStateData_existing name v vm w f :
  HostDataDir vm <> ""%string ->
  fs w !! Join [HostDataDir vm; name] = Some (NFile f) ->
  saveStateData name v (vm, w)
  = Some (None, (vm, set_fs (<[Join [HostDataDir vm; name] := scalar_file v]>
                               (fs w)) w)).
Proof.
  intros Hd Hf. unfold saveStateData, bind.
  rewrite (dataFilePath_set _ _ _ Hd). fold flag_save. unfold os_OpenFile.
  rewrite on_fs_eq, (OpenFile_save_file _ _ _ Hf).
  cbn [fst snd is_ErrNotExist saveStateData_write]. unfold os_Write.
  rewrite on_fs_eq. wsimpl.
  rewrite WriteFile_empty by apply lookup_insert_eq. cbn [fst snd].
  rewrite insert_insert_eq. by destruct w.
Qed.

Lemma saveStateData_writable name v vm w :
  HostDataDir vm <> ""%string ->
  writable (fs w) (Join [HostDataDir vm; name]) ->
  saveStateData name v (vm, w)
  = Some (None, (vm, set_fs (<[Join [HostDataDir vm; name] := scalar_file v]>
                               (fs w)) w)).
Proof.
  intros Hd [[f Hf] | [Hf Hdir]].
  - by eapply saveStateData_existing.
  - by apply saveStateData_fresh.
Qed.

Section Requests.

Variable E : Engine.

Lemma configureCPUs_clamp_inside vm w :
  MinimumAllowedCPUCount E <= CPUs vm <= MaximumAllowedCPUCount E ->
  configureCPUs_clamp (MinimumAllowedCPUCount E) (MaximumAllowedCPUCount E)
    (vm, w) = Some (tt, (vm, w)).
Proof.
  intros Hin. unfold configureCPUs_clamp, bind, get_vm. cbn [fst snd].
  by rewrite (clamp_inside _ _ _ Hin), Z.eqb_refl.
Qed.

Lemma configureCPUs_clamp_outside vm w :
  HostDataDir vm <> ""%string ->
  let min := MinimumAllowedCPUCount E in
  let max := MaximumAllowedCPUCount E in
  clamp (CPUs vm) min max <> CPUs vm ->
  writable (fs w) (Join [HostDataDir vm; "cpu"%string]) ->
  configureCPUs_clamp min max (vm, w)
  = Some (tt, (set_CPUs (clamp (CPUs vm) min max) vm,
               set_fs (<[Join [HostDataDir vm; "cpu"%string]
                         := scalar_file (IntVal (clamp (CPUs vm) min max))]>
                         (fs w)) w)).
Proof.
  intros Hd min max Hne Hw. unfold configureCPUs_clamp, bind at 1, get_vm.
  cbn [fst snd]. fold min max.
  destruct (Z.eqb_spec (CPUs vm) (clamp (CPUs vm) min max)) as [Heq | _];
    [by rewrite <- Heq in Hne |].
  cbn [negb]. unfold bind, modify_vm. cbn [fst snd].
  rewrite saveStateData_writable; by destruct vm.
Qed.

Lemma configureMemory_clamp_inside vm w :
  MinimumAllowedMemorySize E <= Memory vm <= MaximumAllowedMemorySize E ->
  configureMemory_clamp (MinimumAllowedMemorySize E) (MaximumAllowedMemorySize E)
    (vm, w) = Some (tt, (vm, w)).
Proof.
  intros Hin. unfold configureMemory_clamp, bind, get_vm. cbn [fst snd].
  by rewrite (clamp_inside _ _ _ Hin), Z.eqb_refl.
Qed.

Lemma configureMemory_clamp_outside vm w :
  HostDataDir vm <> ""%string ->
  let min := MinimumAllowedMemorySize E in
  let max := MaximumAllowedMemorySize E in
  clamp (Memory vm) min max <> Memory vm ->
  writable (fs w) (Join [HostDataDir vm; "mem"%string]) ->
  configureMemory_clamp min max (vm, w)
  = Some (tt, (set_Memory (clamp (Memory vm) min max) vm,
               set_fs (<[Join [HostDataDir vm; "mem"%string]
                         := scalar_file (IntVal (clamp (Memory vm) min max))]>
                         (fs w)) w)).
Proof.
  intros Hd min max Hne Hw. unfold configureMemory_clamp, bind at 1, get_vm.
  cbn [fst snd]. fold min max.
  destruct (Z.eqb_spec (Memory vm) (clamp (Memory vm) min max)) as [Heq | _];
    [by rewrite <- Heq in Hne |].
  cbn [negb]. unfold bind, modify_vm. cbn [fst snd].
  rewrite saveStateData_writable; by destruct vm.
Qed.

End Requests.

(** X7.  A request made by the caller is persisted only when it had to
    be changed.  A non-zero [CPUs] within the host's bounds leaves the
    VM and the host as they are: nothing is loaded and nothing is
    written, so the request is not there for a later run.  A non-zero
    [CPUs] outside the bounds is replaced by the nearest bound, and
    that bound is what the cpu file then holds. *)
Theorem request_is_persisted_only_when_clamped (E : Engine) (vm : VM) (w : World) :
  CPUs vm <> 0 ->
  let min := MinimumAllowedCPUCount E in
  let max := MaximumAllowedCPUCount E in
  let cpu := Join [HostDataDir vm; "cpu"%string] in
  (min <= CPUs vm <= max -> configureCPUs E (vm, w) = Some (tt, (vm, w))) /\
  (clamp (CPUs vm) min max <> CPUs vm ->
   HostDataDir vm <> ""%string -> writable (fs w) cpu ->
   configureCPUs E (vm, w)
   = Some (tt, (set_CPUs (clamp (CPUs vm) min max) vm,
                set_fs (<[cpu := scalar_file (IntVal (clamp (CPUs vm) min max))]>
                          (fs w)) w))).
Proof.
  intros Hnz min max cpu.
  assert (Hrun : configureCPUs E (vm, w) = configureCPUs_clamp min max (vm, w)).
  { unfold configureCPUs, bind at 1, get_vm. cbn [fst snd].
    by destruct (Z.eqb_spec (CPUs vm) 0). }
  rewrite Hrun. split.
  - apply configureCPUs_clamp_inside.
  - intros Hne Hd Hw. by apply configureCPUs_clamp_outside.
Qed.

Lemma request_is_persisted_only_when_clamped_witness :
  configureCPUs Example.engine (set_CPUs 4 Example.machine, Example.host)
  = Some (tt, (set_CPUs 4 Example.machine, Example.host)) /\
  configureCPUs Example.engine (set_CPUs 64 Example.machine, Example.host)
  = Some (tt, (set_CPUs 8 Example.machine,
               set_fs (<["/var/vm/cpu"%string := scalar_file (IntVal 8)]>
                         (fs Example.host)) Example.host)).
Proof.
  split.
  - apply (request_is_persisted_only_when_clamped Example.engine
             (set_CPUs 4 Example.machine) Example.host); [discriminate |].
    vm_compute. split; discriminate.
  - apply (request_is_persisted_only_when_clamped Example.engine
             (set_CPUs 64 Example.machine) Example.host).
    + discriminate.
    + vm_compute. discriminate.
    + discriminate.
    + right. split; reflexivity.
Defined.

(** X8.  A persisted memory size that the host no longer allows is
    replaced.  With [Memory] zero and a mem file holding a non-zero
    64-bit value outside the host's bounds, [configureMemory] sets
    [Memory] to the nearest bound and rewrites the file with it. *)
Theorem persisted_memory_out_of_bounds_is_rewritten
    (E : Engine) (vm : VM) (w : World) (v : Z) :
  HostDataDir vm <> ""%string ->
  Memory vm = 0 ->
  - 2 ^ 63 <= v < 2 ^ 63 ->
  v <> 0 ->
  let min := MinimumAllowedMemorySize E in
  let max := MaximumAllowedMemorySize E in
  let mem := Join [HostDataDir vm; "mem"%string] in
  clamp v min max <> v ->
  fs w !! mem = Some (scalar_file (IntVal v)) ->
  configureMemory E (vm, w)
  = Some (tt, (set_Memory (clamp v min max) vm,
               set_fs (<[mem := scalar_file (IntVal (clamp v min max))]> (fs w)) w)).
Proof.
  intros Hd Hz Hv Hnz min max mem Hne Hf.
  unfold configureMemory, bind at 1, get_vm. cbn [fst snd]. rewrite Hz.
  cbn [Z.eqb]. unfold bind at 1.
  rewrite (loadStateData_scalar _ _ _ _ _ Hd Hf). cbn [field_kind].
  rewrite (Fscanf_Sprintf_int v Hv). cbn [store].
  unfold bind at 1. cbn [fst snd].
  replace (Memory (set_Memory v vm)) with v by (by destruct vm).
  destruct (Z.eqb_spec v 0) as [? | _]; [done |].
  rewrite configureMemory_clamp_outside.
  - replace (Memory (set_Memory v vm)) with v by (by destruct vm).
    replace (HostDataDir (set_Memory v vm)) with (HostDataDir vm)
      by (by destruct vm).
    by rewrite set_Memory_twice.
  - by destruct vm.
  - by replace (Memory (set_Memory v vm)) with v by (by destruct vm).
  - left. eexists.
    replace (HostDataDir (set_Memory v vm)) with (HostDataDir vm)
      by (by destruct vm).
    exact Hf.
Qed.

Lemma persisted_memory_out_of_bounds_is_rewritten_witness :
  configureMemory Example.engine
    (Example.machine,
     set_fs (<["/var/vm/mem"%string := scalar_file (IntVal 1024)]>
               (fs Example.host)) Example.host)
  = Some (tt,
          (set_Memory 268435456 Example.machine,
           set_fs (<["/var/vm/mem"%string := scalar_file (IntVal 268435456)]>
                     (<["/var/vm/mem"%string := scalar_file (IntVal 1024)]>
                        (fs Example.host))) Example.host)).
Proof.
  etransitivity.
  - apply (persisted_memory_out_of_bounds_is_rewritten Example.engine
             Example.machine
             (set_fs (<["/var/vm/mem"%string := scalar_file (IntVal 1024)]>
                        (fs Example.host)) Example.host) 1024).
    + discriminate.
    + reflexivity.
    + vm_compute. split; [discriminate | reflexivity].
    + discriminate.
    + vm_compute. discriminate.
    + vm_compute. reflexivity.
  - vm_compute. reflexivity.
Defined.

(** ** [Start] as a whole, outside install mode *)

Lemma with_devices_blind c ds id : dir_blind (with_devices c ds id).
Proof. intros d vm. by destruct vm. Qed.

Lemma with_devices_config c' c ds id X :
  set_config (Some c') (with_devices c ds id X) = with_devices c' ds id X.
Proof. by destruct X. Qed.

Lemma with_devices_DiskSize n c ds id X :
  set_DiskSize n (with_devices c ds id X) = with_devices c n id X.
Proof. by destruct X. Qed.

Lemma with_devices_ID i c ds id X :
  set_ID i (with_devices c ds id X) = with_devices c ds i X.
Proof. by destruct X. Qed.

Lemma with_devices_same c X :
  with_devices c (DiskSize X) (ID X) X = set_config (Some c) X.
Proof. by destruct X. Qed.

Lemma dir_kept_with_devices c ds id X vm :
  dir_kept (with_devices c ds id X) vm ->
  Logger vm = Logger X /\ config vm = Some c /\ Install vm = Install X /\
  SharedDirectories vm = SharedDirectories X /\ vzvm vm = vzvm X /\
  files vm = files X /\ CPUs vm = CPUs X /\ Memory vm = Memory X /\
  OS vm = OS X /\ Arch vm = Arch X /\ ID vm = id.
Proof. intros (d & -> & _). by destruct X. Qed.

#[local] Hint Resolve with_devices_blind : frames.

Section StartWalk.

Variable E : Engine.
Variable I : Installer.

(** One step of the chain: its error is wrapped and returned, its
    success hands over to the rest. *)
Lemma step_wp msg (c k : M (option error)) (Q : option error -> VM * World -> Prop) s :
  wp c (fun r s' => match r with
                    | Some e => Q (Some (Errorf msg e)) s'
                    | None => wp k Q s'
                    end) s ->
  wp (step msg c k) Q s.
Proof.
  intros H. unfold step. wp_step. eapply wp_mono; [exact H |].
  intros [e |] s' Hr; [by wp_steps | done].
Qed.

Lemma Start_devices_frame X c ds id l s :
  Install X = false -> Logger X = Some l ->
  dir_kept (with_devices c ds id X) (fst s) ->
  wp (Start_devices E I)
     (fun r s' => calm (snd s) (snd s') /\ devices_outcome E X c r s') s.
Proof.
  intros Hi Hl Hinv. unfold Start_devices.
  (* disks *)
  pose proof (dir_kept_with_devices _ _ _ _ _ Hinv)
    as (Hl0 & Hc0 & Hi0 & _).
  apply step_wp. eapply wp_mono.
  { apply (attachDisks_frame E I l c); congruence. }
  intros r1 s1 (Hcalm1 & n & Hr1). destruct r1 as [e1 |].
  { split; [done |]. left. exists "attach disks"%string, e1, c, n, id.
    split; [done |]. rewrite <- (with_devices_DiskSize n c ds).
    eapply dir_kept_step; [| exact Hinv | exact Hr1]; auto with frames. }
  destruct Hr1 as [Hd1 Hr1].
  set (image := Join [HostDataDir (fst s1); "disk.img"%string]) in *.
  set (c1 := set_c_storage [DiskImage image false] c) in *.
  assert (Hinv1 : dir_kept (with_devices c1 n id X) (fst s1)).
  { rewrite <- (with_devices_config c1 c), <- (with_devices_DiskSize n c ds).
    eapply (dir_kept_step (fun vm => set_config (Some c1) (set_DiskSize n vm)));
      [| exact Hinv | exact Hr1].
    intros d vm. by destruct vm. }
  clear Hr1 Hinv Hl0 Hc0 Hi0.
  (* network *)
  pose proof (dir_kept_with_devices _ _ _ _ _ Hinv1) as (Hl1 & Hc1 & Hi1 & _).
  apply step_wp. eapply wp_mono.
  { apply (attachNetwork_frame E l c1); congruence. }
  intros r2 s2 (Hcalm2 & Hr2). destruct r2 as [e2 |].
  { split; [by eapply calm_trans |]. left.
    exists "attach network"%string, e2, c1, n, id. by rewrite Hr2. }
  destruct Hr2 as [mac Hr2].
  set (c2 := set_c_network [NATDevice mac] c1) in *.
  assert (Hinv2 : dir_kept (with_devices c2 n id X) (fst s2)).
  { rewrite Hr2, <- (with_devices_config c2 c1).
    apply dir_kept_update; auto with frames. }
  assert (Hd2 : HostDataDir (fst s2) = HostDataDir (fst s1)).
  { rewrite Hr2. by destruct (fst s1). }
  clear Hr2 Hl1 Hc1 Hi1.
  (* entropy *)
  pose proof (dir_kept_with_devices _ _ _ _ _ Hinv2) as (Hl2 & Hc2 & Hi2 & _).
  apply step_wp. eapply wp_mono.
  { apply (attachEntropy_frame E l c2); congruence. }
  intros r3 s3 (Hcalm3 & Hr3). destruct r3 as [e3 |].
  { split; [eapply calm_trans; [| exact Hcalm3]; by eapply calm_trans |].
    left. exists "attach entropy"%string, e3, c2, n, id. by rewrite Hr3. }
  set (c3 := set_c_entropy [VirtioEntropy] c2) in *.
  assert (Hinv3 : dir_kept (with_devices c3 n id X) (fst s3)).
  { rewrite Hr3, <- (with_devices_config c3 c2).
    apply dir_kept_update; auto with frames. }
  assert (Hd3 : HostDataDir (fst s3) = HostDataDir (fst s1)).
  { rewrite Hr3, <- Hd2. by destruct (fst s2). }
  assert (Hcalm03 : calm (snd s) (snd s3)).
  { eapply calm_trans; [| exact Hcalm3]. by eapply calm_trans. }
  clear Hr3 Hl2 Hc2 Hi2 Hcalm1 Hcalm2 Hcalm3 Hd2 Hinv2.
  (* shared directories *)
  pose proof (dir_kept_with_devices _ _ _ _ _ Hinv3)
    as (Hl3 & Hc3 & Hi3 & Hsh3 & _).
  apply step_wp. eapply wp_mono.
  { apply (attachSharedDirs_frame E I l c3); congruence. }
  intros r4 s4 (Hcalm4 & Hr4). destruct r4 as [e4 |].
  { split; [by eapply calm_trans |]. left.
    exists "attach shared directories"%string, e4, c3, n, id.
    by rewrite Hr4. }
  rewrite Hsh3 in Hr4.
  set (c4 := set_c_shares (map dirshare (SharedDirectories X)) c3) in *.
  assert (Hinv4 : dir_kept (with_devices c4 n id X) (fst s4)).
  { rewrite Hr4, <- (with_devices_config c4 c3).
    apply dir_kept_update; auto with frames. }
  assert (Hd4 : HostDataDir (fst s4) = HostDataDir (fst s1)).
  { rewrite Hr4, <- Hd3. by destruct (fst s3). }
  assert (Hcalm04 : calm (snd s) (snd s4)) by (by eapply calm_trans).
  clear Hr4 Hl3 Hc3 Hi3 Hsh3 Hcalm4 Hcalm03 Hd3 Hinv3.
  (* platform *)
  pose proof (dir_kept_with_devices _ _ _ _ _ Hinv4) as (Hl4 & Hc4 & Hi4 & _).
  apply step_wp. eapply wp_mono.
  { apply (configureLinuxPlatform_frame E l c4); congruence. }
  intros r5 s5 (Hcalm5 & id5 & Hr5). destruct r5 as [e5 |].
  { split; [by eapply calm_trans |]. left.
    exists "configure linux platform"%string, e5, c4, n, id5.
    split; [done |]. rewrite <- (with_devices_ID id5 c4 n id).
    eapply dir_kept_step; [| exact Hinv4 | exact Hr5]; auto with frames. }
  set (c5 := set_c_platform (Some id5) c4) in *.
  assert (Hinv5 : dir_kept (with_devices c5 n id5 X) (fst s5)).
  { rewrite <- (with_devices_config c5 c4), <- (with_devices_ID id5 c4 n id).
    eapply (dir_kept_step (fun vm => set_config (Some c5) (set_ID id5 vm)));
      [| exact Hinv4 | exact Hr5].
    intros d vm. by destruct vm. }
  assert (Hd5 : HostDataDir (fst s5) = HostDataDir (fst s1)).
  { rewrite <- Hd4.
    rewrite (dir_kept_HostDataDir _ _ Hr5); [by destruct (fst s4) |].
    rewrite <- Hd4 in Hd1. by destruct (fst s4). }
  assert (Hcalm05 : calm (snd s) (snd s5)) by (by eapply calm_trans).
  clear Hr5 Hl4 Hc4 Hi4 Hcalm5 Hcalm04 Hd4 Hinv4.
  (* validation and start *)
  pose proof (dir_kept_with_devices _ _ _ _ _ Hinv5) as (Hl5 & Hc5 & _).
  eapply wp_mono.
  { apply (Start_validate_frame E l c5); congruence. }
  intros r s' (Hcalm' & Hr). split; [by eapply calm_trans |].
  right. exists n, id5, mac.
  assert (Hd' : HostDataDir (fst s') = HostDataDir (fst s1)).
  { rewrite <- Hd5.
    destruct Hr as [[_ ->] | [(e & _ & _ & ->) | (_ & _ & _ & ->)]];
      [done | by destruct (fst s5) | by destruct (fst s5)]. }
  cbv zeta. rewrite Hd'. fold image.
  change (attach_all image mac (SharedDirectories X) id5 c) with c5.
  split; [done |].
  destruct Hr as [[Hr ->] | [(e & Hn & -> & ->) | (Hv & Hn & -> & ->)]].
  - left. done.
  - right. left. exists e. split; [done |]. split; [done |].
    apply dir_kept_update; auto with frames.
  - right. right. split; [done |]. split; [done |]. split; [done |].
    apply dir_kept_update; auto with frames.
Qed.

Lemma fileBundle_frame dir s :
  wp (fileBundle dir)
     (fun r s' =>
        fst s' = fst s /\ quiet (snd s) (snd s') /\
        match r with
        | inl b =>
            (dir <> ""%string -> b = bundle dir false /\ s' = s) /\
            (dir = ""%string ->
             exists tmp, b = bundle tmp true /\ tmp <> ""%string /\
                         fs (snd s) !! tmp = None /\
                         fs (snd s') = <[tmp := NDir]> (fs (snd s)))
        | inr _ => dir = ""%string /\ fs (snd s') = fs (snd s)
        end) s.
Proof.
  unfold fileBundle. case_bool_decide as Hd.
  - wp_step. eapply wp_mono; [apply MkdirTemp_try_frame |].
    intros [p | e] s' (Hvm & Hq & Hr); wp_steps.
    + split; [done |]. split; [done |]. split; [done |]. intros _.
      exists p. by destruct Hr as (? & ? & ?).
    + done.
  - wp_steps. split; [done |]. split; [apply quiet_refl |].
    split; [| done]. intros _. split; [done | by destruct s].
Qed.

Lemma default_OS_wp (Q : unit -> VM * World -> Prop) vm w :
  Q tt (default_OS vm, w) ->
  wp (if bool_decide (OS vm = ""%string) then modify_vm (set_OS "linux")
      else ret tt) Q (vm, w).
Proof. unfold default_OS. case_bool_decide; intros HQ; by wp_steps. Qed.

Lemma default_Arch_wp (Q : unit -> VM * World -> Prop) vm w :
  Q tt (default_Arch vm, w) ->
  wp (if bool_decide (Arch vm = ""%string) then modify_vm (set_Arch "aarch64")
      else ret tt) Q (vm, w).
Proof. unfold default_Arch. case_bool_decide; intros HQ; by wp_steps. Qed.

Lemma prepared_vm_fields b l n m vm :
  let X := prepared_vm b l n m vm in
  Install X = Install vm /\ Logger X = Some l /\ files X = b /\
  CPUs X = n /\ Memory X = m /\ config X = config vm /\
  vzvm X = vzvm vm /\ SharedDirectories X = SharedDirectories vm /\
  HostDataDir X = HostDataDir vm /\ ID X = ID vm /\
  DiskSize X = DiskSize vm /\
  OS X = (if bool_decide (OS vm = ""%string) then "linux"%string else OS vm) /\
  Arch X = (if bool_decide (Arch vm = ""%string) then "aarch64"%string
            else Arch vm).
Proof.
  unfold prepared_vm, default_Arch, default_OS. destruct vm. cbn.
  repeat case_bool_decide; done.
Qed.

Lemma set_config_twice a b vm : set_config a (set_config b vm) = set_config a vm.
Proof. by destruct vm. Qed.

(** [Start] always returns outside install mode, in one of the ways
    listed by [Start_outcome]. *)
Lemma Start_outcomes s :
  Install (fst s) = false ->
  wp (Start E I)
     (fun r s' => host_kept (snd s) (snd s') /\ Start_outcome E s r s') s.
Proof.
  intros Hi. destruct s as [vm w]. cbn [fst snd] in *.
  unfold Start. wp_steps.
  eapply wp_mono; [apply fileBundle_frame |]. cbn [fst snd].
  intros [b | e] [vm0 w0] (Hvm0 & Hq0 & Hb); cbn [fst snd] in *; subst vm0.
  2:{ wp_steps. split; [apply Hq0 |]. left. destruct Hb as [Hd _].
      split; [done |]. split; [eauto |]. split; [done |]. apply Hq0. }
  wp_steps. apply default_OS_wp. wp_steps. apply default_Arch_wp. wp_step.
  eapply wp_mono; [apply initLogger_frame |]. cbn [fst snd].
  intros _ s3 ([l Hl3] & Hc3). wp_step.
  eapply wp_mono;
    [apply wp_conj; [apply configureCPUs_frame | apply configureCPUs_wp] |].
  intros _ s4 ([[n Hn] Hq4] & [v Hv]). wp_step.
  eapply wp_mono;
    [apply wp_conj; [apply configureMemory_frame | apply configureMemory_wp] |].
  intros _ s5 ([[m Hm] Hq5] & [v' Hv']).
  assert (HX : dir_kept (prepared_vm b l n m vm) (fst s5)).
  { unfold prepared_vm.
    eapply dir_kept_step; [| | exact Hm]; [auto with frames |].
    eapply dir_kept_step; [| | exact Hn]; [auto with frames |]. exact Hl3. }
  assert (Hn' : n = clamp v (MinimumAllowedCPUCount E) (MaximumAllowedCPUCount E)).
  { rewrite <- Hv, (dir_kept_CPUs _ _ Hn). by destruct (fst s3). }
  assert (Hm' : m = clamp v' (MinimumAllowedMemorySize E)
                          (MaximumAllowedMemorySize E)).
  { rewrite <- Hv', (dir_kept_Memory _ _ Hm). by destruct (fst s4). }
  assert (Hcalm5 : calm w (snd s5)).
  { eapply calm_trans; [apply quiet_calm, Hq0 |].
    eapply calm_trans; [exact Hc3 |].
    eapply calm_trans; apply quiet_calm; eassumption. }
  clear Hl3 Hn Hm Hv Hv' Hc3 Hq4 Hq5 s3 s4.
  set (X := prepared_vm b l n m vm) in *.
  destruct (prepared_vm_fields b l n m vm)
    as (HXi & HXl & HXf & HXn & HXm & _). fold X in HXi, HXl, HXf, HXn, HXm.
  assert (Hb1 : HostDataDir vm <> ""%string -> b = bundle (HostDataDir vm) false).
  { intros Hd. by apply Hb. }
  assert (Hb2 : HostDataDir vm = ""%string -> exists tmp, b = bundle tmp true).
  { intros Hd. destruct (proj2 Hb Hd) as (tmp & ? & _). eauto. }
  clear Hb Hq0 w0.
  wp_step. eapply wp_mono.
  { apply (linuxBootLoader_frame E I l).
    - rewrite (dir_kept_Install _ _ HX). congruence.
    - rewrite (dir_kept_Logger _ _ HX). congruence. }
  cbv zeta. rewrite (dir_kept_files _ _ HX), HXf.
  destruct Hcalm5 as [[Hsym5 Htmp5] Htty5]. rewrite Hsym5.
  intros [loader | e] s6 (Hvm6 & Hc6 & Hr6).
  2:{ wp_steps. split; [| right; exists b, l, n, m; cbv zeta; cbn [fst snd]; fold X].
      { destruct Hc6 as [[? ?] ?]. split; congruence. }
      split; [done |]. split; [done |]. split; [eauto |]. split; [eauto |].
      left. exists e. split; [done |]. split; [by rewrite Hvm6 |].
      split; [destruct Hc6 as [_ ?]; congruence |].
      destruct Hr6 as [(Hnone & _ & e0 & ->) | (init & Hinit & Hnew)].
      - left. eauto.
      - right. eauto. }
  destruct Hr6 as (init & Hinit & ->). fold (linux_loader b init).
  assert (HX6 : dir_kept X (fst s6)) by (by rewrite Hvm6).
  assert (Hcalm6 : calm w (snd s6)).
  { destruct Hc6 as [[? ?] ?]. repeat split; congruence. }
  clear Hvm6 Hc6 HX Hsym5 Htmp5 Htty5 s5.
  wp_step. apply (log_wp _ _ l).
  { rewrite (dir_kept_Logger _ _ HX6). congruence. }
  wp_steps. rewrite (dir_kept_CPUs _ _ HX6), (dir_kept_Memory _ _ HX6), HXn, HXm.
  set (c0 := new_configuration (linux_loader b init) (uint64 n) (uint64 m)).
  assert (Hcalm7 : calm w (set_trace
            (trace (snd s6) ++ [EvLog l "DEBUG" "creating virtual machine"])
            (snd s6))).
  { eapply calm_trans; [exact Hcalm6 | apply calm_set_trace]. }
  destruct (NewVirtualMachineConfiguration E _ _ _) as [e |].
  { wp_steps. split; [apply Hcalm7 |]. right. exists b, l, n, m.
    cbv zeta. cbn [fst snd]. fold X. split; [done |]. split; [done |].
    split; [eauto |]. split; [eauto |]. right. exists init. split; [done |].
    left. exists e. split; [done |].
    split; [apply dir_kept_update; auto with frames | apply Hcalm7]. }
  wp_steps.
  assert (HX7 : dir_kept (set_config (Some c0) X) (set_config (Some c0) (fst s6))).
  { apply dir_kept_update; auto with frames. }
  apply step_wp. eapply wp_mono.
  { apply (attachConsole_frame E l c0); cbn [fst].
    - rewrite (dir_kept_Logger _ _ HX7). by rewrite Logger_set_config.
    - by destruct (fst s6). }
  cbn [fst snd stdin_tty set_trace].
  destruct Hcalm7 as [Hhost7 Htty7]. cbn [stdin_tty set_trace] in Htty7.
  rewrite Htty7.
  intros r8 s8 (Hhost8 & Hr8).
  assert (Hhost : host_kept w (snd s8)) by (by eapply host_kept_trans).
  assert (Hwrap : forall r s' (P : Prop),
             (host_kept w (snd s') /\ P) ->
             (P -> Start_outcome E (vm, w) r s') ->
             host_kept w (snd s') /\ Start_outcome E (vm, w) r s').
  { intros r s' P [? ?] HP. split; [done | by apply HP]. }
  destruct (stdin_tty w) as [term |] eqn:Hterm.
  - destruct Hr8 as [Htty8 Hr8]. destruct r8 as [e8 |].
    + split; [done |]. right. exists b, l, n, m. cbv zeta. cbn [fst snd]. fold X.
      split; [done |]. split; [done |]. split; [eauto |]. split; [eauto |].
      right. exists init. split; [done |]. fold c0. right. right.
      exists term. cbn [snd]. rewrite Hterm. split; [done |].
      split; [done |]. left. exists e8. split; [done |]. by rewrite Hr8.
    + eapply wp_mono.
      { apply (Start_devices_frame X (set_c_serial [StdioConsole] c0)
                 (DiskSize X) (ID X) l); [congruence | done |].
        rewrite with_devices_same, Hr8, set_config_twice.
        apply dir_kept_update; auto with frames. }
      intros r s' [Hcalm' Hout]. split.
      { eapply host_kept_trans; [exact Hhost | apply Hcalm']. }
      right. exists b, l, n, m. cbv zeta. cbn [fst snd]. fold X.
      split; [done |]. split; [done |]. split; [eauto |]. split; [eauto |].
      right. exists init. split; [done |]. fold c0. right. right.
      exists term. cbn [snd]. rewrite Hterm. split; [done |].
      split; [destruct Hcalm' as [_ ->]; done |]. right. exact Hout.
  - destruct Hr8 as [-> ->]. cbn [fst snd] in *. split; [done |].
    right. exists b, l, n, m. cbv zeta. cbn [fst snd]. fold X.
    split; [done |]. split; [done |]. split; [eauto |]. split; [eauto |].
    right. exists init. split; [done |]. fold c0. right. left.
    rewrite Hterm. done.
Qed.

End StartWalk.

(** ** What a caller of [Start] can rely on *)

(** X9.  [Start] needs a terminal.  Outside install mode, when
    standard input is not a terminal, [Start] returns an error: that of
    an earlier stage (data directory, boot loader, configuration) or
    "attach console: put stdin in raw mode: get terminal attributes";
    no engine machine is created and standard input stays as it is. *)
Theorem start_without_terminal_fails
    (E : Engine) (I : Installer) (s : VM * World) :
  Install (fst s) = false ->
  stdin_tty (snd s) = None ->
  exists e s',
    Start E I s = Some (Some e, s') /\
    vzvm (fst s') = vzvm (fst s) /\
    stdin_tty (snd s') = None /\
    ((exists e0,
         e = Errorf "create directory for virtual machine data" e0) \/
     (exists e0, e = Errorf "create boot loader" e0) \/
     (exists e0, e = Errorf "create virtual machine configuration" e0) \/
     e = Errorf "attach console"
           (Errorf "put stdin in raw mode: get terminal attributes" ENOTTY)).
Proof.
  intros Hi Htty.
  destruct (wp_elim _ _ _ (Start_outcomes E I s Hi))
    as (r & s' & Hrun & _ & Hout).
  unfold Start_outcome in Hout. cbv zeta in Hout.
  destruct Hout as [(_ & [e0 ->] & Hvm & Ht) | (b & l & n & m & _ & _ & _ & _ & Hout)].
  { exists (Errorf "create directory for virtual machine data" e0), s'.
    split; [done |]. split; [rewrite Hvm; by destruct (fst s) |].
    split; [congruence | eauto]. }
  destruct (prepared_vm_fields b l n m (fst s)) as (_ & _ & _ & _ & _ & _ & Hvz & _).
  destruct Hout as [(e & -> & HX & Ht & _) | (init & _ & Hout)].
  { exists (Errorf "create boot loader" e), s'. split; [done |].
    split; [by rewrite (dir_kept_vzvm _ _ HX) |]. split; [congruence | eauto]. }
  destruct Hout as [(e & -> & HX & Ht) | [(_ & Ht & -> & HX) | (term & Hterm & _)]].
  - exists (Errorf "create virtual machine configuration" e), s'.
    split; [done |]. split; [| split; [congruence | eauto 6]].
    rewrite (dir_kept_vzvm _ _ HX), <- Hvz. by destruct (prepared_vm b l n m (fst s)).
  - eexists _, s'. split; [done |]. split; [| split; [done | eauto 6]].
    rewrite (dir_kept_vzvm _ _ HX), <- Hvz. by destruct (prepared_vm b l n m (fst s)).
  - congruence.
Qed.

Lemma start_without_terminal_fails_witness :
  exists e s',
    Start Example.engine Example.installer
      (Example.machine, ExampleHosts.headless) = Some (Some e, s') /\
    vzvm (fst s') = None.
Proof.
  destruct (start_without_terminal_fails Example.engine Example.installer
              (Example.machine, ExampleHosts.headless))
    as (e & s' & Hrun & Hvz & _); [reflexivity | reflexivity |].
  exists e, s'. split; [exact Hrun | exact Hvz].
Defined.

(** X10.  What a successful [Start] has built.  Outside install mode,
    when [Start] returns nil the VM holds the engine machine made from
    its configuration, and the configuration is: the Linux boot loader
    for the kernel and initrd of the bundle with the init program the
    init link points to; the VM's CPU count and memory size (as
    unsigned values); the console on standard input, left in raw mode;
    one disk, the image disk.img of the data directory, read-write;
    one NAT network device; one entropy device; one share for each of
    the caller's directories, in their order; the platform with the
    VM's identifier.  The caller's list of directories is unchanged
    and the data directory is set. *)
Theorem started_machine_configuration
    (E : Engine) (I : Installer) (s s' : VM * World) :
  Install (fst s) = false ->
  Start E I s = Some (None, s') ->
  exists c init term mac,
    config (fst s') = Some c /\
    vzvm (fst s') = Some {| vm_configuration := c |} /\
    c = {| c_loader := linux_loader (files (fst s')) init;
           c_cpus := uint64 (CPUs (fst s'));
           c_memory := uint64 (Memory (fst s'));
           c_serial := [StdioConsole];
           c_storage := [DiskImage (Join [HostDataDir (fst s');
                                          "disk.img"%string]) false];
           c_network := [NATDevice mac];
           c_entropy := [VirtioEntropy];
           c_shares := map dirshare (SharedDirectories (fst s));
           c_platform := Some (ID (fst s')) |} /\
    symlinks (snd s) !! d_init (files (fst s')) = Some init /\
    stdin_tty (snd s) = Some term /\
    stdin_tty (snd s') = Some (raw_mode term) /\
    SharedDirectories (fst s') = SharedDirectories (fst s) /\
    HostDataDir (fst s') <> ""%string /\
    Validate E c = (true, None) /\
    VirtualMachine_Start E {| vm_configuration := c |} = None.
Proof.
  intros Hi Hrun.
  pose proof (Start_outcomes E I s Hi) as Hwp. unfold wp in Hwp.
  rewrite Hrun in Hwp. destruct Hwp as [_ Hout].
  unfold Start_outcome in Hout. cbv zeta in Hout.
  destruct Hout as [(_ & [e0 [=]] & _) | (b & l & n & m & _ & _ & _ & _ & Hout)].
  destruct Hout as [(e & [=] & _) | (init & Hinit & Hout)].
  destruct Hout as [(e & [=] & _) | [(_ & _ & [=] & _) | (term & Hterm & Hraw & Hout)]].
  destruct Hout as [(e & [=] & _) | Hout].
  unfold devices_outcome in Hout. cbv zeta in Hout.
  destruct Hout as [(msg & e & c' & ds' & id' & [=] & _)
                   | (ds & id & mac & Hd & Hout)].
  destruct Hout as [[Hr _] | [(e & _ & [=] & _) | (Hv & Hn & Hr & Hvm)]];
    [done |].
  destruct (prepared_vm_fields b l n m (fst s))
    as (_ & _ & Hf & Hcpu & Hmem & _ & _ & Hsh & _).
  set (X := prepared_vm b l n m (fst s)) in *.
  eexists _, init, term, mac.
  assert (Hfiles : files (fst s') = b).
  { rewrite (dir_kept_files _ _ Hvm), <- Hf. by destruct X. }
  assert (Hc : CPUs (fst s') = n).
  { rewrite (dir_kept_CPUs _ _ Hvm), <- Hcpu. by destruct X. }
  assert (Hm : Memory (fst s') = m).
  { rewrite (dir_kept_Memory _ _ Hvm), <- Hmem. by destruct X. }
  assert (Hid : ID (fst s') = id).
  { rewrite (dir_kept_ID _ _ Hvm). by destruct X. }
  assert (Hshare : SharedDirectories (fst s') = SharedDirectories (fst s)).
  { rewrite (dir_kept_SharedDirectories _ _ Hvm), <- Hsh. by destruct X. }
  rewrite Hfiles, Hc, Hm, Hid, <- Hsh.
  split; [rewrite (dir_kept_config _ _ Hvm); reflexivity |].
  split; [rewrite (dir_kept_vzvm _ _ Hvm); reflexivity |].
  split; [reflexivity |].
  split; [done |]. split; [done |]. split; [done |].
  split; [by rewrite Hsh |]. split; [done |]. split; [exact Hv | done].
Qed.

Lemma started_machine_configuration_witness :
  exists s' c,
    Start Example.engine Example.installer (Example.machine, Example.host)
    = Some (None, s') /\
    config (fst s') = Some c /\
    c_cpus c = 1 /\ c_memory c = 1073741824 /\
    c_storage c = [DiskImage "/var/vm/disk.img" false] /\
    c_platform c = Some [chr 1; chr 2; chr 3].
Proof.
  destruct (Start Example.engine Example.installer
              (Example.machine, Example.host)) as [[[e |] s'] |] eqn:Hrun;
    [vm_compute in Hrun; discriminate Hrun | | vm_compute in Hrun; discriminate Hrun].
  destruct (started_machine_configuration Example.engine Example.installer
              (Example.machine, Example.host) s' eq_refl Hrun)
    as (c & init & term & mac & Hc & _ & Hcfg & _).
  exists s', c. split; [reflexivity |]. split; [exact Hc |].
  vm_compute in Hrun. injection Hrun as <-. rewrite Hcfg. vm_compute.
  repeat split; reflexivity.
Defined.

(** X11.  A failed [Start] leaves nothing to stop, unless the engine's
    own start failed.  Outside install mode, on a VM that has no
    engine machine, when [Start] returns an error then either the
    error is the one the engine's start returned for the machine the
    VM now holds, or the VM still has no machine, and then [Stop]
    returns nil without touching the VM or the host, whatever the
    context. *)
Theorem failed_start_leaves_no_machine
    (E : Engine) (I : Installer) (s s' : VM * World) (e : error) :
  Install (fst s) = false ->
  vzvm (fst s) = None ->
  Start E I s = Some (Some e, s') ->
  (exists h, vzvm (fst s') = Some h /\
             config (fst s') = Some (vm_configuration h) /\
             VirtualMachine_Start E h = Some e) \/
  (vzvm (fst s') = None /\
   forall sched ctx,
     Stop E sched ctx (Some (fst s')) (snd s') = (None, Some (fst s'), snd s')).
Proof.
  intros Hi Hvz Hrun.
  assert (Hstop : vzvm (fst s') = None ->
            vzvm (fst s') = None /\
            forall sched ctx,
              Stop E sched ctx (Some (fst s')) (snd s')
              = (None, Some (fst s'), snd s')).
  { intros Hnone. split; [done |]. intros sched ctx. unfold Stop.
    by rewrite Hnone. }
  pose proof (Start_outcomes E I s Hi) as Hwp. unfold wp in Hwp.
  rewrite Hrun in Hwp. destruct Hwp as [_ Hout].
  unfold Start_outcome in Hout. cbv zeta in Hout.
  destruct Hout as [(_ & _ & Hvm & _) | (b & l & n & m & _ & _ & _ & _ & Hout)].
  { right. apply Hstop. rewrite Hvm, <- Hvz. by destruct (fst s). }
  destruct (prepared_vm_fields b l n m (fst s))
    as (_ & _ & _ & _ & _ & _ & HXvz & _).
  set (X := prepared_vm b l n m (fst s)) in *. rewrite Hvz in HXvz.
  destruct Hout as [(e1 & _ & HX & _) | (init & _ & Hout)].
  { right. apply Hstop. by rewrite (dir_kept_vzvm _ _ HX). }
  destruct Hout as [(e1 & _ & HX & _) | [(_ & _ & _ & HX) | (term & _ & _ & Hout)]].
  { right. apply Hstop. rewrite (dir_kept_vzvm _ _ HX), <- HXvz. by destruct X. }
  { right. apply Hstop. rewrite (dir_kept_vzvm _ _ HX), <- HXvz. by destruct X. }
  destruct Hout as [(e1 & _ & HX) | Hout].
  { right. apply Hstop. rewrite (dir_kept_vzvm _ _ HX), <- HXvz. by destruct X. }
  unfold devices_outcome in Hout. cbv zeta in Hout.
  destruct Hout as [(msg & e1 & c' & ds' & id' & _ & HX)
                   | (ds & id & mac & _ & Hout)].
  { right. apply Hstop. rewrite (dir_kept_vzvm _ _ HX), <- HXvz. by destruct X. }
  destruct Hout as [[_ HX] | [(e1 & _ & _ & HX) | (_ & _ & Hr & HX)]].
  - right. apply Hstop. rewrite (dir_kept_vzvm _ _ HX), <- HXvz. by destruct X.
  - right. apply Hstop. by rewrite (dir_kept_vzvm _ _ HX).
  - left. eexists. split; [by rewrite (dir_kept_vzvm _ _ HX) |].
    split; [by rewrite (dir_kept_config _ _ HX) | done].
Qed.

Lemma failed_start_leaves_no_machine_witness :
  exists e s',
    Start Example.engine Example.installer
      (Example.machine, ExampleHosts.headless) = Some (Some e, s') /\
    Stop Example.engine {| task_first := true; pick_done := false |} NeverDone
         (Some (fst s')) (snd s') = (None, Some (fst s'), snd s').
Proof.
  destruct (Start Example.engine Example.installer
              (Example.machine, ExampleHosts.headless))
    as [[[e |] s'] |] eqn:Hrun;
    [| vm_compute in Hrun; discriminate Hrun
     | vm_compute in Hrun; discriminate Hrun].
  exists e, s'. split; [reflexivity |].
  destruct (failed_start_leaves_no_machine Example.engine Example.installer
              (Example.machine, ExampleHosts.headless) s' e
              eq_refl eq_refl Hrun) as [(h & Hh & _) | [_ Hstop]].
  - vm_compute in Hrun. injection Hrun as _ <-. discriminate Hh.
  - apply Hstop.
Defined.

(** X12.  A normal boot needs the init link.  Outside install mode,
    with the data directory set, when that directory has no symbolic
    link boot/default/init, [Start] returns the error "create boot
    loader: determine path to kernel init file inside vm: ...": no
    configuration and no machine are made, and the terminal is not
    touched. *)
Theorem start_requires_init_link
    (E : Engine) (I : Installer) (s : VM * World) :
  Install (fst s) = false ->
  HostDataDir (fst s) <> ""%string ->
  symlinks (snd s)
    !! Join [HostDataDir (fst s); "boot"; "default"; "init"]%string = None ->
  exists e0 s',
    Start E I s
    = Some (Some (Errorf "create boot loader"
                    (Errorf "determine path to kernel init file inside vm" e0)),
            s') /\
    config (fst s') = config (fst s) /\
    vzvm (fst s') = vzvm (fst s) /\
    stdin_tty (snd s') = stdin_tty (snd s).
Proof.
  intros Hi Hd Hlink.
  destruct (wp_elim _ _ _ (Start_outcomes E I s Hi))
    as (r & s' & Hrun & _ & Hout).
  unfold Start_outcome in Hout. cbv zeta in Hout.
  destruct Hout as [(Hd' & _) | (b & l & n & m & Hb & _ & _ & _ & Hout)];
    [done |].
  rewrite (Hb Hd) in Hout. cbn [bundle d_init] in Hout.
  destruct (prepared_vm_fields (bundle (HostDataDir (fst s)) false) l n m (fst s))
    as (_ & _ & _ & _ & _ & Hcfg & Hvz & _).
  destruct Hout as [(e & -> & HX & Ht & Hwhy) | (init & Hinit & _)];
    [| congruence].
  destruct Hwhy as [(_ & e0 & ->) | (init & Hinit & _)]; [| congruence].
  exists e0, s'. split; [done |].
  split; [by rewrite (dir_kept_config _ _ HX) |].
  split; [by rewrite (dir_kept_vzvm _ _ HX) | done].
Qed.

Lemma start_requires_init_link_witness :
  exists e0 s',
    Start Example.engine Example.installer
      (Example.machine, ExampleHosts.blank)
    = Some (Some (Errorf "create boot loader"
                    (Errorf "determine path to kernel init file inside vm" e0)),
            s').
Proof.
  destruct (start_requires_init_link Example.engine Example.installer
              (Example.machine, ExampleHosts.blank))
    as (e0 & s' & Hrun & _); [reflexivity | discriminate | reflexivity |].
  exists e0, s'. exact Hrun.
Defined.

Lemma dir_kept_OS a b : dir_kept a b -> OS b = OS a.
Proof. intros (d & -> & _). by destruct a. Qed.

Lemma dir_kept_Arch a b : dir_kept a b -> Arch b = Arch a.
Proof. intros (d & -> & _). by destruct a. Qed.

(** X19.  What [Start] does to the caller's VM, however it ends.
    Outside install mode and with the data directory set, [Start]
    never changes [Install], [SharedDirectories] or [HostDataDir]; the
    file bundle is the one of the data directory; a logger is set; an
    empty [OS] becomes "linux" and an empty [Arch] "aarch64" (so that
    [nixSystem] of a VM that named neither is "aarch64-linux"), values
    the caller gave are kept; and the CPU count and memory size are
    within the host's bounds. *)
Theorem start_keeps_the_request
    (E : Engine) (I : Installer) (s s' : VM * World) (r : option error) :
  Install (fst s) = false ->
  HostDataDir (fst s) <> ""%string ->
  Start E I s = Some (r, s') ->
  Install (fst s') = false /\
  SharedDirectories (fst s') = SharedDirectories (fst s) /\
  HostDataDir (fst s') = HostDataDir (fst s) /\
  files (fst s') = bundle (HostDataDir (fst s)) false /\
  is_Some (Logger (fst s')) /\
  OS (fst s') = (if bool_decide (OS (fst s) = ""%string) then "linux"%string
                 else OS (fst s)) /\
  Arch (fst s') = (if bool_decide (Arch (fst s) = ""%string)
                   then "aarch64"%string else Arch (fst s)) /\
  (OS (fst s) = ""%string -> Arch (fst s) = ""%string ->
   nixSystem (fst s') = "aarch64-linux"%string) /\
  (MinimumAllowedCPUCount E <= MaximumAllowedCPUCount E ->
   MinimumAllowedCPUCount E <= CPUs (fst s') <= MaximumAllowedCPUCount E) /\
  (MinimumAllowedMemorySize E <= MaximumAllowedMemorySize E ->
   MinimumAllowedMemorySize E <= Memory (fst s') <= MaximumAllowedMemorySize E).
Proof.
  intros Hi Hd Hrun.
  pose proof (Start_outcomes E I s Hi) as Hwp. unfold wp in Hwp.
  rewrite Hrun in Hwp. destruct Hwp as [_ Hout].
  unfold Start_outcome in Hout. cbv zeta in Hout.
  destruct Hout as [(Hd' & _) | (b & l & n & m & Hb & _ & [v Hn] & [v' Hm] & Hout)];
    [done |].
  specialize (Hb Hd). subst b.
  destruct (prepared_vm_fields (bundle (HostDataDir (fst s)) false) l n m (fst s))
    as (HXi & HXl & HXf & HXn & HXm & _ & _ & HXs & HXd & _ & _ & HXo & HXa).
  set (X := prepared_vm (bundle (HostDataDir (fst s)) false) l n m (fst s)) in *.
  assert (Hfin : forall Y,
             dir_kept Y (fst s') ->
             Install Y = Install X -> SharedDirectories Y = SharedDirectories X ->
             HostDataDir Y = HostDataDir X -> files Y = files X ->
             Logger Y = Logger X -> OS Y = OS X -> Arch Y = Arch X ->
             CPUs Y = CPUs X -> Memory Y = Memory X ->
             Install (fst s') = false /\
             SharedDirectories (fst s') = SharedDirectories (fst s) /\
             HostDataDir (fst s') = HostDataDir (fst s) /\
             files (fst s') = bundle (HostDataDir (fst s)) false /\
             is_Some (Logger (fst s')) /\
             OS (fst s') = (if bool_decide (OS (fst s) = ""%string)
                            then "linux"%string else OS (fst s)) /\
             Arch (fst s') = (if bool_decide (Arch (fst s) = ""%string)
                              then "aarch64"%string else Arch (fst s)) /\
             (OS (fst s) = ""%string -> Arch (fst s) = ""%string ->
              nixSystem (fst s') = "aarch64-linux"%string) /\
             (MinimumAllowedCPUCount E <= MaximumAllowedCPUCount E ->
              MinimumAllowedCPUCount E <= CPUs (fst s')
              <= MaximumAllowedCPUCount E) /\
             (MinimumAllowedMemorySize E <= MaximumAllowedMemorySize E ->
              MinimumAllowedMemorySize E <= Memory (fst s')
              <= MaximumAllowedMemorySize E)).
  { intros Y HY Yi Ys Yd Yf Yl Yo Ya Yn Ym.
    assert (Hos : OS (fst s') = (if bool_decide (OS (fst s) = ""%string)
                                 then "linux"%string else OS (fst s))).
    { rewrite (dir_kept_OS _ _ HY). congruence. }
    assert (Har : Arch (fst s') = (if bool_decide (Arch (fst s) = ""%string)
                                   then "aarch64"%string else Arch (fst s))).
    { rewrite (dir_kept_Arch _ _ HY). congruence. }
    split; [rewrite (dir_kept_Install _ _ HY); congruence |].
    split; [rewrite (dir_kept_SharedDirectories _ _ HY); congruence |].
    split; [rewrite (dir_kept_HostDataDir _ _ HY); congruence |].
    split; [rewrite (dir_kept_files _ _ HY); congruence |].
    split; [rewrite (dir_kept_Logger _ _ HY), Yl, HXl; by eexists |].
    split; [done |]. split; [done |].
    split.
    { intros Ho Ha. unfold nixSystem. rewrite Hos, Har, Ho, Ha. reflexivity. }
    split.
    - intros Hle. rewrite (dir_kept_CPUs _ _ HY), Yn, HXn, Hn.
      by apply clamp_range.
    - intros Hle. rewrite (dir_kept_Memory _ _ HY), Ym, HXm, Hm.
      by apply clamp_range. }
  destruct Hout as [(e1 & _ & HX & _) | (init & _ & Hout)].
  { by apply (Hfin _ HX). }
  destruct Hout as [(e1 & _ & HX & _) | [(_ & _ & _ & HX) | (term & _ & _ & Hout)]].
  { apply (Hfin _ HX); by destruct X. }
  { apply (Hfin _ HX); by destruct X. }
  destruct Hout as [(e1 & _ & HX) | Hout].
  { apply (Hfin _ HX); by destruct X. }
  unfold devices_outcome in Hout. cbv zeta in Hout.
  destruct Hout as [(msg & e1 & c' & ds' & id' & _ & HX)
                   | (ds & id & mac & _ & Hout)].
  { apply (Hfin _ HX); by destruct X. }
  destruct Hout as [[_ HX] | [(e1 & _ & _ & HX) | (_ & _ & _ & HX)]];
    apply (Hfin _ HX); by destruct X.
Qed.

Lemma start_keeps_the_request_witness :
  exists r s',
    Start Example.engine Example.installer (Example.machine, Example.host)
    = Some (r, s') /\
    nixSystem (fst s') = "aarch64-linux"%string.
Proof.
  destruct (Start Example.engine Example.installer
              (Example.machine, Example.host)) as [[r s'] |] eqn:Hrun;
    [| vm_compute in Hrun; discriminate Hrun].
  exists r, s'. split; [reflexivity |].
  destruct (start_keeps_the_request Example.engine Example.installer
              (Example.machine, Example.host) s' r eq_refl
              ltac:(discriminate) Hrun)
    as (_ & _ & _ & _ & _ & _ & _ & Hnix & _).
  apply Hnix; reflexivity.
Defined.

(** ** The data directory *)

(** A data directory that [dataFilePath] had to choose is new. *)
Lemma dataFilePath_fresh name s s' p :
  dataFilePath name s = Some (inl p, s') ->
  HostDataDir (fst s) = ""%string ->
  let d := HostDataDir (fst s') in
  fs (snd s) !! d = None /\ fs (snd s') = <[d := NDir]> (fs (snd s)).
Proof.
  intros Hrun Hd d. revert Hrun. unfold dataFilePath, bind at 1, get_vm.
  cbn [fst snd]. rewrite bool_decide_eq_true_2 by done. unfold bind at 1.
  pose proof (MkdirTemp_try_frame (Z.to_nat 9999) "devboxvm-" s) as Hwp.
  unfold wp in Hwp. fold (MkdirTemp "devboxvm-") in Hwp.
  destruct (MkdirTemp "devboxvm-" s) as [[[q | e] s1] |]; [| done | done].
  destruct Hwp as (Hvm & _ & _ & Hnone & Hfs).
  unfold bind, modify_vm, ret. intros [= <- <-]. subst d. cbn [fst snd].
  replace (HostDataDir (set_HostDataDir q (fst s1))) with q
    by (by destruct (fst s1)).
  done.
Qed.

(** X13.  The data directory is chosen once.  When [dataFilePath]
    returns a path, the data directory is set and the path is the
    given name inside it.  A directory that was set is used as it is,
    without touching the host; an unset one is a temporary directory
    that did not exist and that the call makes.  Every later call, for
    any name, answers inside the same directory and changes nothing. *)
Theorem data_directory_is_chosen_once
    (name : string) (s s' : VM * World) (p : string) :
  dataFilePath name s = Some (inl p, s') ->
  let d := HostDataDir (fst s') in
  d <> ""%string /\ p = Join [d; name] /\
  (HostDataDir (fst s) <> ""%string -> s' = s) /\
  (HostDataDir (fst s) = ""%string ->
   fs (snd s) !! d = None /\ fs (snd s') = <[d := NDir]> (fs (snd s))) /\
  forall name2,
    dataFilePath name2 s' = Some (inl (Join [d; name2]), s').
Proof.
  intros Hrun d.
  assert (Hfresh : HostDataDir (fst s) = ""%string ->
            fs (snd s) !! d = None /\ fs (snd s') = <[d := NDir]> (fs (snd s))).
  { intros Hd. by apply (dataFilePath_fresh name s s' p). }
  pose proof (dataFilePath_frame name s) as Hwp. unfold wp in Hwp.
  rewrite Hrun in Hwp. destruct Hwp as (_ & _ & Hsame & Hd & ->).
  fold d in Hd |- *. split; [done |]. split; [done |]. split; [done |].
  split; [done |]. intros name2. destruct s' as [vm' w'].
  by apply dataFilePath_set.
Qed.

Lemma data_directory_is_chosen_once_witness :
  exists p s',
    dataFilePath "cpu" (zero_VM, Example.host) = Some (inl p, s') /\
    dataFilePath "mem" s' = Some (inl (Join [HostDataDir (fst s'); "mem"%string]), s').
Proof.
  destruct (dataFilePath "cpu" (zero_VM, Example.host))
    as [[[p | e] s'] |] eqn:Hrun;
    [| vm_compute in Hrun; discriminate Hrun
     | vm_compute in Hrun; discriminate Hrun].
  exists p, s'. split; [reflexivity |].
  apply (data_directory_is_chosen_once "cpu" (zero_VM, Example.host) s' p Hrun).
Defined.

(** X14.  A VM without a data directory gets two temporary
    directories.  [Start] hands the empty [HostDataDir] to
    [fileBundle], which makes a temporary directory for the bundle but
    assigns no data directory; the first [dataFilePath] after it makes
    another one.  The bundle's directory and the data directory that
    holds the state files are then two different, existing
    directories. *)
Theorem bundle_and_data_directory_differ
    (name : string) (s s1 s2 : VM * World) (b : dataDirectory) (p : string) :
  HostDataDir (fst s) = ""%string ->
  fileBundle (HostDataDir (fst s)) s = Some (inl b, s1) ->
  dataFilePath name s1 = Some (inl p, s2) ->
  d_isTemp b = true /\
  HostDataDir (fst s1) = ""%string /\
  d_path b <> HostDataDir (fst s2) /\
  fs (snd s2) !! d_path b = Some NDir /\
  fs (snd s2) !! HostDataDir (fst s2) = Some NDir.
Proof.
  intros Hd Hb Hp.
  pose proof (fileBundle_frame (HostDataDir (fst s)) s) as Hwp.
  unfold wp in Hwp. rewrite Hb in Hwp.
  destruct Hwp as (Hvm1 & _ & _ & Htmp).
  destruct (Htmp Hd) as (tmp & -> & Hne & Hnone & Hfs1).
  assert (Hd1 : HostDataDir (fst s1) = ""%string) by (by rewrite Hvm1).
  destruct (dataFilePath_fresh name s1 s2 p Hp Hd1)
    as [Hnone2 Hfs2].
  cbn [bundle d_isTemp d_path]. split; [done |]. split; [done |].
  assert (Hdiff : tmp <> HostDataDir (fst s2)).
  { intros Heq. rewrite <- Heq, Hfs1, lookup_insert_eq in Hnone2. done. }
  split; [done |]. rewrite Hfs2, Hfs1. split.
  - rewrite lookup_insert_ne by done. apply lookup_insert_eq.
  - apply lookup_insert_eq.
Qed.

Lemma bundle_and_data_directory_differ_witness :
  exists b s1 p s2,
    fileBundle "" (zero_VM, Example.host) = Some (inl b, s1) /\
    dataFilePath "log" s1 = Some (inl p, s2) /\
    d_path b <> HostDataDir (fst s2).
Proof.
  destruct (fileBundle "" (zero_VM, Example.host))
    as [[[b | e] s1] |] eqn:Hb;
    [| vm_compute in Hb; discriminate Hb | vm_compute in Hb; discriminate Hb].
  destruct (dataFilePath "log" s1) as [[[p | e] s2] |] eqn:Hp;
    [| vm_compute in Hb; injection Hb as _ <-; vm_compute in Hp;
       discriminate Hp
     | vm_compute in Hb; injection Hb as _ <-; vm_compute in Hp;
       discriminate Hp].
  exists b, s1, p, s2. split; [reflexivity |]. split; [exact Hp |].
  apply (bundle_and_data_directory_differ "log" (zero_VM, Example.host)
           s1 s2 b p eq_refl Hb Hp).
Defined.

(** ** The log file *)

Lemma OpenFile_log_file fs path f :
  fs !! path = Some (NFile f) -> OpenFile fs path flag_log = (None, fs).
Proof. intros H. unfold OpenFile. by rewrite H. Qed.

Lemma OpenFile_log_dir fs path :
  fs !! path = Some NDir -> OpenFile fs path flag_log = (Some EISDIR, fs).
Proof. intros H. unfold OpenFile. by rewrite H. Qed.

(** X15.  [initLogger] never truncates the log and never fails.  With
    the data directory set: an existing log file is opened as it is
    (the host does not change) and becomes the VM's logger, replacing
    the caller's; a missing one is created empty in an existing
    directory; and when the log cannot be opened (a directory is in
    its place) the VM falls back to the default logger, on which the
    failure is reported. *)
Theorem log_file_is_appended_to
    (vm : VM) (w : World) :
  HostDataDir vm <> ""%string ->
  let path := Join [HostDataDir vm; "log"%string] in
  (forall f, fs w !! path = Some (NFile f) ->
     initLogger (vm, w) = Some (tt, (set_Logger (Some (FileLogger path)) vm, w))) /\
  (fs w !! path = None -> fs w !! Dir path = Some NDir ->
     initLogger (vm, w)
     = Some (tt, (set_Logger (Some (FileLogger path)) vm,
                  set_fs (<[path := NFile empty_file]> (fs w)) w))) /\
  (fs w !! path = Some NDir ->
     initLogger (vm, w)
     = Some (tt, (set_Logger (Some DefaultLogger) vm,
                  set_trace
                    (trace w ++
                       [EvLog DefaultLogger "ERROR"
                          "could not create log file, using slog.Default()"])
                    w))).
Proof.
  intros Hd path. split; [| split].
  - intros f Hf. unfold initLogger, bind.
    rewrite (dataFilePath_set _ _ _ Hd). fold path flag_log. unfold os_OpenFile.
    rewrite on_fs_eq, (OpenFile_log_file _ _ _ Hf).
    cbn [fst snd is_ErrNotExist initLogger_opened]. unfold modify_vm.
    cbn [fst snd]. by rewrite set_fs_same.
  - intros Hf Hdir. unfold initLogger, bind.
    rewrite (dataFilePath_set _ _ _ Hd). fold path. unfold os_OpenFile.
    rewrite on_fs_eq, (OpenFile_create_absent _ _ _ Hf Hdir) by done.
    by cbn [fst snd is_ErrNotExist initLogger_opened].
  - intros Hf. unfold initLogger, bind.
    rewrite (dataFilePath_set _ _ _ Hd). fold path flag_log. unfold os_OpenFile.
    rewrite on_fs_eq, (OpenFile_log_dir _ _ Hf).
    cbn [fst snd is_ErrNotExist initLogger_opened]. rewrite set_fs_same.
    unfold initLogger_fail, bind, modify_vm. cbn [fst snd].
    rewrite (log_eq _ _ _ _ DefaultLogger) by (by destruct vm). done.
Qed.

Lemma log_file_is_appended_to_witness :
  initLogger (Example.machine, ExampleFiles.used)
  = Some (tt, (set_Logger (Some (FileLogger "/var/vm/log")) Example.machine,
               ExampleFiles.used)) /\
  fs ExampleFiles.used !! "/var/vm/log"%string = Some (NFile ExampleFiles.log_file).
Proof.
  split; [| reflexivity].
  refine (proj1 (log_file_is_appended_to Example.machine ExampleFiles.used _)
                ExampleFiles.log_file _); [discriminate | reflexivity].
Defined.

(** ** The disk image when its creation fails half-way *)

(** X16.  A failed truncate leaves an empty image behind, and later
    calls take it for the disk.  When [rootDisk] creates the image and
    [Truncate] refuses the size (a negative [DiskSize]), the error
    "truncate new root disk image" is returned but the empty file
    stays.  The next call finds the file, so it neither creates nor
    sizes anything, whatever [DiskSize] then asks for: the image keeps
    size zero. *)
Theorem failed_truncate_leaves_empty_image (E : Engine) (vm : VM) (w : World) :
  HostDataDir vm <> ""%string ->
  DiskSize vm < 0 ->
  let path := Join [HostDataDir vm; "disk.img"%string] in
  let w1 := set_fs (<[path := NFile empty_file]> (fs w)) w in
  fs w !! path = None -> fs w !! Dir path = Some NDir ->
  rootDisk E (vm, w)
  = Some (inr (Errorf "truncate new root disk image" EINVAL), (vm, w1)) /\
  forall size2,
  exists r2,
    rootDisk E (set_DiskSize size2 vm, w1)
    = Some (r2, (set_DiskSize size2 vm, w1)).
Proof.
  intros Hd Hneg path w1 Hf Hdir. split.
  - unfold rootDisk, bind at 1.
    rewrite (dataFilePath_set _ _ _ Hd). fold flag_excl path.
    unfold bind at 1, os_OpenFile.
    rewrite on_fs_eq, (OpenFile_create_absent _ _ _ Hf Hdir) by done.
    cbn [fst snd is_ErrNotExist rootDisk_opened is_nil rootDisk_created].
    fold w1. unfold bind at 1, get_vm. cbn [fst snd].
    destruct (Z.eqb_spec (DiskSize vm) 0) as [Hz | _]; [lia |].
    unfold bind at 1, ret. unfold bind at 1, get_vm. cbn [fst snd].
    unfold bind, os_Truncate. rewrite on_fs_eq. unfold Truncate.
    replace (fs w1 !! path) with (Some (NFile empty_file))
      by (symmetry; apply lookup_insert_eq).
    destruct (Z.ltb_spec (DiskSize vm) 0) as [_ | Hge]; [| lia].
    cbn [fst snd]. by rewrite set_fs_same.
  - intros size2. apply (rootDisk_existing E _ _ (NFile empty_file)).
    + by destruct vm.
    + replace (HostDataDir (set_DiskSize size2 vm)) with (HostDataDir vm)
        by (by destruct vm).
      apply lookup_insert_eq.
Qed.

Lemma failed_truncate_leaves_empty_image_witness :
  rootDisk Example.engine (set_DiskSize (-1) Example.machine, Example.host)
  = Some (inr (Errorf "truncate new root disk image" EINVAL),
          (set_DiskSize (-1) Example.machine,
           set_fs (<["/var/vm/disk.img"%string := NFile empty_file]>
                     (fs Example.host)) Example.host)).
Proof.
  apply (failed_truncate_leaves_empty_image Example.engine
           (set_DiskSize (-1) Example.machine) Example.host);
    [discriminate | reflexivity | reflexivity | reflexivity].
Defined.

(** ** The machine identifier *)

(** X17.  A stored identifier is reused, and it wins over the
    caller's.  With an id file from which [Fscanf] reads a non-empty
    byte string, [configureLinuxPlatform] sets [ID] to those bytes,
    whatever [ID] held before, and builds the platform from them: no
    new identifier is drawn and nothing is written. *)
Theorem stored_identifier_is_reused
    (E : Engine) (vm : VM) (w : World) (f : file) (b : list byte)
    (l : logger) (c : Configuration) :
  HostDataDir vm <> ""%string ->
  fs w !! Join [HostDataDir vm; "id"%string] = Some (NFile f) ->
  Fscanf_v KBytes (file_bytes f) = inl (BytesVal b) ->
  b <> [] ->
  Logger vm = Some l ->
  config vm = Some c ->
  NewGenericMachineIdentifierWithData E b = None ->
  NewGenericPlatformConfiguration E b = None ->
  configureLinuxPlatform E (vm, w)
  = Some (None,
          (set_config (Some (set_c_platform (Some b) c)) (set_ID b vm),
           set_trace (trace w ++ [EvLog l "DEBUG" "loaded machine identifier"])
                     w)).
Proof.
  intros Hd Hf Hscan Hb Hl Hc Hid Hplat.
  unfold configureLinuxPlatform, bind at 1.
  assert (Hload : loadStateData "id" FID (vm, w) = Some (None, (set_ID b vm, w))).
  { unfold loadStateData, bind.
    rewrite (dataFilePath_set _ _ _ Hd). unfold os_OpenFile.
    rewrite on_fs_eq, (OpenFile_rdonly_file _ _ _ Hf).
    cbn [fst snd is_ErrNotExist]. rewrite set_fs_same.
    unfold Fscanf_file, bind, get_world. cbn [fst snd]. unfold ReadFile.
    rewrite Hf. cbn [field_kind]. by rewrite Hscan. }
  rewrite Hload. unfold bind at 1, get_vm. cbn [fst snd].
  replace (ID (set_ID b vm)) with b by (by destruct vm).
  destruct b as [| x b]; [done |]. cbn [length Nat.eqb]. rewrite Hid.
  unfold bind at 1.
  rewrite (log_eq _ _ _ _ l) by (by destruct vm).
  unfold configureLinuxPlatform_platform. rewrite Hplat. unfold bind.
  rewrite (with_config_eq _ _ _ c) by (by destruct vm). done.
Qed.

Lemma stored_identifier_is_reused_witness :
  configureLinuxPlatform Example.engine
    (set_ID (text "mine") Example.configured_machine, ExampleFiles.used)
  = Some (None,
          (set_config
             (Some (set_c_platform (Some (text "[97")) Example.configuration))
             (set_ID (text "[97")
                (set_ID (text "mine") Example.configured_machine)),
           set_trace
             (trace ExampleFiles.used ++
                [EvLog DefaultLogger "DEBUG" "loaded machine identifier"])
             ExampleFiles.used)).
Proof.
  apply (stored_identifier_is_reused Example.engine
           (set_ID (text "mine") Example.configured_machine) ExampleFiles.used
           {| fsize := Z.of_nat (length (Sprintf_v_nl (BytesVal (text "abc"))));
              fdata := Sprintf_v_nl (BytesVal (text "abc")) |}
           (text "[97") DefaultLogger Example.configuration);
    [discriminate | reflexivity | vm_compute; reflexivity | discriminate
    | reflexivity | reflexivity | reflexivity | reflexivity].
Defined.

(** ** Shared directories, outside and inside install mode *)

Lemma logged_refl w : logged w w.
Proof. exists []. rewrite app_nil_r. by destruct w. Qed.

Lemma logged_trans w1 w2 w3 : logged w1 w2 -> logged w2 w3 -> logged w1 w3.
Proof.
  intros [t1 ->] [t2 ->]. exists (t1 ++ t2). rewrite app_assoc.
  by destruct w1.
Qed.

Lemma logged_one w ev : logged w (set_trace (trace w ++ [ev]) w).
Proof. by exists [ev]. Qed.

Lemma logged_calm w w' : logged w w' -> calm w w'.
Proof. intros [t ->]. apply calm_set_trace. Qed.

Lemma Mkdir_creates fs path fs' :
  Mkdir fs path = (None, fs') -> fs' !! path = Some NDir.
Proof.
  unfold Mkdir. destruct (fs !! path); [done |].
  destruct (parent_of fs path); [done |]. intros [= <-].
  apply lookup_insert_eq.
Qed.

(** A successful [MkdirAll] leaves a directory at the path. *)
Lemma MkdirAll_creates fs path fs' :
  MkdirAll fs path = (None, fs') -> fs' !! path = Some NDir.
Proof.
  unfold MkdirAll. destruct (String.length path) as [| fuel];
    cbn [MkdirAll_rec].
  - destruct (fs !! path) as [[| f] |] eqn:Hl.
    + by intros [= <-].
    + done.
    + apply Mkdir_creates.
  - destruct (fs !! path) as [[| f] |] eqn:Hl.
    + by intros [= <-].
    + done.
    + destruct (if bool_decide (MkdirAll_parent path = ""%string)
                then (None, fs)
                else MkdirAll_rec fuel fs (MkdirAll_parent path))
        as [[e |] fs1]; [done |].
      destruct (Mkdir fs1 path) as [err1 fs2] eqn:Hmk.
      destruct err1 as [e1 |].
      * destruct (fs2 !! path) as [[| f] |] eqn:Hl2; [| done | done].
        by intros [= <-].
      * intros [= <-]. by apply (Mkdir_creates fs1).
Qed.

Section Shares.

Variable E : Engine.
Variable I : Installer.

Lemma configureDirShare_logged l path ro s :
  Logger (fst s) = Some l ->
  wp (configureDirShare E path ro)
     (fun r s' =>
        fst s' = fst s /\ logged (snd s) (snd s') /\
        match r with
        | inl d => d = {| share_tag := Base path; share_path := path;
                          share_readOnly := ro |}
        | inr _ => s' = s
        end) s.
Proof.
  intros Hl. unfold configureDirShare.
  destruct (NewSharedDirectory E path ro); [wp_steps |];
    [split; [done | split; [apply logged_refl | by destruct s]] |].
  destruct (NewSingleDirectoryShare E path); [wp_steps |];
    [split; [done | split; [apply logged_refl | by destruct s]] |].
  destruct (NewVirtioFileSystemDeviceConfiguration E (Base path)); [wp_steps |];
    [split; [done | split; [apply logged_refl | by destruct s]] |].
  wp_step. apply (log_wp _ _ l); [done |]. wsimpl. wp_steps.
  split; [done | split; [apply logged_one | done]].
Qed.

Lemma attachSharedDirs_loop_logged l dirs : forall configs s,
  Logger (fst s) = Some l ->
  wp (attachSharedDirs_loop E dirs configs)
     (fun r s' =>
        fst s' = fst s /\ logged (snd s) (snd s') /\
        match r with
        | inl cs => cs = configs ++ map dirshare dirs
        | inr _ => True
        end) s.
Proof.
  induction dirs as [| d dirs IH]; intros configs s Hl;
    cbn [attachSharedDirs_loop map].
  - wp_steps. split; [done | split; [apply logged_refl |]].
    by rewrite app_nil_r.
  - wp_step. eapply wp_mono; [by apply (configureDirShare_logged l) |].
    intros [cfg | e] s1 (Hvm & Hc & Hr).
    + eapply wp_mono; [apply IH; by rewrite Hvm |].
      intros r s' (Hvm' & Hc' & Hr'). split; [congruence |].
      split; [by eapply logged_trans |].
      destruct r as [cs |]; [| done]. rewrite Hr', Hr, <- app_assoc. done.
    + wp_steps. split; [done | split; [done | done]].
Qed.

Lemma attachSharedDirs_configs_logged l c s :
  Logger (fst s) = Some l ->
  config (fst s) = Some c ->
  wp (attachSharedDirs_configs E)
     (fun r s' =>
        logged (snd s) (snd s') /\
        match r with
        | None =>
            fst s' = set_config
                       (Some (set_c_shares
                                (map dirshare (SharedDirectories (fst s))) c))
                       (fst s)
        | Some _ => fst s' = fst s
        end) s.
Proof.
  intros Hl Hc. unfold attachSharedDirs_configs. wp_steps.
  eapply wp_mono; [by apply (attachSharedDirs_loop_logged l) |].
  intros [cs | e] s1 (Hvm & Hlog & Hr).
  - subst cs. cbn [app]. wp_step.
    apply (with_config_wp _ c); [by rewrite Hvm |]. wsimpl.
    wp_step. apply (log_wp _ _ l).
    { cbn [fst]. by rewrite Logger_set_config, Hvm. }
    wsimpl. wp_steps. split.
    + eapply logged_trans; [exact Hlog | apply logged_one].
    + by rewrite Hvm.
  - wp_steps. done.
Qed.

(** In install mode, with a script generator that answers [script]
    and leaves the state alone. *)
Lemma attachSharedDirs_install_frame l c script s :
  Install (fst s) = true ->
  Logger (fst s) = Some l ->
  config (fst s) = Some c ->
  generateBootstrapScript I s = Some (inl script, s) ->
  wp (attachSharedDirs E I)
     (fun r s' =>
        match r with
        | None =>
            let bootDir := Join [HostDataDir (fst s'); "boot"%string] in
            let all := SharedDirectories (fst s)
                       ++ implicit_shares script bootDir in
            HostDataDir (fst s') <> ""%string /\
            fs (snd s') !! bootDir = Some NDir /\
            dir_kept (set_config (Some (set_c_shares (map dirshare all) c))
                                 (set_SharedDirectories all (fst s)))
                     (fst s')
        | Some _ => True
        end) s.
Proof.
  intros Hi Hl Hc Hgen. unfold attachSharedDirs. wp_steps. rewrite Hi.
  wp_step. unfold wp at 1. rewrite Hgen. wp_step.
  eapply wp_mono; [apply dataFilePath_frame |].
  intros [bootDir | e] s1 (Hvm & Hq & _ & Hp); [| by wp_steps].
  destruct Hp as [Hd ->]. wp_step. unfold os_MkdirAll. apply on_fs_wp. wsimpl.
  destruct (MkdirAll _ _) as [[e |] fs2] eqn:Hmk; wsimpl; [by wp_steps |].
  wp_steps.
  set (bootDir := Join [HostDataDir (fst s1); "boot"%string]) in *.
  set (all := SharedDirectories (fst s1) ++ implicit_shares script bootDir).
  eapply wp_mono.
  { apply (attachSharedDirs_configs_logged l c); cbn [fst].
    - rewrite <- Hl, <- (dir_kept_Logger _ _ Hvm). by destruct (fst s1).
    - rewrite <- Hc, <- (dir_kept_config _ _ Hvm). by destruct (fst s1). }
  cbn [fst snd]. intros [e |] s' [Hlog Hr]; [done |].
  replace (SharedDirectories (set_SharedDirectories all (fst s1))) with all in Hr
    by (by destruct (fst s1)).
  assert (Hd' : HostDataDir (fst s') = HostDataDir (fst s1)).
  { rewrite Hr. by destruct (fst s1). }
  cbv zeta. rewrite Hd'. fold bootDir.
  rewrite <- (dir_kept_SharedDirectories _ _ Hvm). fold all.
  split; [done |]. split.
  - destruct Hlog as [t ->]. wsimpl.
    by apply (MkdirAll_creates (fs (snd s1))).
  - rewrite Hr.
    apply (dir_kept_update
             (fun vm => set_config (Some (set_c_shares (map dirshare all) c))
                          (set_SharedDirectories all vm))); [| done].
    intros d vm. by destruct vm.
Qed.

End Shares.

(** X18.  Outside install mode the shares are attached all or none.
    [attachSharedDirs] returns; when it returns nil the configuration
    has one device for each of the caller's directories, in their
    order, tagged with the base name of its path and read-only as
    asked; when it returns an error the VM is exactly as before, with
    no device attached.  In the host only log records are added. *)
Theorem shares_are_attached_all_or_none
    (E : Engine) (I : Installer) (vm : VM) (w : World)
    (l : logger) (c : Configuration) :
  Install vm = false ->
  Logger vm = Some l ->
  config vm = Some c ->
  exists r vm' w',
    attachSharedDirs E I (vm, w) = Some (r, (vm', w')) /\
    logged w w' /\
    match r with
    | None =>
        vm' = set_config
                (Some (set_c_shares (map dirshare (SharedDirectories vm)) c)) vm
    | Some _ => vm' = vm
    end.
Proof.
  intros Hi Hl Hc.
  assert (Hwp : wp (attachSharedDirs E I)
                   (fun r s' =>
                      logged w (snd s') /\
                      match r with
                      | None =>
                          fst s' = set_config
                                     (Some (set_c_shares
                                              (map dirshare (SharedDirectories vm))
                                              c)) vm
                      | Some _ => fst s' = vm
                      end) (vm, w)).
  { unfold attachSharedDirs. wp_steps. rewrite Hi.
    by apply (attachSharedDirs_configs_logged E l c). }
  destruct (wp_elim _ _ _ Hwp) as (r & [vm' w'] & Hrun & Hlog & Hr).
  exists r, vm', w'. done.
Qed.

Lemma shares_are_attached_all_or_none_witness :
  exists w',
    attachSharedDirs Example.engine Example.installer
      (set_SharedDirectories
         [ {| Path := "/home/u/src"; ReadOnly := false |};
           {| Path := "/opt/tools/"; ReadOnly := true |} ]
         Example.configured_machine, Example.host)
    = Some (None,
            (set_config
               (Some (set_c_shares
                        [ {| share_tag := "src"; share_path := "/home/u/src";
                             share_readOnly := false |};
                          {| share_tag := "tools"; share_path := "/opt/tools/";
                             share_readOnly := true |} ]
                        Example.configuration))
               (set_SharedDirectories
                  [ {| Path := "/home/u/src"; ReadOnly := false |};
                    {| Path := "/opt/tools/"; ReadOnly := true |} ]
                  Example.configured_machine), w'))%string.
Proof.
  destruct (shares_are_attached_all_or_none Example.engine Example.installer
              (set_SharedDirectories
                 [ {| Path := "/home/u/src"; ReadOnly := false |};
                   {| Path := "/opt/tools/"; ReadOnly := true |} ]%string
                 Example.configured_machine) Example.host
              DefaultLogger Example.configuration eq_refl eq_refl eq_refl)
    as (r & vm' & w' & Hrun & _ & Hr).
  exists w'. rewrite Hrun. destruct r as [e |].
  - vm_compute in Hrun. discriminate Hrun.
  - subst vm'. reflexivity.
Defined.

(** X20.  In install mode every call adds the two implicit
    directories again.  [attachSharedDirs] appends the bootstrap
    directory and the boot directory to the VM's own
    [SharedDirectories]; a second call on the same VM appends them a
    second time, and the configuration then carries each of them
    twice (two pairs of devices with the same tags). *)
Theorem implicit_shares_accumulate
    (E : Engine) (I : Installer) (s s1 s2 : VM * World)
    (l : logger) (c : Configuration) (script : string) :
  Install (fst s) = true ->
  Logger (fst s) = Some l ->
  config (fst s) = Some c ->
  (forall s0, generateBootstrapScript I s0 = Some (inl script, s0)) ->
  attachSharedDirs E I s = Some (None, s1) ->
  attachSharedDirs E I s1 = Some (None, s2) ->
  let bootDir := Join [HostDataDir (fst s2); "boot"%string] in
  let twice := SharedDirectories (fst s)
               ++ implicit_shares script bootDir
               ++ implicit_shares script bootDir in
  SharedDirectories (fst s2) = twice /\
  exists c2, config (fst s2) = Some c2 /\ c_shares c2 = map dirshare twice.
Proof.
  intros Hi Hl Hc Hgen Hrun1 Hrun2.
  pose proof (attachSharedDirs_install_frame E I l c script s Hi Hl Hc (Hgen s))
    as Hwp1.
  unfold wp in Hwp1. rewrite Hrun1 in Hwp1. cbv zeta in Hwp1.
  destruct Hwp1 as (Hd1 & _ & Hk1).
  set (boot1 := Join [HostDataDir (fst s1); "boot"%string]) in *.
  set (all1 := SharedDirectories (fst s) ++ implicit_shares script boot1) in *.
  set (c1 := set_c_shares (map dirshare all1) c) in *.
  assert (Hi1 : Install (fst s1) = true).
  { rewrite (dir_kept_Install _ _ Hk1), <- Hi. by destruct (fst s). }
  assert (Hl1 : Logger (fst s1) = Some l).
  { rewrite (dir_kept_Logger _ _ Hk1), <- Hl. by destruct (fst s). }
  assert (Hc1 : config (fst s1) = Some c1).
  { rewrite (dir_kept_config _ _ Hk1). by destruct (fst s). }
  assert (Hs1 : SharedDirectories (fst s1) = all1).
  { rewrite (dir_kept_SharedDirectories _ _ Hk1). by destruct (fst s). }
  pose proof (attachSharedDirs_install_frame E I l c1 script s1 Hi1 Hl1 Hc1
                (Hgen s1)) as Hwp2.
  unfold wp in Hwp2. rewrite Hrun2 in Hwp2. cbv zeta in Hwp2.
  destruct Hwp2 as (Hd2 & _ & Hk2).
  assert (Hdir : HostDataDir (fst s2) = HostDataDir (fst s1)).
  { rewrite (dir_kept_HostDataDir _ _ Hk2); by destruct (fst s1). }
  cbv zeta. rewrite Hdir. fold boot1. rewrite Hdir in Hk2. fold boot1 in Hk2.
  rewrite Hs1 in Hk2. subst all1. rewrite <- app_assoc in Hk2.
  split.
  - rewrite (dir_kept_SharedDirectories _ _ Hk2). by destruct (fst s1).
  - eexists. split; [rewrite (dir_kept_config _ _ Hk2); reflexivity |].
    reflexivity.
Qed.

Lemma implicit_shares_accumulate_witness :
  exists s1 s2,
    attachSharedDirs Example.engine Example.installer
      (Example.install_machine, Example.host) = Some (None, s1) /\
    attachSharedDirs Example.engine Example.installer s1 = Some (None, s2) /\
    SharedDirectories (fst s2)
    = [ {| Path := "/home/u/src"; ReadOnly := false |};
        {| Path := "/var/vm/install"; ReadOnly := true |};
        {| Path := "/var/vm/boot"; ReadOnly := false |};
        {| Path := "/var/vm/install"; ReadOnly := true |};
        {| Path := "/var/vm/boot"; ReadOnly := false |} ]%string.
Proof.
  destruct (attachSharedDirs Example.engine Example.installer
              (Example.install_machine, Example.host))
    as [[[e |] s1] |] eqn:Hrun1;
    [vm_compute in Hrun1; discriminate Hrun1 |
    | vm_compute in Hrun1; discriminate Hrun1].
  destruct (attachSharedDirs Example.engine Example.installer s1)
    as [[[e |] s2] |] eqn:Hrun2;
    [vm_compute in Hrun1; injection Hrun1 as <-; vm_compute in Hrun2;
     discriminate Hrun2 |
    | vm_compute in Hrun1; injection Hrun1 as <-; vm_compute in Hrun2;
      discriminate Hrun2].
  exists s1, s2. split; [reflexivity |]. split; [exact Hrun2 |].
  destruct (implicit_shares_accumulate Example.engine Example.installer
              (Example.install_machine, Example.host) s1 s2
              DefaultLogger Example.configuration "/var/vm/install"
              eq_refl eq_refl eq_refl (fun s0 => eq_refl) Hrun1 Hrun2)
    as [Hshares _].
  rewrite Hshares. vm_compute in Hrun1. injection Hrun1 as <-.
  vm_compute in Hrun2. injection Hrun2 as <-. reflexivity.
Defined.

(** ** Disks in install mode; a new identifier *)

(** X22.  The root disk comes first.  In install mode, with an
    installer image that is obtained without touching the state, a
    successful [attachDisks] leaves exactly two storage devices: the
    image disk.img of the data directory, read-write, and after it
    the installer image. *)
Theorem installer_disk_follows_root_disk
    (E : Engine) (I : Installer) (s s' : VM * World)
    (l : logger) (c : Configuration) (iso : StorageDevice) :
  Install (fst s) = true ->
  Logger (fst s) = Some l ->
  config (fst s) = Some c ->
  (forall s0, installerDisk I s0 = Some (inl iso, s0)) ->
  attachDisks E I s = Some (None, s') ->
  HostDataDir (fst s') <> ""%string /\
  config (fst s')
  = Some (set_c_storage
            [DiskImage (Join [HostDataDir (fst s'); "disk.img"%string]) false;
             iso] c).
Proof.
  intros Hi Hl Hc Hiso Hrun.
  unfold attachDisks in Hrun.
  apply bind_inv in Hrun as ([root | e] & s1 & Hroot & Hrun); [| done].
  pose proof (rootDisk_frame E s) as Hwp. unfold wp in Hwp.
  rewrite Hroot in Hwp. destruct Hwp as ([n Hn] & _ & Hd & ->).
  apply bind_inv in Hrun as (vm1 & s1' & Hget & Hrun).
  injection Hget as <- <-.
  rewrite (dir_kept_Install _ _ Hn) in Hrun.
  replace (Install (set_DiskSize n (fst s))) with true in Hrun
    by (by destruct (fst s)).
  apply bind_inv in Hrun as (r & s2 & Hgen & Hrun).
  rewrite Hiso in Hgen. injection Hgen as <- <-.
  apply bind_inv in Hrun as ([] & s3 & Hcfg & Hrun).
  assert (Hc1 : config (fst s1) = Some c).
  { rewrite (dir_kept_config _ _ Hn). by destruct (fst s). }
  destruct s1 as [vm1 w1]. cbn [fst snd] in *.
  rewrite (with_config_eq _ _ _ _ Hc1) in Hcfg. injection Hcfg as <-.
  apply bind_inv in Hrun as ([] & s4 & Hlog & Hrun).
  assert (Hl1 : Logger vm1 = Some l).
  { rewrite (dir_kept_Logger _ _ Hn). by destruct (fst s). }
  rewrite (log_eq _ _ _ _ l) in Hlog by (by rewrite Logger_set_config).
  injection Hlog as <-. injection Hrun as <-. cbn [fst].
  split; by destruct vm1.
Qed.

Lemma installer_disk_follows_root_disk_witness :
  exists s',
    attachDisks Example.engine Example.installer
      (Example.install_machine, Example.host) = Some (None, s') /\
    config (fst s')
    = Some (set_c_storage [DiskImage "/var/vm/disk.img" false;
                           InstallerImage "nixos.iso"]
                          Example.configuration).
Proof.
  destruct (attachDisks Example.engine Example.installer
              (Example.install_machine, Example.host))
    as [[[e |] s'] |] eqn:Hrun;
    [vm_compute in Hrun; discriminate Hrun |
    | vm_compute in Hrun; discriminate Hrun].
  exists s'. split; [reflexivity |].
  destruct (installer_disk_follows_root_disk Example.engine Example.installer
              (Example.install_machine, Example.host) s'
              DefaultLogger Example.configuration (InstallerImage "nixos.iso")
              eq_refl eq_refl eq_refl (fun s0 => eq_refl) Hrun) as [_ Hcfg].
  rewrite Hcfg. vm_compute in Hrun. injection Hrun as <-. reflexivity.
Defined.

(** X23.  The first run draws one identifier and stores it.  With no
    identifier in the VM and no id file in the (existing) data
    directory, [configureLinuxPlatform] asks the engine for a new
    identifier once, sets [ID] to it, writes its text to the id file
    and builds the platform from it. *)
Theorem new_identifier_is_stored
    (E : Engine) (vm : VM) (w : World) (id : list byte)
    (l : logger) (c : Configuration) :
  HostDataDir vm <> ""%string ->
  let path := Join [HostDataDir vm; "id"%string] in
  fs w !! path = None -> fs w !! Dir path = Some NDir ->
  ID vm = [] ->
  Logger vm = Some l ->
  config vm = Some c ->
  NewGenericMachineIdentifier E (hd 0 (randoms w)) = inl id ->
  NewGenericPlatformConfiguration E id = None ->
  configureLinuxPlatform E (vm, w)
  = Some (None,
          (set_config (Some (set_c_platform (Some id) c)) (set_ID id vm),
           set_trace
             (trace w ++ [EvLog l "DEBUG" "created new machine identifier"])
             (set_fs (<[path := scalar_file (BytesVal id)]> (fs w))
                     (set_randoms (tl (randoms w)) w)))).
Proof.
  intros Hd path Hf Hdir Hid Hl Hc Hnew Hplat.
  unfold configureLinuxPlatform, bind at 1.
  assert (Hload : loadStateData "id" FID (vm, w) = Some (None, (vm, w))).
  { unfold loadStateData, bind.
    rewrite (dataFilePath_set _ _ _ Hd). fold path. unfold os_OpenFile.
    rewrite on_fs_eq.
    assert (Hopen : OpenFile (fs w) path O_RDONLY = (Some ErrNotExist, fs w)).
    { unfold OpenFile. rewrite Hf. unfold parent_of.
      by rewrite (parent_status_dir _ _ _ Hdir). }
    rewrite Hopen. cbn [fst snd is_ErrNotExist]. by rewrite set_fs_same. }
  rewrite Hload. unfold bind at 1, get_vm. cbn [fst snd]. rewrite Hid.
  cbn [length Nat.eqb]. unfold bind at 1, nextRandom, bind at 1, get_world.
  cbn [fst snd]. unfold bind at 1, modify_world, ret. cbn [fst snd].
  rewrite Hnew. unfold bind at 1, modify_vm. cbn [fst snd]. unfold bind at 1.
  rewrite (saveStateData_fresh "id" (BytesVal id));
    [| by destruct vm
     | by replace (HostDataDir (set_ID id vm)) with (HostDataDir vm)
         by (by destruct vm)
     | by replace (HostDataDir (set_ID id vm)) with (HostDataDir vm)
         by (by destruct vm)].
  replace (HostDataDir (set_ID id vm)) with (HostDataDir vm) by (by destruct vm).
  fold path. wsimpl. unfold bind at 1.
  rewrite (log_eq _ _ _ _ l) by (by destruct vm).
  unfold configureLinuxPlatform_platform. rewrite Hplat. unfold bind.
  rewrite (with_config_eq _ _ _ c) by (by destruct vm).
  unfold ret. by destruct w.
Qed.

Lemma new_identifier_is_stored_witness :
  exists w',
    configureLinuxPlatform Example.engine
      (Example.configured_machine, Example.host)
    = Some (None,
            (set_config
               (Some (set_c_platform (Some [chr 1; chr 2; chr 3])
                                     Example.configuration))
               (set_ID [chr 1; chr 2; chr 3] Example.configured_machine), w')) /\
    fs w' !! "/var/vm/id"%string
    = Some (scalar_file (BytesVal [chr 1; chr 2; chr 3])).
Proof.
  eexists. split.
  - apply (new_identifier_is_stored Example.engine Example.configured_machine
             Example.host [chr 1; chr 2; chr 3] DefaultLogger
             Example.configuration);
      [discriminate | reflexivity | reflexivity | reflexivity | reflexivity
      | reflexivity | reflexivity | reflexivity].
  - vm_compute. reflexivity.
Defined.

(** ** envsec exec: stored variables and the local environment *)

Module envcli_facts.

Import envcli.

Lemma attach_env_app environ envVars :
  attach_env environ envVars = environ ++ map entry envVars.
Proof.
  unfold attach_env. revert environ.
  induction envVars as [| v vs IH]; intros environ; cbn [fold_left map].
  - by rewrite app_nil_r.
  - rewrite IH, <- app_assoc. done.
Qed.

Lemma cut_entry k v : plain k -> cut (k +:+ "=" +:+ v) = Some (k, v).
Proof.
  unfold plain. induction k as [| c k IH].
  - done.
  - change (String c k +:+ "=" +:+ v) with (String c (k +:+ "=" +:+ v)).
    cbn [cut]. destruct (Ascii.eqb c "="); [done |].
    destruct (cut k) as [[k1 v1] |] eqn:Hk; [done |]. intros _.
    by rewrite IH.
Qed.

Lemma Getenv_from key env : forall found,
  fold_left (pick key) env found
  = match fold_left (pick key) env None with
    | Some v => Some v
    | None => found
    end.
Proof.
  induction env as [| kv env IH]; intros found; cbn [fold_left]; [done |].
  rewrite (IH (pick key found kv)), (IH (pick key None kv)).
  destruct (fold_left (pick key) env None); [done |].
  unfold pick. destruct (cut kv) as [[k v] |]; [| done].
  by destruct (String.eqb k key).
Qed.

Lemma Getenv_app key a b :
  Getenv (a ++ b) key
  = match Getenv b key with
    | Some v => Some v
    | None => Getenv a key
    end.
Proof.
  unfold Getenv. rewrite fold_left_app.
  apply Getenv_from.
Qed.

Lemma Getenv_entries key envVars :
  Forall (fun v => plain (Name v)) envVars ->
  Getenv (map entry envVars) key = stored envVars key.
Proof.
  unfold Getenv, stored.
  generalize (@None string). intros found Hplain. revert found.
  induction Hplain as [| v vs Hv _ IH]; intros found; cbn [map fold_left];
    [done |].
  unfold pick at 2, entry. rewrite (cut_entry _ _ Hv). apply IH.
Qed.

End envcli_facts.

(** X21.  Stored variables take precedence over local ones.  When the
    configuration and the list of stored variables are obtained, the
    command that is run is /bin/sh -c with the arguments joined by
    single spaces, and its environment is the environment of the
    process followed by one entry for each stored variable.  With
    os/exec's rule that the last entry for a key wins, the child sees
    for every name the value stored last under it, and the local value
    only when nothing is stored under the name (names without '=').
    An error of either step is returned and nothing is run. *)
Theorem stored_variables_take_precedence
    (err config : Type) (WithStack : err -> err)
    (List : config -> list envcli.EnvVar + err)
    (Run : envcli.Cmd -> option err)
    (cmdCfg : config) (envVars : list envcli.EnvVar)
    (environ args : list string) :
  List cmdCfg = inl envVars ->
  Forall (fun v => envcli.plain (envcli.Name v)) envVars ->
  exists cmd,
    envcli.RunE err WithStack config List Run (inl cmdCfg) environ args
    = Run cmd /\
    envcli.cmd_Path cmd = "/bin/sh"%string /\
    envcli.cmd_Args cmd
    = ["/bin/sh"; "-c"; envcli.strings_Join args " "]%string /\
    envcli.cmd_Env cmd = environ ++ map envcli.entry envVars /\
    forall key,
      envcli.Getenv (envcli.cmd_Env cmd) key
      = match envcli.stored envVars key with
        | Some v => Some v
        | None => envcli.Getenv environ key
        end.
Proof.
  intros Hlist Hplain. eexists. split.
  { unfold envcli.RunE. rewrite Hlist. reflexivity. }
  cbn [envcli.set_Env envcli.Command envcli.cmd_Path envcli.cmd_Args
       envcli.cmd_Env].
  split; [done |]. split; [done |].
  rewrite envcli_facts.attach_env_app. split; [done |]. intros key.
  rewrite envcli_facts.Getenv_app.
  by rewrite (envcli_facts.Getenv_entries key envVars Hplain).
Qed.

Lemma stored_variables_take_precedence_witness :
  exists cmd,
    envcli.RunE string (fun e => e) unit
      (fun _ => inl [ {| envcli.Name := "HOME"; envcli.Value := "/srv" |};
                      {| envcli.Name := "TOKEN"; envcli.Value := "s3" |} ])
      (fun _ => None) (inl tt)
      ["HOME=/root"; "PATH=/bin"] ["echo"; "$HOME"]
    = None /\
    envcli.cmd_Args cmd = ["/bin/sh"; "-c"; "echo $HOME"] /\
    envcli.Getenv (envcli.cmd_Env cmd) "HOME" = Some "/srv" /\
    envcli.Getenv (envcli.cmd_Env cmd) "PATH" = Some "/bin"%string.
Proof.
  destruct (stored_variables_take_precedence string unit (fun e => e)
              (fun _ => inl [ {| envcli.Name := "HOME"; envcli.Value := "/srv" |};
                              {| envcli.Name := "TOKEN"; envcli.Value := "s3" |} ])
              (fun _ => None) tt
              [ {| envcli.Name := "HOME"; envcli.Value := "/srv" |};
                {| envcli.Name := "TOKEN"; envcli.Value := "s3" |} ]
              ["HOME=/root"; "PATH=/bin"] ["echo"; "$HOME"] eq_refl)
    as (cmd & Hrun & _ & Hargs & _ & Hget).
  { repeat constructor. }
  exists cmd. split; [exact Hrun |]. split; [exact Hargs |].
  split; [rewrite Hget; reflexivity | rewrite Hget; reflexivity].
Defined.
